(** * AFClientService: load-state-aware retrieval and publish-info caching

    A shallow embedding of [src/application/services/js-services/index.ts].

    The class [AFClientService] keeps three pieces of session state (two
    [Set<string>] registries and one [Map<string, ...>] cache) and delegates
    everything else to imported modules (the cache module, the fetch module,
    [APIService], the session token, [SyncManager]).  The service state is
    modelled with stdpp's [gset] and [gmap]; the imported modules are the
    fields of the class [Platform]; an [async] method is a function from the
    machine state to a settled result, the new state and the list of calls it
    made to the imported modules. *)

From Stdlib Require Import Ascii.
From stdpp Require Import gmap strings list.

(** ** Values *)

(** [StrategyType] is imported from the cache module; these are the two
    members the service uses. *)
Inductive StrategyType := CACHE_FIRST | CACHE_AND_NETWORK.

(** What a promise can be rejected with: an [Error] built from a message, or
    a failure of an imported module carrying a numeric code (the shape the
    [errorCallback] of [getPageDoc] expects). *)
Inductive JsError :=
| Error (message : string)
| Failure (code : Z).

(** A settled promise. *)
Inductive Settled (A : Type) :=
| Resolved (a : A)
| Rejected (e : JsError).
Arguments Resolved {A} a.
Arguments Rejected {A} e.

(** JavaScript truthiness of a string, and of a value that may be
    [undefined]. *)
Definition truthy (s : string) : bool :=
  match s with EmptyString => false | String _ _ => true end.

Definition truthy_opt (o : option string) : bool :=
  match o with Some s => truthy s | None => false end.

(** The parsed session token: [token.user.id]. *)
Record TokenUser := { id : string }.
Record Token := { user : TokenUser }.

(** The record [getPublishInfo] builds and caches. *)
Record PublishInfo := {
  namespace : string;
  publishName : string;
  publisherEmail : string;
  viewId : string;
  publishedAt : string;
  commentEnabled : bool;
  duplicateEnabled : bool;
}.

(** The response of [fetchViewInfo]; [namespace] may be missing. *)
Record ViewInfo := {
  info_namespace : option string;
  publish_name : string;
  publisher_email : string;
  view_id : string;
  publish_timestamp : string;
  comments_enabled : bool;
  duplicate_enabled : bool;
}.

(** The instance fields of [AFClientService] that carry state. *)
Record AFClientService := {
  viewLoaded : gset string;
  publishViewLoaded : gset string;
  publishViewInfo : gmap string PublishInfo;
}.

(** [new AFClientService(config)]. *)
Definition new_service : AFClientService :=
  {| viewLoaded := ∅; publishViewLoaded := ∅; publishViewInfo := ∅ |}.

(** ** Entity keys

    [`${namespace}_${publishName}`] in [getPublishViewMeta] and
    [getPublishView], [`${userId}_${workspaceId}_${viewId}`] in
    [getPageDoc]. *)
Definition publishView_name (namespace publishName : string) : string :=
  namespace +:+ "_" +:+ publishName.

Definition pageDoc_name (userId workspaceId viewId : string) : string :=
  userId +:+ "_" +:+ workspaceId +:+ "_" +:+ viewId.

(** No ["_"] in [s]. *)
Fixpoint underscore_free (s : string) : bool :=
  match s with
  | EmptyString => true
  | String c s => negb (Ascii.eqb c "_"%char) && underscore_free s
  end.

(** ** Calls to the imported modules, in the order they are made *)
Inductive Call :=
(* '@/application/session/token' *)
| GetTokenParsed
(* '@/application/services/js-services/cache' *)
| CacheGetPublishViewMeta (namespace publishName : string) (strategy : StrategyType)
| CacheGetPublishView (namespace publishName : string) (strategy : StrategyType)
| CacheGetPageDoc (name : string) (strategy : StrategyType)
| CacheGetUser (userId : option string) (strategy : StrategyType)
| CacheHasViewMetaCache (name : string)
| CacheDeleteView (name : string)
(* '@/application/services/js-services/fetch' *)
| FetchPublishViewMeta (namespace publishName : string)
| FetchPublishView (namespace publishName : string)
| FetchPageCollab (workspaceId viewId : string)
| FetchViewInfo (viewId : string)
(* APIService *)
| ApiPublishView (workspaceId viewId : string)
| ApiUnpublishView (workspaceId viewId : string)
| ApiUpdatePublishNamespace (workspaceId : string)
| ApiUpdatePublishHomepage (workspaceId viewId : string)
| ApiRemovePublishHomepage (workspaceId : string)
| ApiUpdatePublishConfig (workspaceId viewId : string)
| ApiGetCurrentUser
| ApiGetUserWorkspaceInfo
(* '@/application/db' *)
| OpenCollabDB (viewId : string)
(* SyncManager *)
| SyncNew (userId workspaceId objectId : string)
| SyncInitialize (userId workspaceId objectId : string)
(* console.error and the caller's errorCallback *)
| ConsoleError (e : JsError)
| ErrorCallback (e : JsError).

(** The strategy a call asks the cache module for, if it is one of the
    keyed retrievals. *)
Definition requested (c : Call) : option StrategyType :=
  match c with
  | CacheGetPublishViewMeta _ _ s | CacheGetPublishView _ _ s
  | CacheGetPageDoc _ s | CacheGetUser _ s => Some s
  | _ => None
  end.

(** The calls [c] include [request], and [s] is the one strategy asked for
    in them. *)
Definition asks (c : list Call) (request : Call) (s : StrategyType) : Prop :=
  request ∈ c ∧ omap requested c = [s].

(** ** The cache module's retrieval functions

    [getPublishView(fetcher, key, strategy)] and its siblings receive the
    service's network-fetch closure.  What the cache module does with it is
    its own business: it may settle from what it has stored, or invoke the
    closure (any number of times) and go on from what the closure settled
    to.  While it awaits, the event loop may resume a function that the
    closure has detached during this call ([Turn]): the cleanup of a failed
    fetch can complete before the retrieval itself settles.  [w] is the
    state of the imported modules at that point. *)
Inductive CacheGet (W R D : Type) :=
| Settle (w : W) (r : Settled D)
| Fetcher (w : W) (k : Settled R → W → CacheGet W R D)
| Turn (w : W) (k : W → CacheGet W R D).
Arguments Settle {W R D} w r.
Arguments Fetcher {W R D} w k.
Arguments Turn {W R D} w k.

(** [UpdatePublishConfigPayload]: the service reads [view_id] only; the
    other fields travel to [APIService] untouched. *)
Record UpdatePublishConfigPayload (Fields : Type) := {
  config_view_id : string;
  config_fields : Fields;
}.
Arguments config_view_id {Fields} _.
Arguments config_fields {Fields} _.

(** What [APIService.getUserWorkspaceInfo] resolves to, and what
    [getUserWorkspaceInfo] makes of it. *)
Record WorkspaceInfoResponse (Id Ws : Type) := {
  user_id : string;
  selected_workspace : Id;
  response_workspaces : Ws;
}.
Arguments user_id {Id Ws} _.
Arguments selected_workspace {Id Ws} _.
Arguments response_workspaces {Id Ws} _.

Record UserWorkspaceInfo (Id Ws : Type) := {
  userId : string;
  selectedWorkspace : Id;
  workspaces : Ws;
}.
Arguments userId {Id Ws} _.
Arguments selectedWorkspace {Id Ws} _.
Arguments workspaces {Id Ws} _.

(** ** The imported modules *)
Class Platform := {
  (** state of everything outside the service: local database, server,
      session storage *)
  W : Type;
  YDoc : Type;
  ViewMeta : Type;
  User : Type;
  PublishedView : Type;
  PageCollab : Type;
  WorkspaceId : Type;
  Workspaces : Type;
  ApiResponse : Type;
  PublishViewPayload : Type;
  UploadPublishNamespacePayload : Type;
  PublishConfigFields : Type;
  CollabType : Type;
  (* session/token *)
  getTokenParsed : W → option Token;
  (* cache *)
  cache_getPublishViewMeta :
    string → string → StrategyType → W → CacheGet W ViewMeta (option ViewMeta);
  cache_getPublishView :
    string → string → StrategyType → W → CacheGet W PublishedView YDoc;
  cache_getPageDoc : string → StrategyType → W → CacheGet W PageCollab YDoc;
  cache_getUser :
    option string → StrategyType → W → CacheGet W User (option User);
  hasViewMetaCache : string → W → bool;
  deleteView : string → W → W;
  hasCollabCache : YDoc → bool;
  (* db *)
  openCollabDB : string → W → Settled YDoc * W;
  (* fetch *)
  fetchPublishViewMeta : string → string → W → Settled ViewMeta * W;
  fetchPublishView : string → string → W → Settled PublishedView * W;
  fetchPageCollab : string → string → W → Settled PageCollab * W;
  fetchViewInfo : string → W → Settled ViewInfo * W;
  (* APIService *)
  api_publishView :
    string → string → option PublishViewPayload → W → Settled ApiResponse * W;
  api_unpublishView : string → string → W → Settled ApiResponse * W;
  api_updatePublishNamespace :
    string → UploadPublishNamespacePayload → W → Settled ApiResponse * W;
  api_updatePublishHomepage : string → string → W → Settled ApiResponse * W;
  api_removePublishHomepage : string → W → Settled ApiResponse * W;
  api_updatePublishConfig :
    string → UpdatePublishConfigPayload PublishConfigFields → W →
    Settled ApiResponse * W;
  api_getCurrentUser : W → Settled User * W;
  api_getUserWorkspaceInfo :
    W → Settled (option (WorkspaceInfoResponse WorkspaceId Workspaces)) * W;
  (* SyncManager *)
  sync_initialize : YDoc → string → string → string → CollabType → W → W;
}.

(** The context argument of [registerDocUpdate]. *)
Record SyncContext `{Platform} := {
  ctx_workspaceId : string;
  ctx_objectId : string;
  ctx_collabType : CollabType;
}.

(** A detached task: what is left of [void (async () => { if (await
    hasViewMetaCache(name)) { ... } })()] once [hasViewMetaCache(name)] has
    been called, in the [catch] of [getPublishView]'s closure.  The call is
    made at once; the function then waits for its answer, [cached], and
    goes on after the code that started it has gone on.  (The detached
    function in [getPageDoc] has no [await]: its body runs at once, in
    place.) *)
Inductive Task :=
| InvalidatePublishView (name : string) (cached : bool).

Section Service.
Context `{P : Platform}.

(** ** Machine state and asynchronous computations *)
Record St := {
  this : AFClientService;
  world : W;
  detached : list Task;
}.

Definition Async (A : Type) : Type := St → Settled A * St * list Call.

Definition settled {A} (o : Settled A * St * list Call) : Settled A := o.1.1.
Definition final {A} (o : Settled A * St * list Call) : St := o.1.2.
Definition calls {A} (o : Settled A * St * list Call) : list Call := o.2.

Definition ret {A} (a : A) : Async A := λ st, (Resolved a, st, []).

(** [Promise.reject(e)] / [throw e]. *)
Definition reject {A} (e : JsError) : Async A := λ st, (Rejected e, st, []).

Definition bind {A B} (m : Async A) (f : A → Async B) : Async B :=
  λ st,
    match m st with
    | (Resolved a, st1, c1) =>
        match f a st1 with (r, st2, c2) => (r, st2, c1 ++ c2) end
    | (Rejected e, st1, c1) => (Rejected e, st1, c1)
    end.

(** [try { return await m } catch (e) { h e }]. *)
Definition try_catch {A} (m : Async A) (h : JsError → Async A) : Async A :=
  λ st,
    match m st with
    | (Resolved a, st1, c1) => (Resolved a, st1, c1)
    | (Rejected e, st1, c1) =>
        match h e st1 with (r, st2, c2) => (r, st2, c1 ++ c2) end
    end.

#[global] Instance async_ret : MRet Async := λ A a, ret a.
#[global] Instance async_bind : MBind Async := λ A B f m, bind m f.

(** A call to an imported module: it is recorded, and it acts on [world]. *)
Definition call {A} (c : Call) (f : W → Settled A * W) : Async A :=
  λ st,
    let '(r, w) := f (world st) in
    (r, {| this := this st; world := w; detached := detached st |}, [c]).

(** A call that cannot fail and returns nothing the service uses. *)
Definition call_void (c : Call) (f : W → W) : Async () :=
  call c (λ w, (Resolved (), f w)).

(** A call that only reads. *)
Definition call_query {A} (c : Call) (f : W → A) : Async A :=
  call c (λ w, (Resolved (f w), w)).

Definition get_this : Async AFClientService :=
  λ st, (Resolved (this st), st, []).

Definition set_this (s : AFClientService) : Async () :=
  λ st, (Resolved (), {| this := s; world := world st; detached := detached st |}, []).

(** Start a detached task. *)
Definition spawn (t : Task) : Async () :=
  λ st,
    (Resolved (),
     {| this := this st; world := world st; detached := detached st ++ [t] |},
     []).

(** [Set] and [Map] methods on the three fields. *)
Definition viewLoaded_has (name : string) : Async bool :=
  s ← get_this; mret (bool_decide (name ∈ viewLoaded s)).

Definition viewLoaded_add (name : string) : Async () :=
  s ← get_this;
  set_this {| viewLoaded := {[name]} ∪ viewLoaded s;
              publishViewLoaded := publishViewLoaded s;
              publishViewInfo := publishViewInfo s |}.

Definition viewLoaded_delete (name : string) : Async () :=
  s ← get_this;
  set_this {| viewLoaded := viewLoaded s ∖ {[name]};
              publishViewLoaded := publishViewLoaded s;
              publishViewInfo := publishViewInfo s |}.

Definition publishViewLoaded_has (name : string) : Async bool :=
  s ← get_this; mret (bool_decide (name ∈ publishViewLoaded s)).

Definition publishViewLoaded_add (name : string) : Async () :=
  s ← get_this;
  set_this {| viewLoaded := viewLoaded s;
              publishViewLoaded := {[name]} ∪ publishViewLoaded s;
              publishViewInfo := publishViewInfo s |}.

Definition publishViewLoaded_delete (name : string) : Async () :=
  s ← get_this;
  set_this {| viewLoaded := viewLoaded s;
              publishViewLoaded := publishViewLoaded s ∖ {[name]};
              publishViewInfo := publishViewInfo s |}.

Definition publishViewInfo_get (viewId : string) : Async (option PublishInfo) :=
  s ← get_this; mret (publishViewInfo s !! viewId).

Definition publishViewInfo_has (viewId : string) : Async bool :=
  s ← get_this; mret (bool_decide (is_Some (publishViewInfo s !! viewId))).

Definition publishViewInfo_set (viewId : string) (data : PublishInfo) : Async () :=
  s ← get_this;
  set_this {| viewLoaded := viewLoaded s;
              publishViewLoaded := publishViewLoaded s;
              publishViewInfo := <[viewId := data]> (publishViewInfo s) |}.

Definition publishViewInfo_delete (viewId : string) : Async () :=
  s ← get_this;
  set_this {| viewLoaded := viewLoaded s;
              publishViewLoaded := publishViewLoaded s;
              publishViewInfo := delete viewId (publishViewInfo s) |}.

Definition publishViewInfo_clear : Async () :=
  s ← get_this;
  set_this {| viewLoaded := viewLoaded s;
              publishViewLoaded := publishViewLoaded s;
              publishViewInfo := ∅ |}.

(** A detached task resumes: [if (cached) {
    this.publishViewLoaded.delete(name); void deleteView(name); }]. *)
Definition run_task (t : Task) : Async () :=
  match t with
  | InvalidatePublishView name cached =>
      if cached : bool then
        publishViewLoaded_delete name;;
        call_void (CacheDeleteView name) (deleteView name)
      else mret ()
  end.

(** The event loop resumes the oldest function detached since the call
    began.  The [base] functions that were waiting already when it began
    are left waiting: they are resumed between the calls of the service
    ([settle_detached] below). *)
Definition resume_detached (base : nat) : Async () :=
  λ st,
    match detached st !! base with
    | Some t =>
        run_task t
          {| this := this st; world := world st;
             detached := delete base (detached st) |}
    | None => (Resolved (), st, [])
    end.

(** The cache module runs, handed the closure [fetcher]. *)
Fixpoint run_cache_from {R D} (base : nat) (p : CacheGet W R D)
    (fetcher : Async R) : Async D :=
  λ st,
    match p with
    | Settle w r =>
        (r, {| this := this st; world := w; detached := detached st |}, [])
    | Fetcher w k =>
        match fetcher {| this := this st; world := w; detached := detached st |} with
        | (r, st1, c1) =>
            match run_cache_from base (k r (world st1)) fetcher st1 with
            | (r2, st2, c2) => (r2, st2, c1 ++ c2)
            end
        end
    | Turn w k =>
        match
          resume_detached base
            {| this := this st; world := w; detached := detached st |}
        with
        | (_, st1, c1) =>
            match run_cache_from base (k (world st1)) fetcher st1 with
            | (r2, st2, c2) => (r2, st2, c1 ++ c2)
            end
        end
    end.

Definition run_cache {R D} (p : CacheGet W R D) (fetcher : Async R) : Async D :=
  λ st, run_cache_from (length (detached st)) p fetcher st.

Definition cache_get {R D} (c : Call) (p : W → CacheGet W R D)
    (fetcher : Async R) : Async D :=
  λ st,
    match run_cache (p (world st)) fetcher st with
    | (r, st1, c1) => (r, st1, c :: c1)
    end.

(** ** The methods of [AFClientService] *)

Definition publishView (workspaceId viewId : string)
    (payload : option PublishViewPayload) : Async ApiResponse :=
  has ← publishViewInfo_has viewId;
  (if has : bool then publishViewInfo_delete viewId else mret ());;
  call (ApiPublishView workspaceId viewId)
       (api_publishView workspaceId viewId payload).

Definition unpublishView (workspaceId viewId : string) : Async ApiResponse :=
  has ← publishViewInfo_has viewId;
  (if has : bool then publishViewInfo_delete viewId else mret ());;
  call (ApiUnpublishView workspaceId viewId)
       (api_unpublishView workspaceId viewId).

Definition updatePublishNamespace (workspaceId : string)
    (payload : UploadPublishNamespacePayload) : Async ApiResponse :=
  publishViewInfo_clear;;
  call (ApiUpdatePublishNamespace workspaceId)
       (api_updatePublishNamespace workspaceId payload).

Definition updatePublishHomepage (workspaceId viewId : string) : Async ApiResponse :=
  call (ApiUpdatePublishHomepage workspaceId viewId)
       (api_updatePublishHomepage workspaceId viewId).

Definition removePublishHomepage (workspaceId : string) : Async ApiResponse :=
  call (ApiRemovePublishHomepage workspaceId)
       (api_removePublishHomepage workspaceId).

Definition getPublishViewMeta (namespace publishName : string) : Async ViewMeta :=
  let name := publishView_name namespace publishName in
  isLoaded ← publishViewLoaded_has name;
  viewMeta ← cache_get
    (CacheGetPublishViewMeta namespace publishName
       (if isLoaded : bool then CACHE_FIRST else CACHE_AND_NETWORK))
    (cache_getPublishViewMeta namespace publishName
       (if isLoaded : bool then CACHE_FIRST else CACHE_AND_NETWORK))
    (call (FetchPublishViewMeta namespace publishName)
          (fetchPublishViewMeta namespace publishName));
  match viewMeta with
  | None => reject (Error "View has not been published yet")
  | Some viewMeta => mret viewMeta
  end.

(** The closure [getPublishView] hands to the cache module.  The detached
    function in its [catch] runs in place up to its [await]: it calls
    [hasViewMetaCache(name)] there, before [return Promise.reject(e)], and
    what is left of it waits for the answer. *)
Definition getPublishView_fetcher (namespace publishName : string)
    : Async PublishedView :=
  let name := publishView_name namespace publishName in
  try_catch
    (call (FetchPublishView namespace publishName)
          (fetchPublishView namespace publishName))
    (λ e,
       call_void (ConsoleError e) (λ w, w);;
       cached ← call_query (CacheHasViewMetaCache name) (hasViewMetaCache name);
       spawn (InvalidatePublishView name cached);;
       reject e).

Definition getPublishView (namespace publishName : string) : Async YDoc :=
  let name := publishView_name namespace publishName in
  isLoaded ← publishViewLoaded_has name;
  doc ← cache_get
    (CacheGetPublishView namespace publishName
       (if isLoaded : bool then CACHE_FIRST else CACHE_AND_NETWORK))
    (cache_getPublishView namespace publishName
       (if isLoaded : bool then CACHE_FIRST else CACHE_AND_NETWORK))
    (getPublishView_fetcher namespace publishName);
  (if isLoaded : bool then mret () else publishViewLoaded_add name);;
  mret doc.

Definition getPublishRowDocument (viewId : string) : Async YDoc :=
  doc ← call (OpenCollabDB viewId) (openCollabDB viewId);
  if hasCollabCache doc then mret doc
  else reject (Error "Document not found").

Definition getPublishInfo (viewId : string) : Async PublishInfo :=
  cached ← publishViewInfo_get viewId;
  match cached with
  | Some record => mret record
  | None =>
      info ← call (FetchViewInfo viewId) (fetchViewInfo viewId);
      let namespace := info_namespace info in
      match namespace with
      | Some namespace =>
          if truthy namespace then
            let data :=
              {| namespace := namespace;
                 publishName := publish_name info;
                 publisherEmail := publisher_email info;
                 viewId := view_id info;
                 publishedAt := publish_timestamp info;
                 commentEnabled := comments_enabled info;
                 duplicateEnabled := duplicate_enabled info |} in
            publishViewInfo_set viewId data;;
            mret data
          else reject (Error "View not found")
      | None => reject (Error "View not found")
      end
  end.

Definition updatePublishConfig (workspaceId : string)
    (config : UpdatePublishConfigPayload PublishConfigFields)
    : Async ApiResponse :=
  publishViewInfo_delete (config_view_id config);;
  call (ApiUpdatePublishConfig workspaceId (config_view_id config))
       (api_updatePublishConfig workspaceId config).

(** [token?.user?.id] and [token?.user.id]: [user] is not optional in the
    token's type, so both read the same field. *)
Definition token_user_id (token : option Token) : option string :=
  (λ t, id (user t)) <$> token.

Definition getCurrentUser : Async User :=
  token ← call_query GetTokenParsed getTokenParsed;
  let userId := token_user_id token in
  user ← cache_get (CacheGetUser userId CACHE_AND_NETWORK)
    (cache_getUser userId CACHE_AND_NETWORK)
    (call ApiGetCurrentUser api_getCurrentUser);
  match user with
  | None => reject (Error "User not found")
  | Some user => mret user
  end.

Definition getUserWorkspaceInfo
    : Async (UserWorkspaceInfo WorkspaceId Workspaces) :=
  workspaceInfo ← call ApiGetUserWorkspaceInfo api_getUserWorkspaceInfo;
  match workspaceInfo with
  | None => reject (Error "Workspace info not found")
  | Some workspaceInfo =>
      mret {| userId := user_id workspaceInfo;
              selectedWorkspace := selected_workspace workspaceInfo;
              workspaces := response_workspaces workspaceInfo |}
  end.

(** The closure [getPageDoc] hands to the cache module.  The detached
    function in its [catch] has no [await], so its two statements run in
    place.  [errorCallback] is the caller's; it may throw. *)
Definition getPageDoc_fetcher (workspaceId viewId name : string)
    (errorCallback : option (JsError → W → Settled () * W))
    : Async PageCollab :=
  try_catch
    (call (FetchPageCollab workspaceId viewId)
          (fetchPageCollab workspaceId viewId))
    (λ e,
       call_void (ConsoleError e) (λ w, w);;
       match errorCallback with
       | Some cb => call (ErrorCallback e) (cb e)
       | None => mret ()
       end;;
       viewLoaded_delete name;;
       call_void (CacheDeleteView name) (deleteView name);;
       reject e).

Definition getPageDoc (workspaceId viewId : string)
    (errorCallback : option (JsError → W → Settled () * W)) : Async YDoc :=
  token ← call_query GetTokenParsed getTokenParsed;
  match token_user_id token with
  | None => reject (Error "User not found")
  | Some userId =>
      if negb (truthy userId) then reject (Error "User not found")
      else
        let name := pageDoc_name userId workspaceId viewId in
        isLoaded ← viewLoaded_has name;
        doc ← cache_get
          (CacheGetPageDoc name
             (if isLoaded : bool then CACHE_FIRST else CACHE_AND_NETWORK))
          (cache_getPageDoc name
             (if isLoaded : bool then CACHE_FIRST else CACHE_AND_NETWORK))
          (getPageDoc_fetcher workspaceId viewId name errorCallback);
        (if isLoaded : bool then mret () else viewLoaded_add name);;
        mret doc
  end.

Definition registerDocUpdate (doc : YDoc) (context : SyncContext) : Async () :=
  token ← call_query GetTokenParsed getTokenParsed;
  match token_user_id token with
  | None => reject (Error "User not found")
  | Some userId =>
      if negb (truthy userId) then reject (Error "User not found")
      else
        call_void
          (SyncNew userId (ctx_workspaceId context) (ctx_objectId context))
          (λ w, w);;
        call_void
          (SyncInitialize userId (ctx_workspaceId context) (ctx_objectId context))
          (sync_initialize doc userId (ctx_workspaceId context)
             (ctx_objectId context) (ctx_collabType context))
  end.

(** The event loop resumes all the detached tasks that are waiting, oldest
    first. *)
Definition settle_detached : Async () :=
  λ st,
    fold_left
      (λ o t,
         match run_task t o.1.2 with
         | (_, st1, c1) => (Resolved (), st1, o.2 ++ c1)
         end)
      (detached st)
      (Resolved (), {| this := this st; world := world st; detached := [] |}, []).

(** ** What a client of the service can do next *)
Inductive Op :=
| PublishView (workspaceId viewId : string) (payload : option PublishViewPayload)
| UnpublishView (workspaceId viewId : string)
| UpdatePublishNamespace (workspaceId : string) (payload : UploadPublishNamespacePayload)
| UpdatePublishHomepage (workspaceId viewId : string)
| RemovePublishHomepage (workspaceId : string)
| GetPublishViewMeta (namespace publishName : string)
| GetPublishView (namespace publishName : string)
| GetPublishRowDocument (viewId : string)
| GetPublishInfo (viewId : string)
| UpdatePublishConfig (workspaceId : string)
    (config : UpdatePublishConfigPayload PublishConfigFields)
| GetCurrentUser
| GetUserWorkspaceInfo
| GetPageDoc (workspaceId viewId : string)
    (errorCallback : option (JsError → W → Settled () * W))
| RegisterDocUpdate (doc : YDoc) (context : SyncContext)
| SettleDetached.

Definition forget {A} (m : Async A) : St → St * list Call :=
  λ st, ((m st).1.2, (m st).2).

Definition exec (op : Op) : St → St * list Call :=
  match op with
  | PublishView w v p => forget (publishView w v p)
  | UnpublishView w v => forget (unpublishView w v)
  | UpdatePublishNamespace w p => forget (updatePublishNamespace w p)
  | UpdatePublishHomepage w v => forget (updatePublishHomepage w v)
  | RemovePublishHomepage w => forget (removePublishHomepage w)
  | GetPublishViewMeta n p => forget (getPublishViewMeta n p)
  | GetPublishView n p => forget (getPublishView n p)
  | GetPublishRowDocument v => forget (getPublishRowDocument v)
  | GetPublishInfo v => forget (getPublishInfo v)
  | UpdatePublishConfig w c => forget (updatePublishConfig w c)
  | GetCurrentUser => forget getCurrentUser
  | GetUserWorkspaceInfo => forget getUserWorkspaceInfo
  | GetPageDoc w v cb => forget (getPageDoc w v cb)
  | RegisterDocUpdate d c => forget (registerDocUpdate d c)
  | SettleDetached => forget settle_detached
  end.

Fixpoint exec_all (ops : list Op) (st : St) : St * list Call :=
  match ops with
  | [] => (st, [])
  | op :: ops =>
      let '(st1, c1) := exec op st in
      let '(st2, c2) := exec_all ops st1 in
      (st2, c1 ++ c2)
  end.

(** ** A mutation that is pending while other callers use the service

    [publishView] and its siblings run up to the call to [APIService] and
    return its promise.  Until that promise settles, other callers can use
    the service: [meanwhile] is what they do. *)
Definition call_pending {A} (c : Call) (f : W → Settled A * W)
    (meanwhile : list Op) : Async A :=
  λ st,
    let '(st1, c1) := exec_all meanwhile st in
    let '(r, w) := f (world st1) in
    (r, {| this := this st1; world := w; detached := detached st1 |},
     c :: c1).

Definition publishView_pending (workspaceId viewId : string)
    (payload : option PublishViewPayload) (meanwhile : list Op)
    : Async ApiResponse :=
  has ← publishViewInfo_has viewId;
  (if has : bool then publishViewInfo_delete viewId else mret ());;
  call_pending (ApiPublishView workspaceId viewId)
    (api_publishView workspaceId viewId payload) meanwhile.

Definition unpublishView_pending (workspaceId viewId : string)
    (meanwhile : list Op) : Async ApiResponse :=
  has ← publishViewInfo_has viewId;
  (if has : bool then publishViewInfo_delete viewId else mret ());;
  call_pending (ApiUnpublishView workspaceId viewId)
    (api_unpublishView workspaceId viewId) meanwhile.

Definition updatePublishNamespace_pending (workspaceId : string)
    (payload : UploadPublishNamespacePayload) (meanwhile : list Op)
    : Async ApiResponse :=
  publishViewInfo_clear;;
  call_pending (ApiUpdatePublishNamespace workspaceId)
    (api_updatePublishNamespace workspaceId payload) meanwhile.

Definition updatePublishConfig_pending (workspaceId : string)
    (config : UpdatePublishConfigPayload PublishConfigFields)
    (meanwhile : list Op) : Async ApiResponse :=
  publishViewInfo_delete (config_view_id config);;
  call_pending (ApiUpdatePublishConfig workspaceId (config_view_id config))
    (api_updatePublishConfig workspaceId config) meanwhile.

Definition updatePublishHomepage_pending (workspaceId viewId : string)
    (meanwhile : list Op) : Async ApiResponse :=
  call_pending (ApiUpdatePublishHomepage workspaceId viewId)
    (api_updatePublishHomepage workspaceId viewId) meanwhile.

(** ** Vocabulary of the statements *)

(** The service's fields with the publish-info entry of [v] removed, with
    all entries removed, and with [data] stored under [v]. *)
Definition without_info (v : string) (s : AFClientService) : AFClientService :=
  {| viewLoaded := viewLoaded s;
     publishViewLoaded := publishViewLoaded s;
     publishViewInfo := delete v (publishViewInfo s) |}.

Definition without_infos (s : AFClientService) : AFClientService :=
  {| viewLoaded := viewLoaded s;
     publishViewLoaded := publishViewLoaded s;
     publishViewInfo := ∅ |}.

Definition with_info (v : string) (data : PublishInfo) (s : AFClientService)
    : AFClientService :=
  {| viewLoaded := viewLoaded s;
     publishViewLoaded := publishViewLoaded s;
     publishViewInfo := <[v := data]> (publishViewInfo s) |}.

(** The service's fields with [name] added to, or removed from, one of the
    two registries. *)
Definition with_view (name : string) (s : AFClientService) : AFClientService :=
  {| viewLoaded := {[name]} ∪ viewLoaded s;
     publishViewLoaded := publishViewLoaded s;
     publishViewInfo := publishViewInfo s |}.

Definition without_view (name : string) (s : AFClientService) : AFClientService :=
  {| viewLoaded := viewLoaded s ∖ {[name]};
     publishViewLoaded := publishViewLoaded s;
     publishViewInfo := publishViewInfo s |}.

Definition with_publishView (name : string) (s : AFClientService)
    : AFClientService :=
  {| viewLoaded := viewLoaded s;
     publishViewLoaded := {[name]} ∪ publishViewLoaded s;
     publishViewInfo := publishViewInfo s |}.

Definition without_publishView (name : string) (s : AFClientService)
    : AFClientService :=
  {| viewLoaded := viewLoaded s;
     publishViewLoaded := publishViewLoaded s ∖ {[name]};
     publishViewInfo := publishViewInfo s |}.

Definition with_detached (t : Task) (st : St) : St :=
  {| this := this st; world := world st; detached := detached st ++ [t] |}.

(** From [st] to [st'], through the calls [c], the key [k] stays in the
    registry it is in unless [deleteView(k)] was called. *)
Definition keeps (k : string) (st st' : St) (c : list Call) : Prop :=
  (k ∈ publishViewLoaded (this st) →
   k ∈ publishViewLoaded (this st') ∨ CacheDeleteView k ∈ c)
  ∧ (k ∈ viewLoaded (this st) →
     k ∈ viewLoaded (this st') ∨ CacheDeleteView k ∈ c).

(** The strategy the registry [loaded] calls for. *)
Definition strategy_for (name : string) (loaded : gset string) : StrategyType :=
  if bool_decide (name ∈ loaded) then CACHE_FIRST else CACHE_AND_NETWORK.

Definition with_this (s : AFClientService) (st : St) : St :=
  {| this := s; world := world st; detached := detached st |}.

Definition with_world (w : W) (st : St) : St :=
  {| this := this st; world := w; detached := detached st |}.

(** The publish-info record a response with namespace [namespace] is shaped
    into. *)
Definition shape (info : ViewInfo) (namespace : string) : PublishInfo :=
  {| namespace := namespace;
     publishName := publish_name info;
     publisherEmail := publisher_email info;
     viewId := view_id info;
     publishedAt := publish_timestamp info;
     commentEnabled := comments_enabled info;
     duplicateEnabled := duplicate_enabled info |}.

End Service.

(** * A concrete platform

    The cache storage collaborator, the network, the identity provider and
    the sync transport are not in [index.ts].  This is a small platform that
    follows the contracts the specification gives them.  The general
    theorems do not depend on it; it is where they are run on concrete
    inputs. *)
Module Demo.

Record World := {
  token : option Token;
  (** does the server answer? *)
  online : bool;
  (** the keys of the views published on the server *)
  published : gset string;
  (** publish info on the server, by view id *)
  server_infos : gmap string ViewInfo;
  (** the profile the server has for the session, if any *)
  server_user : option string;
  (** the local database: whether it can be opened, and its view-meta
      records and stored documents, by key *)
  db_open : bool;
  metas : gmap string string;
  stored : gmap string string;
  (** objects with a started sync binding *)
  syncing : list string;
}.

Definition store_meta (name content : string) (w : World) : World :=
  {| token := token w; online := online w; published := published w;
     server_infos := server_infos w; server_user := server_user w;
     db_open := db_open w;
     metas := <[name := content]> (metas w);
     stored := stored w;
     syncing := syncing w |}.

Definition store_doc (name content : string) (w : World) : World :=
  {| token := token w; online := online w; published := published w;
     server_infos := server_infos w; server_user := server_user w;
     db_open := db_open w;
     metas := metas w;
     stored := <[name := content]> (stored w);
     syncing := syncing w |}.

Definition delete_view (name : string) (w : World) : World :=
  {| token := token w; online := online w; published := published w;
     server_infos := server_infos w; server_user := server_user w;
     db_open := db_open w;
     metas := delete name (metas w);
     stored := delete name (stored w);
     syncing := syncing w |}.

Definition start_sync (objectId : string) (w : World) : World :=
  {| token := token w; online := online w; published := published w;
     server_infos := server_infos w; server_user := server_user w;
     db_open := db_open w;
     metas := metas w;
     stored := stored w;
     syncing := objectId :: syncing w |}.

(** Modelled from the spec: the cache storage collaborator's [get], which is
    not in [index.ts].  CACHE_FIRST serves the stored value if there is one
    and otherwise invokes the closure and stores what it resolves to;
    CACHE_AND_NETWORK invokes the closure and stores what it resolves to,
    whatever is stored; a closure that rejects makes [get] reject. *)
Definition strategy_get {D} (lookup : World → option string)
    (store : string → World → World) (strategy : StrategyType)
    (found : string → D) (w : World) : CacheGet World string D :=
  let refresh :=
    Fetcher w (λ r w1,
      match r with
      | Resolved content => Settle (store content w1) (Resolved (found content))
      | Rejected e => Settle w1 (Rejected e)
      end) in
  match strategy, lookup w with
  | CACHE_FIRST, Some content => Settle w (Resolved (found content))
  | _, _ => refresh
  end.

(** An empty string stands for an entity that is not there. *)
Definition present (content : string) : option string :=
  if truthy content then Some content else None.

(** The server: it answers, or not at all. *)
Definition request {A} (answer : A) (w : World) : Settled A * World :=
  if online w then (Resolved answer, w) else (Rejected (Failure 503), w).

Definition request_meta (name : string) (w : World) : Settled string * World :=
  request (if bool_decide (name ∈ published w) then "meta of " +:+ name else "") w.

Definition request_info (viewId : string) (w : World) : Settled ViewInfo * World :=
  if online w then
    match server_infos w !! viewId with
    | Some info => (Resolved info, w)
    | None => (Rejected (Failure 404), w)
    end
  else (Rejected (Failure 503), w).

#[local] Instance platform : Platform := {|
  W := World;
  YDoc := string;
  ViewMeta := string;
  User := string;
  PublishedView := string;
  PageCollab := string;
  WorkspaceId := string;
  Workspaces := list string;
  ApiResponse := ();
  PublishViewPayload := string;
  UploadPublishNamespacePayload := string;
  PublishConfigFields := bool;
  CollabType := nat;
  getTokenParsed := token;
  cache_getPublishViewMeta ns pn strategy :=
    strategy_get (λ w, metas w !! publishView_name ns pn)
      (store_meta (publishView_name ns pn)) strategy present;
  cache_getPublishView ns pn strategy :=
    strategy_get (λ w, stored w !! publishView_name ns pn)
      (λ content w,
         store_doc (publishView_name ns pn) content
           (store_meta (publishView_name ns pn) content w))
      strategy (λ content, content);
  cache_getPageDoc name strategy :=
    strategy_get (λ w, stored w !! name) (store_doc name) strategy
      (λ content, content);
  cache_getUser userId strategy w :=
    Fetcher w (λ r w1,
      match r with
      | Resolved _ => Settle w1 (Resolved (server_user w1))
      | Rejected e => Settle w1 (Rejected e)
      end);
  hasViewMetaCache name w := bool_decide (is_Some (metas w !! name));
  deleteView := delete_view;
  hasCollabCache doc := truthy doc;
  openCollabDB viewId w :=
    if db_open w then (Resolved (default "" (stored w !! viewId)), w)
    else (Rejected (Failure 11), w);
  fetchPublishViewMeta ns pn := request_meta (publishView_name ns pn);
  fetchPublishView ns pn := request ("view " +:+ publishView_name ns pn);
  fetchPageCollab workspaceId viewId := request ("page " +:+ viewId);
  fetchViewInfo := request_info;
  api_publishView _ _ _ := request ();
  api_unpublishView _ _ := request ();
  api_updatePublishNamespace _ _ := request ();
  api_updatePublishHomepage _ _ := request ();
  api_removePublishHomepage _ := request ();
  api_updatePublishConfig _ _ := request ();
  api_getCurrentUser := request "profile";
  api_getUserWorkspaceInfo := request None;
  sync_initialize doc userId workspaceId objectId collabType := start_sync objectId;
|}.

(** Modelled from the spec: the cache storage collaborator's [get], with
    the same contract as [strategy_get], on a busy event loop: when the
    closure has rejected, a function detached during the call is resumed
    before [get] rejects in turn (the rejection is delivered concurrently
    with the cleanup completing). *)
Definition strategy_get_busy {D} (lookup : World → option string)
    (store : string → World → World) (strategy : StrategyType)
    (found : string → D) (w : World) : CacheGet World string D :=
  let refresh :=
    Fetcher w (λ r w1,
      match r with
      | Resolved content => Settle (store content w1) (Resolved (found content))
      | Rejected e => Turn w1 (λ w2, Settle w2 (Rejected e))
      end) in
  match strategy, lookup w with
  | CACHE_FIRST, Some content => Settle w (Resolved (found content))
  | _, _ => refresh
  end.

(** The same platform, with published views retrieved on the busy event
    loop. *)
Definition busy : Platform := {|
  W := World;
  YDoc := string;
  ViewMeta := string;
  User := string;
  PublishedView := string;
  PageCollab := string;
  WorkspaceId := string;
  Workspaces := list string;
  ApiResponse := ();
  PublishViewPayload := string;
  UploadPublishNamespacePayload := string;
  PublishConfigFields := bool;
  CollabType := nat;
  getTokenParsed := token;
  cache_getPublishViewMeta ns pn strategy :=
    strategy_get (λ w, metas w !! publishView_name ns pn)
      (store_meta (publishView_name ns pn)) strategy present;
  cache_getPublishView ns pn strategy :=
    strategy_get_busy (λ w, stored w !! publishView_name ns pn)
      (λ content w,
         store_doc (publishView_name ns pn) content
           (store_meta (publishView_name ns pn) content w))
      strategy (λ content, content);
  cache_getPageDoc name strategy :=
    strategy_get (λ w, stored w !! name) (store_doc name) strategy
      (λ content, content);
  cache_getUser userId strategy w :=
    Fetcher w (λ r w1,
      match r with
      | Resolved _ => Settle w1 (Resolved (server_user w1))
      | Rejected e => Settle w1 (Rejected e)
      end);
  hasViewMetaCache name w := bool_decide (is_Some (metas w !! name));
  deleteView := delete_view;
  hasCollabCache doc := truthy doc;
  openCollabDB viewId w :=
    if db_open w then (Resolved (default "" (stored w !! viewId)), w)
    else (Rejected (Failure 11), w);
  fetchPublishViewMeta ns pn := request_meta (publishView_name ns pn);
  fetchPublishView ns pn := request ("view " +:+ publishView_name ns pn);
  fetchPageCollab workspaceId viewId := request ("page " +:+ viewId);
  fetchViewInfo := request_info;
  api_publishView _ _ _ := request ();
  api_unpublishView _ _ := request ();
  api_updatePublishNamespace _ _ := request ();
  api_updatePublishHomepage _ _ := request ();
  api_removePublishHomepage _ := request ();
  api_updatePublishConfig _ _ := request ();
  api_getCurrentUser := request "profile";
  api_getUserWorkspaceInfo := request None;
  sync_initialize doc userId workspaceId objectId collabType := start_sync objectId;
|}.


Definition view42_info : ViewInfo :=
  {| info_namespace := Some "ns1"; publish_name := "note";
     publisher_email := "a@b.c"; view_id := "view42";
     publish_timestamp := "2024-01-01"; comments_enabled := true;
     duplicate_enabled := false |}.

Definition draft_info : ViewInfo :=
  {| info_namespace := None; publish_name := "";
     publisher_email := "a@b.c"; view_id := "draft";
     publish_timestamp := ""; comments_enabled := false;
     duplicate_enabled := false |}.

(** A session of user [userId] with an empty local database. *)
Definition session (userId : string) (online : bool) : World :=
  {| token := Some {| user := {| id := userId |} |};
     online := online;
     published := {[ "ns1_note" ]};
     server_infos :=
       {[ "view42" := view42_info;
          "draft" := draft_info ]};
     server_user := None;
     db_open := true;
     metas := ∅;
     stored := ∅;
     syncing := [] |}.

Definition signed_in : bool → World := session "u1".

Definition signed_out (online : bool) : World :=
  {| token := None; online := online; published := ∅; server_infos := ∅;
     server_user := None; db_open := true; metas := ∅; stored := ∅;
     syncing := [] |}.

(** The same world with a local database that cannot be opened. *)
Definition db_closed (w : World) : World :=
  {| token := token w; online := online w; published := published w;
     server_infos := server_infos w; server_user := server_user w;
     db_open := false; metas := metas w; stored := stored w;
     syncing := syncing w |}.

(** A fresh service on world [w]. *)
Definition start (w : World) : St :=
  {| this := new_service; world := w; detached := [] |}.

(** A record as [getPublishInfo] would have cached it earlier. *)
Definition old_record : PublishInfo :=
  {| namespace := "ns0"; publishName := "old"; publisherEmail := "a@b.c";
     viewId := "view42"; publishedAt := "2023-01-01"; commentEnabled := false;
     duplicateEnabled := false |}.

Definition cached_view42 (w : World) : St :=
  {| this := with_info "view42" old_record new_service; world := w;
     detached := [] |}.

(** A service that has loaded the published view ["ns1_note"] before. *)
Definition loaded_note (w : World) : St :=
  {| this := with_publishView "ns1_note" new_service; world := w;
     detached := [] |}.

Definition view42_config : UpdatePublishConfigPayload bool :=
  {| config_view_id := "view42"; config_fields := true |}.

Definition v1_context : SyncContext :=
  {| ctx_workspaceId := "w1"; ctx_objectId := "v1"; ctx_collabType := 0 |}.

(** What a client may go on to do. *)
Definition later_calls : list Op :=
  [GetPublishViewMeta "ns1" "note"; GetPublishInfo "view42";
   PublishView "w1" "view42" None; SettleDetached;
   GetPageDoc "w1" "v2" None].

(** A service on the busy platform that has loaded the published view
    ["ns1_note"] before. *)
Definition busy_loaded_note (w : World) : @St busy :=
  @Build_St busy (with_publishView "ns1_note" new_service) w [].

(** A caller's [errorCallback] that returns. *)
Definition quiet_callback : JsError → World → Settled () * World :=
  λ _ w, (Resolved (), w).

(** A service that has loaded the page ["v1"] of workspace ["w1"] before,
    on a world whose local database no longer has it. *)
Definition loaded_page (w : World) : St :=
  {| this := with_view "u1_w1_v1" new_service; world := w; detached := [] |}.

End Demo.

(** * More vocabulary for the stateful methods *)

Section MoreVocabulary.
Context `{P : Platform}.

(** Every record in the publish-info map has a namespace that is not
    empty. *)
Definition named_infos (s : AFClientService) : Prop :=
  ∀ v record, publishViewInfo s !! v = Some record →
    truthy (namespace record) = true.

(** How many times [console.error] was called. *)
Definition console_error (c : Call) : nat :=
  match c with ConsoleError _ => 1 | _ => 0 end.

Definition console_errors (c : list Call) : nat :=
  sum_list_with console_error c.

(** How many times [hasViewMetaCache] was called. *)
Definition record_check (c : Call) : nat :=
  match c with CacheHasViewMetaCache _ => 1 | _ => 0 end.

Definition record_checks (c : list Call) : nat :=
  sum_list_with record_check c.

(** What the cleanup of [name] has done between [st] and [st'], going by the
    calls [c] made in between: nothing, or, [deleteView(name)] having been
    called, [name] is out of [publishViewLoaded] and nothing else has
    changed in the service's fields. *)
Definition cleanup (name : string) (st st' : St) (c : list Call) : Prop :=
  ((CacheDeleteView name ∉ c) ∧ this st' = this st)
  ∨ (CacheDeleteView name ∈ c
     ∧ this st' = without_publishView name (this st)).

End MoreVocabulary.

(** * The methods that keep no state

    [loginAuth], [getAppDatabaseViewRelations] and [importFile] read and
    write none of the service's fields; they are sequences of calls to
    imported modules. *)

(** [EventType] is imported from the session module; these are the two
    members the service emits. *)
Inductive EventType := SESSION_VALID | SESSION_INVALID.

(** An entry of the [databases] array of the workspace-database document, as
    the callback of [forEach] types it. *)
Record DatabaseMeta := {
  database_id : string;
  views : list string;
}.

(** [DatabaseRelations], the object [getAppDatabaseViewRelations] builds:
    its own properties.  A value is [None] when the property holds
    [undefined]. *)
Abbreviation DatabaseRelations := (gmap string (option string)).

(** [result[key] = value] on a plain object, for a value that is a string or
    [undefined]: an own property is written, except that ["__proto__"]
    reaches the setter of [Object.prototype], which ignores such a value. *)
Definition object_set (key : string) (value : option string)
    (result : DatabaseRelations) : DatabaseRelations :=
  if bool_decide (key = "__proto__") then result else <[key := value]> result.

(** [databases.forEach(database => { result[database.database_id] =
    database.views[0]; })] from [result = {}]. *)
Definition database_relations (databases : list DatabaseMeta) : DatabaseRelations :=
  fold_left
    (λ result database,
       object_set (database_id database) (head (views database)) result)
    databases ∅.

(** Calls these methods make, in the order they are made. *)
Inductive AppCall :=
| ApiSignInWithUrl (url : string)
| Emit (event : EventType)
| AfterAuth
| ApiGetCollab (workspaceId objectId : string)
| ApiCreateImportTask
| ApiUploadImportFile (presignedUrl : string).

(** The imported modules these methods use. *)
Class AppPlatform `{Platform} := {
  File : Type;
  OnProgress : Type;
  CollabData : Type;
  ImportTask : Type;
  presignedUrl : ImportTask → string;
  (* APIService *)
  api_signInWithUrl : string → W → Settled () * W;
  api_getCollab : string → string → W → Settled CollabData * W;
  api_createImportTask : File → W → Settled ImportTask * W;
  api_uploadImportFile : string → File → OnProgress → W → Settled () * W;
  (** session: [emit] and [afterAuth] are called, not awaited; [Rejected]
      is a call that throws *)
  emit : EventType → W → Settled () * W;
  afterAuth : W → Settled () * W;
  (** [applyYDoc(doc, res.data)] on a new document, then
      [doc.getMap(YjsEditorKey.data_section).toJSON().databases]: the
      entries of the array, or what is thrown on the way to them *)
  data_section_databases : CollabData → Settled (list DatabaseMeta);
}.

Section App.
Context `{A : AppPlatform}.

(** An asynchronous computation that uses no field of the service. *)
Definition Remote (T : Type) : Type := W → Settled T * W * list AppCall.

Definition settled_remote {T} (o : Settled T * W * list AppCall) : Settled T :=
  o.1.1.
Definition calls_remote {T} (o : Settled T * W * list AppCall) : list AppCall :=
  o.2.

Definition remote_ret {T} (a : T) : Remote T := λ w, (Resolved a, w, []).

Definition remote_reject {T} (e : JsError) : Remote T :=
  λ w, (Rejected e, w, []).

Definition remote_bind {T U} (m : Remote T) (f : T → Remote U) : Remote U :=
  λ w,
    match m w with
    | (Resolved a, w1, c1) =>
        match f a w1 with (r, w2, c2) => (r, w2, c1 ++ c2) end
    | (Rejected e, w1, c1) => (Rejected e, w1, c1)
    end.

Definition remote_try {T} (m : Remote T) (h : JsError → Remote T) : Remote T :=
  λ w,
    match m w with
    | (Resolved a, w1, c1) => (Resolved a, w1, c1)
    | (Rejected e, w1, c1) =>
        match h e w1 with (r, w2, c2) => (r, w2, c1 ++ c2) end
    end.

#[global] Instance remote_mret : MRet Remote := λ T a, remote_ret a.
#[global] Instance remote_mbind : MBind Remote := λ T U f m, remote_bind m f.

Definition remote_call {T} (c : AppCall) (f : W → Settled T * W) : Remote T :=
  λ w, let '(r, w1) := f w in (r, w1, [c]).

Definition loginAuth (url : string) : Remote () :=
  remote_try
    (remote_call (ApiSignInWithUrl url) (api_signInWithUrl url);;
     remote_call (Emit SESSION_VALID) (emit SESSION_VALID);;
     remote_call AfterAuth afterAuth;;
     mret ())
    (λ e,
       remote_call (Emit SESSION_INVALID) (emit SESSION_INVALID);;
       remote_reject e).

Definition getAppDatabaseViewRelations (workspaceId databaseStorageId : string)
    : Remote DatabaseRelations :=
  res ← remote_call (ApiGetCollab workspaceId databaseStorageId)
          (api_getCollab workspaceId databaseStorageId);
  match data_section_databases res with
  | Resolved databases => mret (database_relations databases)
  | Rejected e => remote_reject e
  end.

Definition importFile (file : File) (onProgress : OnProgress) : Remote () :=
  task ← remote_call ApiCreateImportTask (api_createImportTask file);
  remote_call (ApiUploadImportFile (presignedUrl task))
    (api_uploadImportFile (presignedUrl task) file onProgress).

End App.

(** * A concrete platform for the methods that keep no state *)
Module DemoApp.

Definition workspace_databases : list DatabaseMeta :=
  [ {| database_id := "db1"; views := ["grid1"; "board1"] |};
    {| database_id := "db2"; views := [] |};
    {| database_id := "db1"; views := ["calendar1"] |} ].

(** [after_ok] tells whether [afterAuth] returns. *)
Definition app (after_ok : bool) : @AppPlatform Demo.platform :=
  @Build_AppPlatform Demo.platform
    (* File, OnProgress, CollabData, ImportTask *)
    string () (list DatabaseMeta) string
    (* presignedUrl *)
    (λ task, task)
    (* api_signInWithUrl, api_getCollab *)
    (λ url, Demo.request ())
    (λ workspaceId objectId, Demo.request workspace_databases)
    (* api_createImportTask, api_uploadImportFile *)
    (λ file, Demo.request ("https://upload/" +:+ file))
    (λ url file onProgress, Demo.request ())
    (* emit, afterAuth *)
    (λ event w, (Resolved (), w))
    (λ w, if after_ok then (Resolved (), w) else (Rejected (Failure 1), w))
    (* data_section_databases *)
    (λ data, Resolved data).

End DemoApp.

(** * Properties *)

Section Properties.
Context `{P : Platform}.

Implicit Types (st : St) (s : AFClientService) (v : string).

Ltac unfold_async :=
  unfold mbind, mret, async_bind, async_ret, bind, ret, reject, try_catch,
    call_void, call_query, call, get_this, set_this, spawn,
    settled, final, calls, with_this in *.

Lemma without_info_absent v s :
  publishViewInfo s !! v = None → without_info v s = s.
Proof.
  intros Hv. destruct s as [a b m]. unfold without_info. simpl in *.
  by rewrite delete_id.
Qed.

Ltac unfold_info :=
  unfold publishViewInfo_has, publishViewInfo_get, publishViewInfo_set,
    publishViewInfo_delete, publishViewInfo_clear in *.

Lemma publishView_run ws v p st :
  publishView ws v p st
  = call (ApiPublishView ws v) (api_publishView ws v p)
      (with_this (without_info v (this st)) st).
Proof.
  unfold publishView. unfold_info. unfold_async. simpl.
  case_bool_decide as Hv; simpl;
    destruct (api_publishView _ _ _ _) as [[a|e] w]; simpl; try done.
  all: rewrite without_info_absent; [done | by apply eq_None_not_Some].
Qed.

Lemma unpublishView_run ws v st :
  unpublishView ws v st
  = call (ApiUnpublishView ws v) (api_unpublishView ws v)
      (with_this (without_info v (this st)) st).
Proof.
  unfold unpublishView. unfold_info. unfold_async. simpl.
  case_bool_decide as Hv; simpl;
    destruct (api_unpublishView _ _ _) as [[a|e] w]; simpl; try done.
  all: rewrite without_info_absent; [done | by apply eq_None_not_Some].
Qed.

Lemma updatePublishConfig_run ws config st :
  updatePublishConfig ws config st
  = call (ApiUpdatePublishConfig ws (config_view_id config))
      (api_updatePublishConfig ws config)
      (with_this (without_info (config_view_id config) (this st)) st).
Proof.
  unfold updatePublishConfig. unfold_info. unfold_async. simpl.
  by destruct (api_updatePublishConfig _ _ _) as [[a|e] w].
Qed.

Lemma updatePublishNamespace_run ws payload st :
  updatePublishNamespace ws payload st
  = call (ApiUpdatePublishNamespace ws) (api_updatePublishNamespace ws payload)
      (with_this (without_infos (this st)) st).
Proof.
  unfold updatePublishNamespace. unfold_info. unfold_async. simpl.
  by destruct (api_updatePublishNamespace _ _ _) as [[a|e] w].
Qed.

(** A call to an imported module leaves the service's fields alone. *)
Lemma call_this {A} c (f : W → Settled A * W) st :
  this (final (call c f st)) = this st.
Proof. unfold_async. by destruct (f _). Qed.

Lemma call_settled {A} c (f : W → Settled A * W) st :
  settled (call c f st) = (f (world st)).1.
Proof. unfold_async. by destruct (f _). Qed.

Lemma getPublishInfo_hit v record st :
  publishViewInfo (this st) !! v = Some record →
  getPublishInfo v st = (Resolved record, st, []).
Proof.
  intros Hv. unfold getPublishInfo. unfold_info. unfold_async. simpl.
  by rewrite Hv.
Qed.

Lemma getPublishInfo_miss v st :
  publishViewInfo (this st) !! v = None →
  getPublishInfo v st =
    match fetchViewInfo v (world st) with
    | (Rejected e, w) => (Rejected e, with_world w st, [FetchViewInfo v])
    | (Resolved info, w) =>
        if truthy_opt (info_namespace info) then
          let data := shape info (default "" (info_namespace info)) in
          (Resolved data, with_world w (with_this (with_info v data (this st)) st),
           [FetchViewInfo v])
        else
          (Rejected (Error "View not found"), with_world w st, [FetchViewInfo v])
    end.
Proof.
  intros Hv. unfold getPublishInfo. unfold_info. unfold_async. simpl.
  rewrite Hv. simpl.
  destruct (fetchViewInfo v (world st)) as [[info|e] w]; simpl; [|done].
  destruct (info_namespace info) as [ns|]; simpl; [|done].
  by destruct (truthy ns).
Qed.

Lemma getPublishInfo_miss_calls v st :
  publishViewInfo (this st) !! v = None →
  calls (getPublishInfo v st) = [FetchViewInfo v].
Proof.
  intros Hv. rewrite (getPublishInfo_miss v st Hv).
  destruct (fetchViewInfo v (world st)) as [[info|e] w]; [|done].
  by destruct (truthy_opt _).
Qed.

(** ** The publish-info cache *)

(** C5: [getPublishInfo] returns the record held in the map without calling
    anything when there is one; when there is none it makes exactly one call,
    [fetchViewInfo], rejects with "View not found" if the response has no
    (truthy) namespace and leaves the map as it was, and otherwise shapes the
    response into a record, stores it under [v] and returns it. *)
Theorem getPublishInfo_read_path v st :
  (∀ record,
     publishViewInfo (this st) !! v = Some record →
     getPublishInfo v st = (Resolved record, st, []))
  ∧ (publishViewInfo (this st) !! v = None →
     calls (getPublishInfo v st) = [FetchViewInfo v]
     ∧ ∀ info w,
         fetchViewInfo v (world st) = (Resolved info, w) →
         (truthy_opt (info_namespace info) = false →
          getPublishInfo v st
          = (Rejected (Error "View not found"), with_world w st,
             [FetchViewInfo v]))
         ∧ (∀ ns,
              info_namespace info = Some ns → truthy ns = true →
              getPublishInfo v st
              = (Resolved (shape info ns),
                 with_world w (with_this (with_info v (shape info ns) (this st)) st),
                 [FetchViewInfo v])
              ∧ publishViewInfo (this (final (getPublishInfo v st))) !! v
                = Some (shape info ns))).
Proof.
  split; [intros record; apply getPublishInfo_hit|].
  intros Hv. pose proof (getPublishInfo_miss v st Hv) as Hrun. split.
  - by apply getPublishInfo_miss_calls.
  - intros info w Hfetch. rewrite Hfetch in Hrun. split.
    + intros Hns. by rewrite Hns in Hrun.
    + intros ns Hns Hty. rewrite Hns in Hrun. simpl in Hrun.
      rewrite Hty in Hrun. rewrite Hrun. split; [done|].
      simpl. apply lookup_insert_eq.
Qed.

(** C7: removing the publish-info entry of a view is idempotent.  Running
    any of the invalidating methods a second time leaves the map the first
    run left, and when the map has no entry for the view the service's
    fields are left exactly as they were; the removal itself never fails:
    the method settles to whatever [APIService] settles to. *)
Theorem publishViewInfo_invalidation_idempotent ws v p config st :
  (let once := final (publishView ws v p st) in
   publishViewInfo (this (final (publishView ws v p once)))
   = publishViewInfo (this once))
  ∧ (let once := final (unpublishView ws v st) in
     publishViewInfo (this (final (unpublishView ws v once)))
     = publishViewInfo (this once))
  ∧ (let once := final (updatePublishConfig ws config st) in
     publishViewInfo (this (final (updatePublishConfig ws config once)))
     = publishViewInfo (this once))
  ∧ (publishViewInfo (this st) !! v = None →
     this (final (publishView ws v p st)) = this st
     ∧ this (final (unpublishView ws v st)) = this st
     ∧ settled (publishView ws v p st) = (api_publishView ws v p (world st)).1
     ∧ settled (unpublishView ws v st) = (api_unpublishView ws v (world st)).1)
  ∧ (publishViewInfo (this st) !! config_view_id config = None →
     this (final (updatePublishConfig ws config st)) = this st
     ∧ settled (updatePublishConfig ws config st)
       = (api_updatePublishConfig ws config (world st)).1).
Proof.
  repeat split; simpl.
  - rewrite !publishView_run, !call_this. simpl. apply delete_delete_eq.
  - rewrite !unpublishView_run, !call_this. simpl. apply delete_delete_eq.
  - rewrite !updatePublishConfig_run, !call_this. simpl. apply delete_delete_eq.
  - rewrite publishView_run, call_this. simpl. by apply without_info_absent.
  - rewrite unpublishView_run, call_this. simpl. by apply without_info_absent.
  - by rewrite publishView_run, call_settled.
  - by rewrite unpublishView_run, call_settled.
  - rewrite updatePublishConfig_run, call_this. simpl. by apply without_info_absent.
  - by rewrite updatePublishConfig_run, call_settled.
Qed.

(** C10: a rejected network mutation does not bring the entry back.  When
    [publishView], [unpublishView] or [updatePublishConfig] rejects, the
    service's fields are the ones it had before the call with the view's
    publish-info entry removed. *)
Theorem invalidation_survives_rejection ws v p config st e :
  (settled (publishView ws v p st) = Rejected e →
   this (final (publishView ws v p st)) = without_info v (this st)
   ∧ publishViewInfo (this (final (publishView ws v p st))) !! v = None)
  ∧ (settled (unpublishView ws v st) = Rejected e →
     this (final (unpublishView ws v st)) = without_info v (this st)
     ∧ publishViewInfo (this (final (unpublishView ws v st))) !! v = None)
  ∧ (settled (updatePublishConfig ws config st) = Rejected e →
     this (final (updatePublishConfig ws config st))
     = without_info (config_view_id config) (this st)
     ∧ publishViewInfo (this (final (updatePublishConfig ws config st)))
         !! config_view_id config = None).
Proof.
  repeat split.
  - by rewrite publishView_run, call_this.
  - rewrite publishView_run, call_this. apply lookup_delete_eq.
  - by rewrite unpublishView_run, call_this.
  - rewrite unpublishView_run, call_this. apply lookup_delete_eq.
  - by rewrite updatePublishConfig_run, call_this.
  - rewrite updatePublishConfig_run, call_this. apply lookup_delete_eq.
Qed.

(** What [getPublishInfo] resolves to when the map has no entry for the
    view was built from the network's response. *)
Lemma getPublishInfo_fresh v st record :
  publishViewInfo (this st) !! v = None →
  settled (getPublishInfo v st) = Resolved record →
  ∃ info w ns,
    fetchViewInfo v (world st) = (Resolved info, w)
    ∧ info_namespace info = Some ns
    ∧ record = shape info ns.
Proof.
  intros Hv. rewrite (getPublishInfo_miss v st Hv).
  destruct (fetchViewInfo v (world st)) as [[info|e] w]; [|done].
  destruct (info_namespace info) as [ns|] eqn:Hns; simpl; [|done].
  destruct (truthy ns); [|done].
  unfold settled. simpl. intros [= <-]. by exists info, w, ns.
Qed.

Lemma call_pending_none {T} c (f : W → Settled T * W) st :
  call_pending c f [] st = call c f st.
Proof. unfold call_pending. unfold_async. simpl. by destruct (f _). Qed.

Lemma publishView_pending_run ws v p meanwhile st :
  publishView_pending ws v p meanwhile st
  = call_pending (ApiPublishView ws v) (api_publishView ws v p) meanwhile
      (with_this (without_info v (this st)) st).
Proof.
  unfold publishView_pending. unfold_info. unfold_async. simpl.
  case_bool_decide as Hv; simpl.
  - by destruct (call_pending _ _ _ _) as [[[a|e] st1] c1].
  - rewrite without_info_absent; [|by apply eq_None_not_Some].
    replace {| this := this st; world := world st; detached := detached st |}
      with st by by destruct st.
    by destruct (call_pending _ _ _ _) as [[[a|e] st1] c1].
Qed.

Lemma unpublishView_pending_run ws v meanwhile st :
  unpublishView_pending ws v meanwhile st
  = call_pending (ApiUnpublishView ws v) (api_unpublishView ws v) meanwhile
      (with_this (without_info v (this st)) st).
Proof.
  unfold unpublishView_pending. unfold_info. unfold_async. simpl.
  case_bool_decide as Hv; simpl.
  - by destruct (call_pending _ _ _ _) as [[[a|e] st1] c1].
  - rewrite without_info_absent; [|by apply eq_None_not_Some].
    replace {| this := this st; world := world st; detached := detached st |}
      with st by by destruct st.
    by destruct (call_pending _ _ _ _) as [[[a|e] st1] c1].
Qed.

Lemma updatePublishConfig_pending_run ws config meanwhile st :
  updatePublishConfig_pending ws config meanwhile st
  = call_pending (ApiUpdatePublishConfig ws (config_view_id config))
      (api_updatePublishConfig ws config) meanwhile
      (with_this (without_info (config_view_id config) (this st)) st).
Proof.
  unfold updatePublishConfig_pending. unfold_info. unfold_async. simpl.
  by destruct (call_pending _ _ _ _) as [[[a|e] st1] c1].
Qed.

Lemma updatePublishNamespace_pending_run ws payload meanwhile st :
  updatePublishNamespace_pending ws payload meanwhile st
  = call_pending (ApiUpdatePublishNamespace ws)
      (api_updatePublishNamespace ws payload) meanwhile
      (with_this (without_infos (this st)) st).
Proof.
  unfold updatePublishNamespace_pending. unfold_info. unfold_async. simpl.
  by destruct (call_pending _ _ _ _) as [[[a|e] st1] c1].
Qed.

(** What a [getPublishInfo] made while a call is pending adds to the calls:
    nothing when the map has a record, [fetchViewInfo] when it has none. *)
Lemma call_pending_getPublishInfo_calls {T} c (f : W → Settled T * W) v st :
  calls (call_pending c f [GetPublishInfo v] st)
  = c :: calls (getPublishInfo v st).
Proof.
  unfold call_pending, calls. simpl. unfold forget. simpl.
  destruct (f _) as [r w]. simpl. by rewrite app_nil_r.
Qed.


(** ** The retrieval methods *)

Ltac unfold_registry :=
  unfold viewLoaded_has, viewLoaded_add, viewLoaded_delete,
    publishViewLoaded_has, publishViewLoaded_add, publishViewLoaded_delete in *.

(** What holds of every step of the cache module's run holds of the run:
    [Q st st' c] relates a state, a later state and the calls made in
    between; [I] is what the steps maintain. *)
Section run_cache.
Context {R D : Type} (fetcher : Async R) (base : nat).
Variable I : St → Prop.
Variable Q : St → St → list Call → Prop.
Hypothesis Q_trans : ∀ st st1 st2 c1 c2,
  Q st st1 c1 → Q st1 st2 c2 → Q st st2 (c1 ++ c2).
Hypothesis Q_world : ∀ st w, Q st (with_world w st) [].
Hypothesis I_world : ∀ st w, I st → I (with_world w st).
Hypothesis Q_fetcher : ∀ st,
  I st → Q st (final (fetcher st)) (calls (fetcher st)) ∧ I (final (fetcher st)).
Hypothesis Q_resume : ∀ st,
  I st →
  Q st (final (resume_detached base st)) (calls (resume_detached base st))
  ∧ I (final (resume_detached base st)).

Lemma run_cache_from_rel (p : CacheGet W R D) st :
  I st →
  Q st (final (run_cache_from base p fetcher st))
    (calls (run_cache_from base p fetcher st))
  ∧ I (final (run_cache_from base p fetcher st)).
Proof.
  revert st. induction p as [w r|w k IH|w k IH]; intros st Hst; simpl.
  - split; [apply Q_world|by apply (I_world st w)].
  - pose proof (Q_fetcher (with_world w st) (I_world st w Hst)) as [Hf Hi].
    unfold with_world in Hf, Hi.
    destruct (fetcher _) as [[r st1] c1]. simpl in Hf, Hi.
    pose proof (IH r (world st1) st1 Hi) as [Hk Hi2].
    destruct (run_cache_from _ _ _ _) as [[r2 st2] c2]. unfold final, calls in *.
    simpl in *. split; [|done].
    apply (Q_trans st (with_world w st) st2 [] (c1 ++ c2)); [apply Q_world|].
    by apply (Q_trans _ st1).
  - pose proof (Q_resume (with_world w st) (I_world st w Hst)) as [Hf Hi].
    unfold with_world in Hf, Hi.
    destruct (resume_detached _ _) as [[r st1] c1]. simpl in Hf, Hi.
    pose proof (IH (world st1) st1 Hi) as [Hk Hi2].
    destruct (run_cache_from _ _ _ _) as [[r2 st2] c2]. unfold final, calls in *.
    simpl in *. split; [|done].
    apply (Q_trans st (with_world w st) st2 [] (c1 ++ c2)); [apply Q_world|].
    by apply (Q_trans _ st1).
Qed.
End run_cache.

Lemma with_world_same st : with_world (world st) st = st.
Proof. by destruct st. Qed.

(** With nothing detached since the call began, the event loop has nothing
    to resume. *)
Lemma resume_detached_none base st :
  length (detached st) ≤ base → resume_detached base st = (Resolved (), st, []).
Proof. intros Hlen. unfold resume_detached. by rewrite lookup_ge_None_2. Qed.

(** A closure that detaches nothing. *)
Lemma run_cache_rel {R D} (fetcher : Async R) (Q : St → St → list Call → Prop) :
  (∀ st st1 st2 c1 c2, Q st st1 c1 → Q st1 st2 c2 → Q st st2 (c1 ++ c2)) →
  (∀ st w, Q st (with_world w st) []) →
  (∀ st, detached (final (fetcher st)) = detached st) →
  (∀ st, Q st (final (fetcher st)) (calls (fetcher st))) →
  ∀ (p : CacheGet W R D) st,
    Q st (final (run_cache p fetcher st)) (calls (run_cache p fetcher st)).
Proof.
  intros Q_trans Q_world Hquiet Q_fetcher p st. unfold run_cache.
  apply (run_cache_from_rel fetcher (length (detached st))
    (λ st', length (detached st') ≤ length (detached st)) Q); try done.
  - intros st0 Hlen. split; [apply Q_fetcher|]. by rewrite Hquiet.
  - intros st0 Hlen. rewrite (resume_detached_none _ _ Hlen). split; [|done].
    unfold final, calls. simpl. rewrite <- (with_world_same st0) at 2.
    apply Q_world.
Qed.

(** Any closure: what it detaches may be resumed during the run. *)
Lemma run_cache_rel_tasks {R D} (fetcher : Async R)
    (Q : St → St → list Call → Prop) :
  (∀ st st1 st2 c1 c2, Q st st1 c1 → Q st1 st2 c2 → Q st st2 (c1 ++ c2)) →
  (∀ st w, Q st (with_world w st) []) →
  (∀ st l, Q st {| this := this st; world := world st; detached := l |} []) →
  (∀ st, Q st (final (fetcher st)) (calls (fetcher st))) →
  (∀ t st, Q st (final (run_task t st)) (calls (run_task t st))) →
  ∀ (p : CacheGet W R D) st,
    Q st (final (run_cache p fetcher st)) (calls (run_cache p fetcher st)).
Proof.
  intros Q_trans Q_world Q_detached Q_fetcher Q_task p st. unfold run_cache.
  apply (run_cache_from_rel fetcher (length (detached st)) (λ _, True) Q);
    try done.
  intros st0 _. split; [|done]. unfold resume_detached.
  destruct (detached st0 !! _) as [t|].
  - apply (Q_trans st0 _ _ [] _
      (Q_detached st0 (delete (length (detached st)) (detached st0)))).
    apply Q_task.
  - unfold final, calls. simpl. rewrite <- (with_world_same st0) at 2.
    apply Q_world.
Qed.

(** The closures, step by step. *)
Lemma fetchPublishViewMeta_run ns pn st :
  call (FetchPublishViewMeta ns pn) (fetchPublishViewMeta ns pn) st
  = ((fetchPublishViewMeta ns pn (world st)).1,
     with_world (fetchPublishViewMeta ns pn (world st)).2 st,
     [FetchPublishViewMeta ns pn]).
Proof. unfold_async. by destruct (fetchPublishViewMeta _ _ _). Qed.

Lemma getPublishView_fetcher_run ns pn st :
  getPublishView_fetcher ns pn st =
    match fetchPublishView ns pn (world st) with
    | (Resolved view, w) =>
        (Resolved view, with_world w st, [FetchPublishView ns pn])
    | (Rejected e, w) =>
        (Rejected e,
         with_detached
           (InvalidatePublishView (publishView_name ns pn)
              (hasViewMetaCache (publishView_name ns pn) w))
           (with_world w st),
         [FetchPublishView ns pn; ConsoleError e;
          CacheHasViewMetaCache (publishView_name ns pn)])
    end.
Proof.
  unfold getPublishView_fetcher. unfold_async. simpl.
  by destruct (fetchPublishView _ _ _) as [[view|e] w].
Qed.

Lemma getPageDoc_fetcher_run ws v name cb st :
  getPageDoc_fetcher ws v name cb st =
    match fetchPageCollab ws v (world st) with
    | (Resolved page, w) =>
        (Resolved page, with_world w st, [FetchPageCollab ws v])
    | (Rejected e, w) =>
        match cb with
        | None =>
            (Rejected e,
             with_world (deleteView name w)
               (with_this (without_view name (this st)) st),
             [FetchPageCollab ws v; ConsoleError e; CacheDeleteView name])
        | Some f =>
            match f e w with
            | (Resolved _, w1) =>
                (Rejected e,
                 with_world (deleteView name w1)
                   (with_this (without_view name (this st)) st),
                 [FetchPageCollab ws v; ConsoleError e; ErrorCallback e;
                  CacheDeleteView name])
            | (Rejected e1, w1) =>
                (Rejected e1, with_world w1 st,
                 [FetchPageCollab ws v; ConsoleError e; ErrorCallback e])
            end
        end
    end.
Proof.
  unfold getPageDoc_fetcher. unfold_registry. unfold_async. simpl.
  destruct (fetchPageCollab _ _ _) as [[page|e] w]; [done|].
  destruct cb as [f|]; simpl; [|done].
  by destruct (f e w) as [[[]|e1] w1].
Qed.

(** The detached task of [getPublishView], step by step. *)
Lemma run_task_run name (cached : bool) st :
  run_task (InvalidatePublishView name cached) st =
    if cached then
      (Resolved (),
       with_world (deleteView name (world st))
         (with_this (without_publishView name (this st)) st),
       [CacheDeleteView name])
    else (Resolved (), st, []).
Proof.
  unfold run_task. unfold_registry. unfold_async. simpl.
  by destruct cached.
Qed.

(** The methods, in terms of the cache module's run. *)
Lemma getPublishViewMeta_run ns pn st :
  getPublishViewMeta ns pn st =
    let strategy :=
      strategy_for (publishView_name ns pn) (publishViewLoaded (this st)) in
    match
      run_cache (cache_getPublishViewMeta ns pn strategy (world st))
        (call (FetchPublishViewMeta ns pn) (fetchPublishViewMeta ns pn)) st
    with
    | (Resolved (Some viewMeta), st1, c1) =>
        (Resolved viewMeta, st1, CacheGetPublishViewMeta ns pn strategy :: c1)
    | (Resolved None, st1, c1) =>
        (Rejected (Error "View has not been published yet"), st1,
         CacheGetPublishViewMeta ns pn strategy :: c1)
    | (Rejected e, st1, c1) =>
        (Rejected e, st1, CacheGetPublishViewMeta ns pn strategy :: c1)
    end.
Proof.
  unfold getPublishViewMeta, cache_get, strategy_for. unfold_registry.
  unfold_async. simpl.
  destruct (run_cache _ _ _) as [[[[viewMeta|]|e] st1] c1]; simpl;
    by rewrite ?app_nil_r.
Qed.

Lemma getPublishView_run ns pn st :
  getPublishView ns pn st =
    let name := publishView_name ns pn in
    let strategy := strategy_for name (publishViewLoaded (this st)) in
    match
      run_cache (cache_getPublishView ns pn strategy (world st))
        (getPublishView_fetcher ns pn) st
    with
    | (Resolved doc, st1, c1) =>
        (Resolved doc,
         if bool_decide (name ∈ publishViewLoaded (this st)) then st1
         else with_this (with_publishView name (this st1)) st1,
         CacheGetPublishView ns pn strategy :: c1)
    | (Rejected e, st1, c1) =>
        (Rejected e, st1, CacheGetPublishView ns pn strategy :: c1)
    end.
Proof.
  unfold getPublishView, cache_get, strategy_for. unfold_registry.
  unfold_async. simpl.
  destruct (run_cache _ _ _) as [[[doc|e] st1] c1]; simpl; [|done].
  case_bool_decide; simpl; by rewrite ?app_nil_r.
Qed.

Lemma getPageDoc_signed_out ws v cb st :
  truthy_opt (token_user_id (getTokenParsed (world st))) = false →
  getPageDoc ws v cb st
  = (Rejected (Error "User not found"), st, [GetTokenParsed]).
Proof.
  intros Hid. unfold getPageDoc. unfold_async. simpl.
  destruct (token_user_id _) as [userId|]; simpl in *.
  - rewrite Hid. simpl. by destruct st.
  - by destruct st.
Qed.

Lemma getPageDoc_run ws v cb userId st :
  token_user_id (getTokenParsed (world st)) = Some userId →
  truthy userId = true →
  getPageDoc ws v cb st =
    let name := pageDoc_name userId ws v in
    let strategy := strategy_for name (viewLoaded (this st)) in
    match
      run_cache (cache_getPageDoc name strategy (world st))
        (getPageDoc_fetcher ws v name cb) st
    with
    | (Resolved doc, st1, c1) =>
        (Resolved doc,
         if bool_decide (name ∈ viewLoaded (this st)) then st1
         else with_this (with_view name (this st1)) st1,
         GetTokenParsed :: CacheGetPageDoc name strategy :: c1)
    | (Rejected e, st1, c1) =>
        (Rejected e, st1, GetTokenParsed :: CacheGetPageDoc name strategy :: c1)
    end.
Proof.
  intros Hid Hty. unfold getPageDoc, cache_get, strategy_for. unfold_registry.
  unfold_async. simpl. rewrite Hid, Hty. simpl.
  replace {| this := this st; world := world st; detached := detached st |}
    with st by by destruct st.
  destruct (run_cache _ _ _) as [[[doc|e] st1] c1]; simpl; [|done].
  case_bool_decide; simpl; by rewrite ?app_nil_r.
Qed.

Lemma getCurrentUser_run st :
  getCurrentUser st =
    let userId := token_user_id (getTokenParsed (world st)) in
    match
      run_cache (cache_getUser userId CACHE_AND_NETWORK (world st))
        (call ApiGetCurrentUser api_getCurrentUser) st
    with
    | (Resolved (Some user), st1, c1) =>
        (Resolved user, st1,
         GetTokenParsed :: CacheGetUser userId CACHE_AND_NETWORK :: c1)
    | (Resolved None, st1, c1) =>
        (Rejected (Error "User not found"), st1,
         GetTokenParsed :: CacheGetUser userId CACHE_AND_NETWORK :: c1)
    | (Rejected e, st1, c1) =>
        (Rejected e, st1,
         GetTokenParsed :: CacheGetUser userId CACHE_AND_NETWORK :: c1)
    end.
Proof.
  unfold getCurrentUser, cache_get. unfold_async. simpl.
  replace {| this := this st; world := world st; detached := detached st |}
    with st by by destruct st.
  destruct (run_cache _ _ _) as [[[[user|]|e] st1] c1]; simpl;
    by rewrite ?app_nil_r.
Qed.

(** The closures ask the cache module for nothing. *)
Lemma run_cache_no_requests {R D} (fetcher : Async R) (p : CacheGet W R D) st :
  (∀ st, omap requested (calls (fetcher st)) = []) →
  omap requested (calls (run_cache p fetcher st)) = [].
Proof.
  intros Hf.
  apply (run_cache_rel_tasks fetcher (λ _ _ c, omap requested c = []));
    [|done..|].
  - intros _ _ _ c1 c2 H1 H2. by rewrite omap_app, H1, H2.
  - intros [name cached] st0. rewrite run_task_run. by destruct cached.
Qed.

Lemma getPublishView_fetcher_no_requests ns pn st :
  omap requested (calls (getPublishView_fetcher ns pn st)) = [].
Proof.
  rewrite getPublishView_fetcher_run.
  by destruct (fetchPublishView _ _ _) as [[view|e] w].
Qed.

Lemma getPageDoc_fetcher_no_requests ws v name cb st :
  omap requested (calls (getPageDoc_fetcher ws v name cb st)) = [].
Proof.
  rewrite getPageDoc_fetcher_run.
  destruct (fetchPageCollab _ _ _) as [[page|e] w]; [done|].
  destruct cb as [f|]; [|done]. by destruct (f e w) as [[[]|e1] w1].
Qed.

Lemma strategy_for_loaded name (loaded : gset string) :
  name ∈ loaded → strategy_for name loaded = CACHE_FIRST.
Proof. intros. unfold strategy_for. by rewrite bool_decide_eq_true_2. Qed.

Lemma strategy_for_not_loaded name (loaded : gset string) :
  name ∉ loaded → strategy_for name loaded = CACHE_AND_NETWORK.
Proof. intros. unfold strategy_for. by rewrite bool_decide_eq_false_2. Qed.

Lemma asks_here request (strategy : StrategyType) rest :
  requested request = Some strategy → omap requested rest = [] →
  asks (request :: rest) request strategy.
Proof.
  intros Hr Hrest. split; [apply list_elem_of_here|].
  change (omap requested (request :: rest))
    with (match requested request with
          | Some y => y :: omap requested rest
          | None => omap requested rest
          end).
  by rewrite Hr, Hrest.
Qed.

Lemma asks_later c0 request (strategy : StrategyType) rest :
  requested c0 = None → asks rest request strategy →
  asks (c0 :: rest) request strategy.
Proof.
  intros Hc [Hin Hrest]. split; [by apply list_elem_of_further|].
  change (omap requested (c0 :: rest))
    with (match requested c0 with
          | Some y => y :: omap requested rest
          | None => omap requested rest
          end).
  by rewrite Hc.
Qed.

Lemma getPublishViewMeta_asks ns pn st :
  asks (calls (getPublishViewMeta ns pn st))
    (CacheGetPublishViewMeta ns pn
       (strategy_for (publishView_name ns pn) (publishViewLoaded (this st))))
    (strategy_for (publishView_name ns pn) (publishViewLoaded (this st))).
Proof.
  rewrite getPublishViewMeta_run. simpl.
  pose proof (run_cache_no_requests
    (call (FetchPublishViewMeta ns pn) (fetchPublishViewMeta ns pn))
    (cache_getPublishViewMeta ns pn
       (strategy_for (publishView_name ns pn) (publishViewLoaded (this st)))
       (world st)) st) as Hrest.
  destruct (run_cache _ _ _) as [[[[viewMeta|]|e] st1] c1];
    unfold calls in *; simpl in *.
  all: apply asks_here; [done|apply Hrest].
  all: intros st0; by rewrite fetchPublishViewMeta_run.
Qed.

Lemma getPublishView_asks ns pn st :
  asks (calls (getPublishView ns pn st))
    (CacheGetPublishView ns pn
       (strategy_for (publishView_name ns pn) (publishViewLoaded (this st))))
    (strategy_for (publishView_name ns pn) (publishViewLoaded (this st))).
Proof.
  rewrite getPublishView_run. simpl.
  pose proof (run_cache_no_requests (getPublishView_fetcher ns pn)
    (cache_getPublishView ns pn
       (strategy_for (publishView_name ns pn) (publishViewLoaded (this st)))
       (world st)) st (getPublishView_fetcher_no_requests ns pn)) as Hrest.
  destruct (run_cache _ _ _) as [[[doc|e] st1] c1];
    unfold calls in *; simpl in *.
  all: by apply asks_here.
Qed.

Lemma getPageDoc_asks ws v cb userId st :
  token_user_id (getTokenParsed (world st)) = Some userId →
  truthy userId = true →
  asks (calls (getPageDoc ws v cb st))
    (CacheGetPageDoc (pageDoc_name userId ws v)
       (strategy_for (pageDoc_name userId ws v) (viewLoaded (this st))))
    (strategy_for (pageDoc_name userId ws v) (viewLoaded (this st))).
Proof.
  intros Hid Hty. rewrite (getPageDoc_run ws v cb userId st Hid Hty). simpl.
  pose proof (run_cache_no_requests
    (getPageDoc_fetcher ws v (pageDoc_name userId ws v) cb)
    (cache_getPageDoc (pageDoc_name userId ws v)
       (strategy_for (pageDoc_name userId ws v) (viewLoaded (this st)))
       (world st)) st
    (getPageDoc_fetcher_no_requests ws v (pageDoc_name userId ws v) cb))
    as Hrest.
  destruct (run_cache _ _ _) as [[[doc|e] st1] c1];
    unfold calls in *; simpl in *.
  all: apply asks_later; [done|]; by apply asks_here.
Qed.

(** C1: the strategy follows the registry.  [getPublishViewMeta] and
    [getPublishView] call the cache module with CACHE_AND_NETWORK when the
    key is not in [publishViewLoaded] and with CACHE_FIRST when it is;
    [getPageDoc], for a session that has a user id, does the same with
    [viewLoaded].  In each case it is the only strategy asked for during
    the call. *)
Theorem strategy_follows_registry ns pn ws v cb st :
  let name := publishView_name ns pn in
  (name ∉ publishViewLoaded (this st) →
   asks (calls (getPublishViewMeta ns pn st))
     (CacheGetPublishViewMeta ns pn CACHE_AND_NETWORK) CACHE_AND_NETWORK
   ∧ asks (calls (getPublishView ns pn st))
       (CacheGetPublishView ns pn CACHE_AND_NETWORK) CACHE_AND_NETWORK)
  ∧ (name ∈ publishViewLoaded (this st) →
     asks (calls (getPublishViewMeta ns pn st))
       (CacheGetPublishViewMeta ns pn CACHE_FIRST) CACHE_FIRST
     ∧ asks (calls (getPublishView ns pn st))
         (CacheGetPublishView ns pn CACHE_FIRST) CACHE_FIRST)
  ∧ (∀ userId,
       token_user_id (getTokenParsed (world st)) = Some userId →
       truthy userId = true →
       let key := pageDoc_name userId ws v in
       (key ∉ viewLoaded (this st) →
        asks (calls (getPageDoc ws v cb st))
          (CacheGetPageDoc key CACHE_AND_NETWORK) CACHE_AND_NETWORK)
       ∧ (key ∈ viewLoaded (this st) →
          asks (calls (getPageDoc ws v cb st))
            (CacheGetPageDoc key CACHE_FIRST) CACHE_FIRST)).
Proof.
  intros name. subst name. split; [|split].
  - intros Hname.
    pose proof (getPublishViewMeta_asks ns pn st) as Hm.
    pose proof (getPublishView_asks ns pn st) as Hv.
    by rewrite (strategy_for_not_loaded _ _ Hname) in Hm, Hv.
  - intros Hname.
    pose proof (getPublishViewMeta_asks ns pn st) as Hm.
    pose proof (getPublishView_asks ns pn st) as Hv.
    by rewrite (strategy_for_loaded _ _ Hname) in Hm, Hv.
  - intros userId Hid Hty key. subst key.
    pose proof (getPageDoc_asks ws v cb userId st Hid Hty) as Hp.
    split; intros Hkey.
    + by rewrite (strategy_for_not_loaded _ _ Hkey) in Hp.
    + by rewrite (strategy_for_loaded _ _ Hkey) in Hp.
Qed.

Lemma registerDocUpdate_signed_out doc context st :
  truthy_opt (token_user_id (getTokenParsed (world st))) = false →
  registerDocUpdate doc context st
  = (Rejected (Error "User not found"), st, [GetTokenParsed]).
Proof.
  intros Hid. unfold registerDocUpdate. unfold_async. simpl.
  destruct (token_user_id _) as [userId|]; simpl in *.
  - rewrite Hid. simpl. by destruct st.
  - by destruct st.
Qed.

(** C8: without a user id in the session token, [getPageDoc] and
    [registerDocUpdate] fail with "User not found" having done nothing but
    read the token: no other call is made, and the registries, the
    publish-info map, the detached tasks and everything outside the service
    (local cache, network, sync bindings) are as they were. *)
Theorem identity_precondition ws v cb doc context st :
  truthy_opt (token_user_id (getTokenParsed (world st))) = false →
  getPageDoc ws v cb st
  = (Rejected (Error "User not found"), st, [GetTokenParsed])
  ∧ registerDocUpdate doc context st
    = (Rejected (Error "User not found"), st, [GetTokenParsed]).
Proof.
  intros Hid. split.
  - by apply getPageDoc_signed_out.
  - by apply registerDocUpdate_signed_out.
Qed.

Lemma getPublishRowDocument_run v st :
  getPublishRowDocument v st =
    match openCollabDB v (world st) with
    | (Resolved doc, w) =>
        (if hasCollabCache doc then Resolved doc
         else Rejected (Error "Document not found"),
         with_world w st, [OpenCollabDB v])
    | (Rejected e, w) => (Rejected e, with_world w st, [OpenCollabDB v])
    end.
Proof.
  unfold getPublishRowDocument. unfold_async. simpl.
  destruct (openCollabDB _ _) as [[doc|e] w]; [|done].
  by destruct (hasCollabCache doc).
Qed.

Lemma getUserWorkspaceInfo_run st :
  getUserWorkspaceInfo st =
    match api_getUserWorkspaceInfo (world st) with
    | (Resolved (Some workspaceInfo), w) =>
        (Resolved {| userId := user_id workspaceInfo;
                     selectedWorkspace := selected_workspace workspaceInfo;
                     workspaces := response_workspaces workspaceInfo |},
         with_world w st, [ApiGetUserWorkspaceInfo])
    | (Resolved None, w) =>
        (Rejected (Error "Workspace info not found"), with_world w st,
         [ApiGetUserWorkspaceInfo])
    | (Rejected e, w) => (Rejected e, with_world w st, [ApiGetUserWorkspaceInfo])
    end.
Proof.
  unfold getUserWorkspaceInfo. unfold_async. simpl.
  by destruct (api_getUserWorkspaceInfo _) as [[[workspaceInfo|]|e] w].
Qed.

(** C6: an entity that resolves empty is a not-found error of the service's
    own, and a failed fetch is the failure itself.  When the cache module
    resolves to no view meta, [getPublishViewMeta] rejects with "View has
    not been published yet"; when it resolves to no user, [getCurrentUser]
    rejects with "User not found"; when the opened document has no collab
    cache, [getPublishRowDocument] rejects with "Document not found"; when
    the workspace info is missing, [getUserWorkspaceInfo] rejects with
    "Workspace info not found".  When the underlying call rejects with [e],
    each of them rejects with [e]. *)
Theorem empty_entity_is_not_found ns pn v st :
  let meta :=
    run_cache
      (cache_getPublishViewMeta ns pn
         (strategy_for (publishView_name ns pn) (publishViewLoaded (this st)))
         (world st))
      (call (FetchPublishViewMeta ns pn) (fetchPublishViewMeta ns pn)) st in
  let user :=
    run_cache
      (cache_getUser (token_user_id (getTokenParsed (world st)))
         CACHE_AND_NETWORK (world st))
      (call ApiGetCurrentUser api_getCurrentUser) st in
  (settled meta = Resolved None →
   settled (getPublishViewMeta ns pn st)
   = Rejected (Error "View has not been published yet"))
  ∧ (∀ e, settled meta = Rejected e →
          settled (getPublishViewMeta ns pn st) = Rejected e)
  ∧ (settled user = Resolved None →
     settled (getCurrentUser st) = Rejected (Error "User not found"))
  ∧ (∀ e, settled user = Rejected e → settled (getCurrentUser st) = Rejected e)
  ∧ (∀ doc w,
       openCollabDB v (world st) = (Resolved doc, w) →
       hasCollabCache doc = false →
       settled (getPublishRowDocument v st)
       = Rejected (Error "Document not found"))
  ∧ (∀ e w,
       openCollabDB v (world st) = (Rejected e, w) →
       settled (getPublishRowDocument v st) = Rejected e)
  ∧ (∀ w,
       api_getUserWorkspaceInfo (world st) = (Resolved None, w) →
       settled (getUserWorkspaceInfo st)
       = Rejected (Error "Workspace info not found")).
Proof.
  intros meta user. subst meta user.
  rewrite getPublishViewMeta_run, getCurrentUser_run,
    getPublishRowDocument_run, getUserWorkspaceInfo_run.
  simpl. repeat split.
  - destruct (run_cache _ _ _) as [[[[viewMeta|]|e] st1] c1]; unfold settled; simpl; intros; by simplify_eq.
  - intros e0. destruct (run_cache _ _ _) as [[[[viewMeta|]|e] st1] c1];
      unfold settled; simpl; intros; by simplify_eq.
  - destruct (run_cache (cache_getUser _ _ _) _ _) as [[[[u|]|e] st1] c1];
      unfold settled; simpl; intros; by simplify_eq.
  - intros e0.
    destruct (run_cache (cache_getUser _ _ _) _ _) as [[[[u|]|e] st1] c1];
      unfold settled; simpl; intros; by simplify_eq.
  - intros doc w -> Hdoc. by rewrite Hdoc.
  - by intros e w ->.
  - by intros w ->.
Qed.

(** ** Entity keys *)

Lemma append_underscore_inj a b c d :
  underscore_free a = true → underscore_free c = true →
  a +:+ "_" +:+ b = c +:+ "_" +:+ d → a = c ∧ b = d.
Proof.
  revert c. induction a as [|x a IH]; intros [|y c] Ha Hc Heq; simpl in *.
  - by injection Heq.
  - injection Heq as <- _. by rewrite Ascii.eqb_refl in Hc.
  - injection Heq as -> _. by rewrite Ascii.eqb_refl in Ha.
  - injection Heq as -> Heq.
    apply andb_true_iff in Ha as [_ Ha]. apply andb_true_iff in Hc as [_ Hc].
    destruct (IH c Ha Hc Heq) as [-> ->]. done.
Qed.

(** C9, as the code has it: a key is a function of the identifying
    parameters, so equal parameters give equal keys; and two keys are equal
    only for equal parameters when the leading parts (the namespace; the
    user id and the workspace id) contain no underscore. *)
Theorem entity_keys_deterministic_and_separated :
  (∀ ns pn ns' pn',
     (ns, pn) = (ns', pn') → publishView_name ns pn = publishView_name ns' pn')
  ∧ (∀ u w v u' w' v',
       (u, w, v) = (u', w', v') → pageDoc_name u w v = pageDoc_name u' w' v')
  ∧ (∀ ns pn ns' pn',
       underscore_free ns = true → underscore_free ns' = true →
       publishView_name ns pn = publishView_name ns' pn' →
       (ns, pn) = (ns', pn'))
  ∧ (∀ u w v u' w' v',
       underscore_free u = true → underscore_free u' = true →
       underscore_free w = true → underscore_free w' = true →
       pageDoc_name u w v = pageDoc_name u' w' v' →
       (u, w, v) = (u', w', v')).
Proof.
  repeat split.
  - by intros ns pn ns' pn' [= -> ->].
  - by intros u w v u' w' v' [= -> -> ->].
  - intros ns pn ns' pn' Hns Hns' Heq.
    by destruct (append_underscore_inj _ _ _ _ Hns Hns' Heq) as [-> ->].
  - intros u w v u' w' v' Hu Hu' Hw Hw' Heq.
    destruct (append_underscore_inj _ _ _ _ Hu Hu' Heq) as [-> Heq'].
    by destruct (append_underscore_inj _ _ _ _ Hw Hw' Heq') as [-> ->].
Qed.

(** ** Invalidation after a failed fetch *)

(** C3, as the code has it.  When [fetchPublishView] rejects, the closure
    of [getPublishView] logs the error, calls [hasViewMetaCache] for the key
    there and then, detaches what is left of the invalidation (the function
    waiting for that answer) and rejects with the same error, the registries
    being as they were.  When the detached function resumes, it removes the
    key from [publishViewLoaded] and calls [deleteView] if the answer was
    that there is a record, and it does nothing at all, and makes no call,
    if the answer was that there is none.  When [fetchPageCollab] rejects
    (and the caller's [errorCallback], if there is one, returns), the
    closure of [getPageDoc] removes the key from [viewLoaded] and calls
    [deleteView] without asking whether a record exists, and rejects with
    the same error.  What the cache module's run rejects with is what either
    method rejects with. *)
Theorem failed_fetch_invalidation ns pn ws v name cb st :
  (∀ e w,
     fetchPublishView ns pn (world st) = (Rejected e, w) →
     getPublishView_fetcher ns pn st
     = (Rejected e,
        with_detached
          (InvalidatePublishView (publishView_name ns pn)
             (hasViewMetaCache (publishView_name ns pn) w))
          (with_world w st),
        [FetchPublishView ns pn; ConsoleError e;
         CacheHasViewMetaCache (publishView_name ns pn)]))
  ∧ run_task (InvalidatePublishView name true) st
    = (Resolved (),
       with_world (deleteView name (world st))
         (with_this (without_publishView name (this st)) st),
       [CacheDeleteView name])
  ∧ run_task (InvalidatePublishView name false) st = (Resolved (), st, [])
  ∧ (∀ e w,
       fetchPageCollab ws v (world st) = (Rejected e, w) →
       (cb = None →
        getPageDoc_fetcher ws v name cb st
        = (Rejected e,
           with_world (deleteView name w)
             (with_this (without_view name (this st)) st),
           [FetchPageCollab ws v; ConsoleError e; CacheDeleteView name]))
       ∧ (∀ f w1,
            cb = Some f → f e w = (Resolved (), w1) →
            getPageDoc_fetcher ws v name cb st
            = (Rejected e,
               with_world (deleteView name w1)
                 (with_this (without_view name (this st)) st),
               [FetchPageCollab ws v; ConsoleError e; ErrorCallback e;
                CacheDeleteView name])))
  ∧ (∀ e,
       settled
         (run_cache
            (cache_getPublishView ns pn
               (strategy_for (publishView_name ns pn)
                  (publishViewLoaded (this st))) (world st))
            (getPublishView_fetcher ns pn) st) = Rejected e →
       settled (getPublishView ns pn st) = Rejected e)
  ∧ (∀ e userId,
       token_user_id (getTokenParsed (world st)) = Some userId →
       truthy userId = true →
       settled
         (run_cache
            (cache_getPageDoc (pageDoc_name userId ws v)
               (strategy_for (pageDoc_name userId ws v) (viewLoaded (this st)))
               (world st))
            (getPageDoc_fetcher ws v (pageDoc_name userId ws v) cb) st)
       = Rejected e →
       settled (getPageDoc ws v cb st) = Rejected e).
Proof.
  split; [|split; [|split; [|split; [|split]]]].
  - intros e w Hfetch. by rewrite getPublishView_fetcher_run, Hfetch.
  - by rewrite run_task_run.
  - by rewrite run_task_run.
  - intros e w Hfetch. rewrite getPageDoc_fetcher_run, Hfetch. split.
    + by intros ->.
    + intros f w1 -> Hcb. by rewrite Hcb.
  - intros e. rewrite getPublishView_run. simpl.
    destruct (run_cache _ _ _) as [[[doc|e1] st1] c1];
      unfold settled; simpl; intros; by simplify_eq.
  - intros e userId Hid Hty. rewrite (getPageDoc_run ws v cb userId st Hid Hty).
    simpl. destruct (run_cache _ _ _) as [[[doc|e1] st1] c1];
      unfold settled; simpl; intros; by simplify_eq.
Qed.

(** ** The registries across calls *)

Lemma keeps_grow k st st' c :
  publishViewLoaded (this st) ⊆ publishViewLoaded (this st') →
  viewLoaded (this st) ⊆ viewLoaded (this st') →
  keeps k st st' c.
Proof. intros Hp Hv. split; intros Hk; left; set_solver. Qed.

Lemma keeps_same k st st' c : this st' = this st → keeps k st st' c.
Proof. intros Heq. apply keeps_grow; by rewrite Heq. Qed.

Lemma keeps_trans k st st1 st2 c1 c2 :
  keeps k st st1 c1 → keeps k st1 st2 c2 → keeps k st st2 (c1 ++ c2).
Proof.
  intros [Hp1 Hv1] [Hp2 Hv2]. split; intros Hk.
  - destruct (Hp1 Hk) as [Hk1|Hd]; [|right; apply elem_of_app; by left].
    destruct (Hp2 Hk1) as [Hk2|Hd]; [by left|right; apply elem_of_app; by right].
  - destruct (Hv1 Hk) as [Hk1|Hd]; [|right; apply elem_of_app; by left].
    destruct (Hv2 Hk1) as [Hk2|Hd]; [by left|right; apply elem_of_app; by right].
Qed.

Lemma keeps_cons k st st' c0 c : keeps k st st' c → keeps k st st' (c0 :: c).
Proof.
  intros [Hp Hv]. split; intros Hk.
  - destruct (Hp Hk); [by left|right; by apply list_elem_of_further].
  - destruct (Hv Hk); [by left|right; by apply list_elem_of_further].
Qed.

(** A closure that leaves the service's fields alone makes a run of the
    cache module that does. *)
Lemma run_cache_this {R D} (fetcher : Async R) (p : CacheGet W R D) st :
  (∀ st, this (final (fetcher st)) = this st) →
  (∀ st, detached (final (fetcher st)) = detached st) →
  this (final (run_cache p fetcher st)) = this st.
Proof.
  intros Hf Hquiet.
  apply (run_cache_rel fetcher (λ st st' _, this st' = this st)); [|done..].
  intros st0 st1 st2 _ _ H1 H2. by rewrite H2.
Qed.

Lemma call_detached {A} c (f : W → Settled A * W) st :
  detached (final (call c f st)) = detached st.
Proof. unfold_async. by destruct (f _). Qed.

Lemma getPublishView_fetcher_this ns pn st :
  this (final (getPublishView_fetcher ns pn st)) = this st.
Proof.
  rewrite getPublishView_fetcher_run.
  by destruct (fetchPublishView _ _ _) as [[view|e] w].
Qed.

Lemma getPageDoc_fetcher_detached ws v name cb st :
  detached (final (getPageDoc_fetcher ws v name cb st)) = detached st.
Proof.
  rewrite getPageDoc_fetcher_run.
  destruct (fetchPageCollab _ _ _) as [[page|e] w]; [done|].
  destruct cb as [f|]; [|done]. by destruct (f e w) as [[[]|e1] w1].
Qed.

Lemma getPageDoc_fetcher_keeps k ws v name cb st :
  keeps k st (final (getPageDoc_fetcher ws v name cb st))
    (calls (getPageDoc_fetcher ws v name cb st)).
Proof.
  rewrite getPageDoc_fetcher_run.
  assert (∀ w c0 c1,
    keeps k st
      (with_world w (with_this (without_view name (this st)) st))
      (c0 ++ CacheDeleteView name :: c1)) as Hpurge.
  { intros w c0 c1. split; intros Hk; simpl.
    - by left.
    - destruct (decide (k = name)) as [->|Hne]; [right|left]; set_solver. }
  destruct (fetchPageCollab _ _ _) as [[page|e] w]; [by apply keeps_same|].
  destruct cb as [f|].
  - destruct (f e w) as [[[]|e1] w1]; [|by apply keeps_same].
    apply (Hpurge w1 [FetchPageCollab ws v; ConsoleError e; ErrorCallback e] []).
  - apply (Hpurge w [FetchPageCollab ws v; ConsoleError e] []).
Qed.

Lemma run_task_keeps k t st :
  keeps k st (final (run_task t st)) (calls (run_task t st)).
Proof.
  destruct t as [name cached]. rewrite run_task_run.
  destruct cached; [|by apply keeps_same].
  split; intros Hk; simpl.
  - destruct (decide (k = name)) as [->|Hne]; [right|left]; set_solver.
  - by left.
Qed.

Lemma settle_detached_keeps k st :
  keeps k st (final (settle_detached st)) (calls (settle_detached st)).
Proof.
  unfold settle_detached.
  assert (∀ (tasks : list Task) (o : Settled () * St * list Call),
    keeps k st (final o) (calls o) →
    keeps k st
      (final (fold_left
         (λ o t,
            match run_task t o.1.2 with
            | (_, st1, c1) => (Resolved (), st1, o.2 ++ c1)
            end) tasks o))
      (calls (fold_left
         (λ o t,
            match run_task t o.1.2 with
            | (_, st1, c1) => (Resolved (), st1, o.2 ++ c1)
            end) tasks o))) as Hfold.
  { induction tasks as [|t tasks IH]; intros o Ho; [done|].
    simpl. apply IH.
    pose proof (run_task_keeps k t o.1.2) as Ht.
    destruct (run_task t o.1.2) as [[r st1] c1].
    by apply (keeps_trans k st (final o)). }
  apply Hfold. by apply keeps_same.
Qed.

Lemma getPublishViewMeta_this ns pn st :
  this (final (getPublishViewMeta ns pn st)) = this st.
Proof.
  rewrite getPublishViewMeta_run. simpl.
  pose proof (run_cache_this
    (call (FetchPublishViewMeta ns pn) (fetchPublishViewMeta ns pn))
    (cache_getPublishViewMeta ns pn
       (strategy_for (publishView_name ns pn) (publishViewLoaded (this st)))
       (world st)) st) as Hthis.
  destruct (run_cache _ _ _) as [[[[viewMeta|]|e] st1] c1]; apply Hthis.
  all: intros st0; first [apply call_this|apply call_detached].
Qed.

Lemma getCurrentUser_this st : this (final (getCurrentUser st)) = this st.
Proof.
  rewrite getCurrentUser_run. simpl.
  pose proof (run_cache_this (call ApiGetCurrentUser api_getCurrentUser)
    (cache_getUser (token_user_id (getTokenParsed (world st)))
       CACHE_AND_NETWORK (world st)) st) as Hthis.
  destruct (run_cache _ _ _) as [[[[u|]|e] st1] c1]; apply Hthis.
  all: intros st0; first [apply call_this|apply call_detached].
Qed.

Lemma registerDocUpdate_this doc context st :
  this (final (registerDocUpdate doc context st)) = this st.
Proof.
  unfold registerDocUpdate. unfold_async. simpl.
  destruct (token_user_id _) as [userId|]; simpl; [|done].
  by destruct (truthy userId).
Qed.

Lemma getPublishView_fetcher_keeps k ns pn st :
  keeps k st (final (getPublishView_fetcher ns pn st))
    (calls (getPublishView_fetcher ns pn st)).
Proof. apply keeps_same, getPublishView_fetcher_this. Qed.

Lemma getPublishView_keeps k ns pn st :
  keeps k st (final (getPublishView ns pn st)) (calls (getPublishView ns pn st)).
Proof.
  rewrite getPublishView_run. simpl.
  pose proof (run_cache_rel_tasks (getPublishView_fetcher ns pn) (keeps k)
    (keeps_trans k) (λ st w, keeps_same k st (with_world w st) [] eq_refl)
    (λ st l, keeps_same k st _ [] eq_refl)
    (getPublishView_fetcher_keeps k ns pn) (run_task_keeps k)
    (cache_getPublishView ns pn
       (strategy_for (publishView_name ns pn) (publishViewLoaded (this st)))
       (world st)) st) as Hrun.
  destruct (run_cache _ _ _) as [[[doc|e] st1] c1];
    unfold final, calls in *; simpl in *.
  - apply keeps_cons. case_bool_decide; [done|].
    destruct Hrun as [Hp Hv]. split; intros Hk.
    + destruct (Hp Hk) as [Hk1|Hd]; [left|by right].
      simpl. apply elem_of_union. by right.
    + by apply Hv.
  - by apply keeps_cons.
Qed.

Lemma getPageDoc_keeps k ws v cb st :
  keeps k st (final (getPageDoc ws v cb st)) (calls (getPageDoc ws v cb st)).
Proof.
  destruct (token_user_id (getTokenParsed (world st))) as [userId|] eqn:Hid.
  - destruct (truthy userId) eqn:Hty.
    + rewrite (getPageDoc_run ws v cb userId st Hid Hty). simpl.
      pose proof (run_cache_rel
        (getPageDoc_fetcher ws v (pageDoc_name userId ws v) cb) (keeps k)
        (keeps_trans k) (λ st w, keeps_same k st (with_world w st) [] eq_refl)
        (getPageDoc_fetcher_detached ws v (pageDoc_name userId ws v) cb)
        (getPageDoc_fetcher_keeps k ws v (pageDoc_name userId ws v) cb)
        (cache_getPageDoc (pageDoc_name userId ws v)
           (strategy_for (pageDoc_name userId ws v) (viewLoaded (this st)))
           (world st)) st) as Hrun.
      destruct (run_cache _ _ _) as [[[doc|e] st1] c1];
        unfold final, calls in *; simpl in *.
      * do 2 apply keeps_cons. case_bool_decide; [done|].
        destruct Hrun as [Hp Hv]. split; intros Hk.
        -- by apply Hp.
        -- destruct (Hv Hk) as [Hk1|Hd]; [left|by right].
           simpl. apply elem_of_union. by right.
      * by do 2 apply keeps_cons.
    + rewrite getPageDoc_signed_out; [by apply keeps_same|].
      by rewrite Hid; simpl.
  - rewrite getPageDoc_signed_out; [by apply keeps_same|]. by rewrite Hid.
Qed.

Lemma getPublishInfo_registries v st :
  publishViewLoaded (this (final (getPublishInfo v st)))
  = publishViewLoaded (this st)
  ∧ viewLoaded (this (final (getPublishInfo v st))) = viewLoaded (this st).
Proof.
  destruct (publishViewInfo (this st) !! v) as [record|] eqn:Hv.
  - by rewrite (getPublishInfo_hit v record st Hv).
  - rewrite (getPublishInfo_miss v st Hv).
    destruct (fetchViewInfo _ _) as [[info|e] w]; [|done].
    by destruct (truthy_opt _).
Qed.

Lemma exec_keeps k op st : keeps k st (exec op st).1 (exec op st).2.
Proof.
  assert (∀ A (m : Async A),
    keeps k st (final (m st)) (calls (m st)) →
    keeps k st (forget m st).1 (forget m st).2) as Hforget by done.
  destruct op; unfold exec; apply Hforget.
  - apply keeps_grow; rewrite publishView_run, call_this; reflexivity.
  - apply keeps_grow; rewrite unpublishView_run, call_this; reflexivity.
  - apply keeps_grow; rewrite updatePublishNamespace_run, call_this;
      reflexivity.
  - apply keeps_same. apply call_this.
  - apply keeps_same. apply call_this.
  - apply keeps_same. apply getPublishViewMeta_this.
  - apply getPublishView_keeps.
  - apply keeps_same. rewrite getPublishRowDocument_run.
    by destruct (openCollabDB _ _) as [[doc|e] w].
  - destruct (getPublishInfo_registries viewId0 st) as [Hp Hv].
    apply keeps_grow; [by rewrite Hp|by rewrite Hv].
  - apply keeps_grow; rewrite updatePublishConfig_run, call_this; reflexivity.
  - apply keeps_same. apply getCurrentUser_this.
  - apply keeps_same. rewrite getUserWorkspaceInfo_run.
    by destruct (api_getUserWorkspaceInfo _) as [[[workspaceInfo|]|e] w].
  - apply getPageDoc_keeps.
  - apply keeps_same. apply registerDocUpdate_this.
  - apply settle_detached_keeps.
Qed.

Lemma exec_all_keeps k ops st :
  keeps k st (exec_all ops st).1 (exec_all ops st).2.
Proof.
  revert st. induction ops as [|op ops IH]; intros st; simpl.
  - by apply keeps_same.
  - pose proof (exec_keeps k op st) as Hop.
    destruct (exec op st) as [st1 c1].
    pose proof (IH st1) as Hops.
    destruct (exec_all ops st1) as [st2 c2]. simpl in *.
    by apply (keeps_trans k st st1).
Qed.

(** ** The cleanup of [getPublishView], during the call *)

Lemma console_errors_app c1 c2 :
  console_errors (c1 ++ c2) = console_errors c1 + console_errors c2.
Proof. apply sum_list_with_app. Qed.

Lemma record_checks_app c1 c2 :
  record_checks (c1 ++ c2) = record_checks c1 + record_checks c2.
Proof. apply sum_list_with_app. Qed.

Lemma without_publishView_idem name s :
  without_publishView name (without_publishView name s)
  = without_publishView name s.
Proof. unfold without_publishView. simpl. f_equal. apply difference_twice_L. Qed.

Lemma cleanup_trans name st st1 st2 c1 c2 :
  cleanup name st st1 c1 → cleanup name st1 st2 c2 →
  cleanup name st st2 (c1 ++ c2).
Proof.
  intros [[Hc1 H1]|[Hc1 H1]] [[Hc2 H2]|[Hc2 H2]].
  - left. split; [|by rewrite H2]. rewrite elem_of_app. tauto.
  - right. split; [|by rewrite H2, H1]. rewrite elem_of_app. tauto.
  - right. split; [|by rewrite H2]. rewrite elem_of_app. tauto.
  - right. split; [rewrite elem_of_app; tauto|].
    by rewrite H2, H1, without_publishView_idem.
Qed.

Lemma cleanup_none name st st' :
  this st' = this st → cleanup name st st' [].
Proof. intros Heq. left. split; [apply not_elem_of_nil|done]. Qed.

Lemma lookup_at_length {T} (l1 l2 : list T) :
  (l1 ++ l2) !! length l1 = head l2.
Proof. induction l1 as [|x l1 IH]; simpl; [by destruct l2|done]. Qed.

Lemma delete_at_length {T} (l1 l2 : list T) :
  delete (length l1) (l1 ++ l2) = l1 ++ tail l2.
Proof.
  induction l1 as [|x l1 IH]; simpl; [by destruct l2|]. by rewrite IH.
Qed.

(** The event loop resumes the oldest function detached since the call
    began. *)
Lemma resume_detached_first st0 t waiting s w :
  resume_detached (length (detached st0))
    {| this := s; world := w; detached := detached st0 ++ t :: waiting |}
  = run_task t {| this := s; world := w; detached := detached st0 ++ waiting |}.
Proof.
  unfold resume_detached. simpl.
  by rewrite lookup_at_length, delete_at_length.
Qed.

(** The cache module's run with the closure of [getPublishView]: the
    service's fields, the checks made and what is left waiting. *)
Lemma run_cache_getPublishView_cleanup {D} ns pn
    (p : CacheGet W PublishedView D) st :
  let name := publishView_name ns pn in
  let o := run_cache p (getPublishView_fetcher ns pn) st in
  cleanup name st (final o) (calls o)
  ∧ record_checks (calls o) = console_errors (calls o)
  ∧ ∃ waiting,
      detached (final o) = detached st ++ waiting
      ∧ length waiting ≤ console_errors (calls o)
      ∧ ∀ t, t ∈ waiting → ∃ cached, t = InvalidatePublishView name cached.
Proof.
  intros name o. subst o. unfold run_cache.
  pose proof (run_cache_from_rel (D := D) (getPublishView_fetcher ns pn)
    (length (detached st))
    (λ st', ∃ waiting,
       detached st' = detached st ++ waiting
       ∧ ∀ t, t ∈ waiting → ∃ cached, t = InvalidatePublishView name cached)
    (λ st0 st' c,
       cleanup name st0 st' c
       ∧ record_checks c = console_errors c
       ∧ length (detached st') ≤ length (detached st0) + console_errors c))
    as Hrel.
  destruct (Hrel) with (p := p) (st := st)
    as ((Hclean & Hchecks & Hlen) & (waiting & Hwaiting & Htasks)).
  - intros st0 st1 st2 c1 c2 (Hc1 & Hr1 & Hl1) (Hc2 & Hr2 & Hl2).
    split; [by apply (cleanup_trans name st0 st1)|].
    rewrite record_checks_app, console_errors_app. split; lia.
  - intros st0 w. split; [by apply cleanup_none|]. split; [done|]. simpl. lia.
  - done.
  - intros st0 (waiting & Hwaiting & Htasks).
    rewrite getPublishView_fetcher_run.
    destruct (fetchPublishView _ _ _) as [[view|e] w]; unfold final, calls;
      simpl.
    + split; [|by exists waiting]. split; [|split; [done|lia]].
      left. split; [|done]. rewrite !not_elem_of_cons. split; [done|].
      apply not_elem_of_nil.
    + split.
      * split; [|split; [done|rewrite length_app; simpl; lia]].
        left. split; [|done]. rewrite !not_elem_of_cons.
        repeat split; try done. apply not_elem_of_nil.
      * exists (waiting ++ [InvalidatePublishView name (hasViewMetaCache name w)]).
        split; [by rewrite Hwaiting, app_assoc|].
        intros t Ht. apply elem_of_app in Ht as [Ht|Ht]; [by apply Htasks|].
        apply list_elem_of_singleton in Ht as ->. by eexists.
  - intros [s w d] (waiting & Hwaiting & Htasks). simpl in Hwaiting. subst d.
    destruct waiting as [|t waiting].
    + rewrite resume_detached_none; [|simpl; by rewrite app_nil_r].
      unfold final, calls. simpl.
      split; [|by exists []]. split; [by apply cleanup_none|]. split; [done|lia].
    + rewrite resume_detached_first.
      destruct (Htasks t) as [cached ->]; [apply list_elem_of_here|].
      rewrite run_task_run. destruct cached; unfold final, calls; simpl.
      * split.
        -- split; [|split; [done|rewrite !length_app; simpl; lia]].
           right. split; [apply list_elem_of_here|done].
        -- exists waiting. split; [done|]. intros t Ht. apply Htasks.
           by apply list_elem_of_further.
      * split.
        -- split; [by apply cleanup_none|].
           split; [done|rewrite !length_app; simpl; lia].
        -- exists waiting. split; [done|]. intros t Ht. apply Htasks.
           by apply list_elem_of_further.
  - exists []. split; [by rewrite app_nil_r|]. intros t Ht.
    by apply elem_of_nil in Ht.
  - split; [done|]. split; [done|]. exists waiting.
    split; [done|]. split; [|done].
    rewrite Hwaiting, length_app in Hlen. lia.
Qed.

(** [getPublishView]: the fields, the checks and what is left waiting after
    the call. *)
Lemma getPublishView_cleanup ns pn st :
  let name := publishView_name ns pn in
  let o := getPublishView ns pn st in
  (∃ st1,
     cleanup name st st1 (calls o)
     ∧ this (final o) =
         match settled o with
         | Resolved _ =>
             if bool_decide (name ∈ publishViewLoaded (this st)) then this st1
             else with_publishView name (this st1)
         | Rejected _ => this st1
         end)
  ∧ record_checks (calls o) = console_errors (calls o)
  ∧ ∃ waiting,
      detached (final o) = detached st ++ waiting
      ∧ length waiting ≤ console_errors (calls o)
      ∧ ∀ t, t ∈ waiting → ∃ cached, t = InvalidatePublishView name cached.
Proof.
  intros name o. subst name o. rewrite getPublishView_run. simpl.
  pose proof (run_cache_getPublishView_cleanup ns pn
    (cache_getPublishView ns pn
       (strategy_for (publishView_name ns pn) (publishViewLoaded (this st)))
       (world st)) st) as (Hclean & Hchecks & waiting & Hwaiting & Hlen & Htasks).
  simpl in Hclean, Hchecks, Hwaiting, Hlen.
  assert (∀ c0 c,
    requested c0 ≠ None →
    cleanup (publishView_name ns pn) st
      (final (run_cache
         (cache_getPublishView ns pn
            (strategy_for (publishView_name ns pn) (publishViewLoaded (this st)))
            (world st)) (getPublishView_fetcher ns pn) st)) c →
    cleanup (publishView_name ns pn) st
      (final (run_cache
         (cache_getPublishView ns pn
            (strategy_for (publishView_name ns pn) (publishViewLoaded (this st)))
            (world st)) (getPublishView_fetcher ns pn) st)) (c0 :: c)) as Hcons.
  { intros c0 c Hc0 [[Hc H]|[Hc H]]; [left|right]; (split; [|done]).
    - rewrite not_elem_of_cons. split; [|done]. by intros <-.
    - by apply list_elem_of_further. }
  destruct (run_cache _ _ _) as [[[doc|e] st1] c1];
    unfold final, calls, settled in *; simpl in *.
  - split.
    + exists st1. split; [by apply Hcons|]. by case_bool_decide.
    + split; [done|]. exists waiting. split; [by case_bool_decide|done].
  - split; [exists st1; split; [by apply Hcons|done]|].
    split; [done|]. by exists waiting.
Qed.

(** The fields after [getPublishView]: the publish-info map and [viewLoaded]
    are as they were, and only the call's own key can have been added to
    [publishViewLoaded]. *)
Lemma getPublishView_fields ns pn st :
  publishViewInfo (this (final (getPublishView ns pn st)))
  = publishViewInfo (this st)
  ∧ viewLoaded (this (final (getPublishView ns pn st))) = viewLoaded (this st)
  ∧ ∀ k,
      k ∈ publishViewLoaded (this (final (getPublishView ns pn st))) →
      k ∈ publishViewLoaded (this st)
      ∨ ∃ doc,
          k = publishView_name ns pn
          ∧ settled (getPublishView ns pn st) = Resolved doc.
Proof.
  destruct (getPublishView_cleanup ns pn st) as ((st1 & Hclean & Hthis) & _).
  simpl in Hclean, Hthis. rewrite Hthis.
  assert (publishViewInfo (this st1) = publishViewInfo (this st)
          ∧ viewLoaded (this st1) = viewLoaded (this st)
          ∧ publishViewLoaded (this st1) ⊆ publishViewLoaded (this st))
    as (Hi & Hv & Hp).
  { destruct Hclean as [[_ ->]|[_ ->]]; [done|]. simpl.
    split; [done|]. split; [done|]. apply subseteq_difference_l. reflexivity. }
  destruct (settled (getPublishView ns pn st)) as [doc|e].
  - case_bool_decide; simpl.
    + split; [done|]. split; [done|]. intros k Hk. left. by apply Hp.
    + split; [done|]. split; [done|]. intros k Hk.
      apply elem_of_union in Hk as [Hk|Hk].
      * apply elem_of_singleton in Hk as ->. right. by exists doc.
      * left. by apply Hp.
  - split; [done|]. split; [done|]. intros k Hk. left. by apply Hp.
Qed.

(** C2, as the code has it.  A [getPublishView] that resolves leaves its
    key in [publishViewLoaded], and a [getPageDoc] that resolves leaves its
    key in [viewLoaded], unless the key was registered before and the
    cleanup of a failed fetch ran during the call, which calls [deleteView]
    for the key (a key that was registered when the call began is not added
    again); [getPublishViewMeta] reads the registry and never writes to it.
    Through any sequence of later calls of the service and runs of the
    detached tasks, a registered key stays registered unless [deleteView] is
    called for it. *)
Theorem registry_after_retrieval ns pn ws v cb k ops st :
  (∀ doc,
     settled (getPublishView ns pn st) = Resolved doc →
     publishView_name ns pn
     ∈ publishViewLoaded (this (final (getPublishView ns pn st)))
     ∨ (publishView_name ns pn ∈ publishViewLoaded (this st)
        ∧ CacheDeleteView (publishView_name ns pn)
          ∈ calls (getPublishView ns pn st)))
  ∧ (∀ doc userId,
       token_user_id (getTokenParsed (world st)) = Some userId →
       truthy userId = true →
       settled (getPageDoc ws v cb st) = Resolved doc →
       pageDoc_name userId ws v ∈ viewLoaded (this (final (getPageDoc ws v cb st)))
       ∨ (pageDoc_name userId ws v ∈ viewLoaded (this st)
          ∧ CacheDeleteView (pageDoc_name userId ws v)
            ∈ calls (getPageDoc ws v cb st)))
  ∧ this (final (getPublishViewMeta ns pn st)) = this st
  ∧ keeps k st (exec_all ops st).1 (exec_all ops st).2.
Proof.
  split; [|split; [|split]].
  - intros doc Hdoc.
    destruct (getPublishView_cleanup ns pn st) as ((st1 & Hclean & Hthis) & _).
    simpl in Hclean, Hthis. rewrite Hthis, Hdoc.
    case_bool_decide as Hk; simpl.
    + destruct Hclean as [[_ ->]|[Hd _]]; [by left|by right].
    + left. apply elem_of_union. left. by apply elem_of_singleton.
  - intros doc userId Hid Hty.
    rewrite (getPageDoc_run ws v cb userId st Hid Hty). simpl.
    pose proof (run_cache_rel
      (getPageDoc_fetcher ws v (pageDoc_name userId ws v) cb)
      (keeps (pageDoc_name userId ws v))
      (keeps_trans _) (λ st w, keeps_same _ st (with_world w st) [] eq_refl)
      (getPageDoc_fetcher_detached ws v (pageDoc_name userId ws v) cb)
      (getPageDoc_fetcher_keeps _ ws v (pageDoc_name userId ws v) cb)
      (cache_getPageDoc (pageDoc_name userId ws v)
         (strategy_for (pageDoc_name userId ws v) (viewLoaded (this st)))
         (world st)) st) as [_ Hrun].
    destruct (run_cache _ _ _) as [[[doc1|e] st1] c1];
      unfold final, calls, settled in *; simpl in *; [|done].
    intros _. case_bool_decide as Hk; simpl.
    + destruct (Hrun Hk) as [Hk1|Hd]; [by left|right].
      split; [done|]. by do 2 apply list_elem_of_further.
    + left. apply elem_of_union. left. by apply elem_of_singleton.
  - apply getPublishViewMeta_this.
  - apply exec_all_keeps.
Qed.

(** ** More on the publish-info map *)

(** X1: a record that [getPublishInfo] resolved to is served again, without
    any call and without any change, by the next [getPublishInfo] for the
    same view. *)
Theorem getPublishInfo_twice v st record :
  settled (getPublishInfo v st) = Resolved record →
  getPublishInfo v (final (getPublishInfo v st))
  = (Resolved record, final (getPublishInfo v st), []).
Proof.
  destruct (publishViewInfo (this st) !! v) as [cached|] eqn:Hv.
  - rewrite (getPublishInfo_hit v cached st Hv). unfold settled, final. simpl.
    intros [= <-]. by apply getPublishInfo_hit.
  - rewrite (getPublishInfo_miss v st Hv).
    destruct (fetchViewInfo v (world st)) as [[info|e] w]; [|done].
    destruct (truthy_opt (info_namespace info)); [|done].
    unfold settled, final. simpl. intros [= <-].
    apply getPublishInfo_hit. simpl. apply lookup_insert_eq.
Qed.

(** X2: a [getPublishInfo] that rejects caches nothing: the service's fields
    are as before, the map still has no entry for the view, and the next
    [getPublishInfo] for it goes to the network again. *)
Theorem getPublishInfo_rejection_not_cached v st e :
  settled (getPublishInfo v st) = Rejected e →
  this (final (getPublishInfo v st)) = this st
  ∧ publishViewInfo (this st) !! v = None
  ∧ calls (getPublishInfo v (final (getPublishInfo v st))) = [FetchViewInfo v].
Proof.
  destruct (publishViewInfo (this st) !! v) as [cached|] eqn:Hv.
  - by rewrite (getPublishInfo_hit v cached st Hv).
  - intros Hrej.
    assert (this (final (getPublishInfo v st)) = this st) as Hthis.
    { revert Hrej. rewrite (getPublishInfo_miss v st Hv).
      destruct (fetchViewInfo v (world st)) as [[info|e1] w]; [|done].
      by destruct (truthy_opt (info_namespace info)). }
    split; [done|]. split; [done|].
    apply getPublishInfo_miss_calls. by rewrite Hthis.
Qed.

(** X3: [getPublishInfo] for one view leaves the entries of all other views
    and both registries as they are. *)
Theorem getPublishInfo_frame v v' st :
  v' ≠ v →
  publishViewInfo (this (final (getPublishInfo v st))) !! v'
  = publishViewInfo (this st) !! v'
  ∧ publishViewLoaded (this (final (getPublishInfo v st)))
    = publishViewLoaded (this st)
  ∧ viewLoaded (this (final (getPublishInfo v st))) = viewLoaded (this st).
Proof.
  intros Hne. split; [|apply getPublishInfo_registries].
  destruct (publishViewInfo (this st) !! v) as [cached|] eqn:Hv.
  - by rewrite (getPublishInfo_hit v cached st Hv).
  - rewrite (getPublishInfo_miss v st Hv).
    destruct (fetchViewInfo v (world st)) as [[info|e] w]; [|done].
    destruct (truthy_opt (info_namespace info)); [|done].
    simpl. by apply lookup_insert_ne.
Qed.

(** X4: invalidation is targeted.  [publishView], [unpublishView] and
    [updatePublishConfig] leave the cached records of every other view in
    place, whatever [APIService] answers; [updatePublishNamespace] leaves
    none at all. *)
Theorem invalidation_is_targeted ws v v' p config payload st :
  (v' ≠ v →
   publishViewInfo (this (final (publishView ws v p st))) !! v'
   = publishViewInfo (this st) !! v'
   ∧ publishViewInfo (this (final (unpublishView ws v st))) !! v'
     = publishViewInfo (this st) !! v')
  ∧ (v' ≠ config_view_id config →
     publishViewInfo (this (final (updatePublishConfig ws config st))) !! v'
     = publishViewInfo (this st) !! v')
  ∧ publishViewInfo (this (final (updatePublishNamespace ws payload st))) = ∅.
Proof.
  split; [|split].
  - intros Hne. rewrite publishView_run, unpublishView_run, !call_this. simpl.
    by rewrite lookup_delete_ne.
  - intros Hne. rewrite updatePublishConfig_run, call_this. simpl.
    by rewrite lookup_delete_ne.
  - by rewrite updatePublishNamespace_run, call_this.
Qed.

(** ** What each method can add *)

(** The closure of [getPageDoc], and so the cache module's run with it,
    leaves the publish-info map and [publishViewLoaded] alone and adds
    nothing to [viewLoaded]. *)
Lemma getPageDoc_fetcher_fields ws v name cb st :
  publishViewInfo (this (final (getPageDoc_fetcher ws v name cb st)))
  = publishViewInfo (this st)
  ∧ publishViewLoaded (this (final (getPageDoc_fetcher ws v name cb st)))
    = publishViewLoaded (this st)
  ∧ viewLoaded (this (final (getPageDoc_fetcher ws v name cb st)))
    ⊆ viewLoaded (this st).
Proof.
  rewrite getPageDoc_fetcher_run.
  destruct (fetchPageCollab _ _ _) as [[page|e] w]; [done|].
  destruct cb as [f|].
  - destruct (f e w) as [[[]|e1] w1]; [|done]. simpl.
    split; [done|]. split; [done|]. apply subseteq_difference_l. reflexivity.
  - simpl. split; [done|]. split; [done|]. apply subseteq_difference_l.
    reflexivity.
Qed.

Lemma run_cache_getPageDoc_fields {D} ws v name cb (p : CacheGet W PageCollab D) st :
  publishViewInfo (this (final (run_cache p (getPageDoc_fetcher ws v name cb) st)))
  = publishViewInfo (this st)
  ∧ publishViewLoaded
      (this (final (run_cache p (getPageDoc_fetcher ws v name cb) st)))
    = publishViewLoaded (this st)
  ∧ viewLoaded (this (final (run_cache p (getPageDoc_fetcher ws v name cb) st)))
    ⊆ viewLoaded (this st).
Proof.
  apply (run_cache_rel (getPageDoc_fetcher ws v name cb)
    (λ st st' _,
       publishViewInfo (this st') = publishViewInfo (this st)
       ∧ publishViewLoaded (this st') = publishViewLoaded (this st)
       ∧ viewLoaded (this st') ⊆ viewLoaded (this st))).
  - intros st0 st1 st2 _ _ (Hi1 & Hp1 & Hv1) (Hi2 & Hp2 & Hv2).
    split; [by rewrite Hi2|]. split; [by rewrite Hp2|]. by etrans.
  - done.
  - intros st0. apply getPageDoc_fetcher_detached.
  - intros st0. apply getPageDoc_fetcher_fields.
Qed.

(** The fields after [getPageDoc]. *)
Lemma getPageDoc_fields ws v cb st :
  publishViewInfo (this (final (getPageDoc ws v cb st)))
  = publishViewInfo (this st)
  ∧ publishViewLoaded (this (final (getPageDoc ws v cb st)))
    = publishViewLoaded (this st)
  ∧ ∀ k,
      k ∈ viewLoaded (this (final (getPageDoc ws v cb st))) →
      k ∈ viewLoaded (this st)
      ∨ ∃ userId doc,
          token_user_id (getTokenParsed (world st)) = Some userId
          ∧ k = pageDoc_name userId ws v
          ∧ settled (getPageDoc ws v cb st) = Resolved doc.
Proof.
  destruct (token_user_id (getTokenParsed (world st))) as [userId|] eqn:Hid.
  - destruct (truthy userId) eqn:Hty.
    + rewrite (getPageDoc_run ws v cb userId st Hid Hty). simpl.
      pose proof (run_cache_getPageDoc_fields ws v (pageDoc_name userId ws v) cb
        (cache_getPageDoc (pageDoc_name userId ws v)
           (strategy_for (pageDoc_name userId ws v) (viewLoaded (this st)))
           (world st)) st) as (Hi & Hp & Hv).
      destruct (run_cache _ _ _) as [[[doc|e] st1] c1];
        unfold final, settled in *; simpl in *.
      * case_bool_decide; simpl.
        -- split; [done|]. split; [done|]. intros k Hk. left. by apply Hv.
        -- split; [done|]. split; [done|]. intros k Hk.
           apply elem_of_union in Hk as [Hk|Hk].
           ++ apply elem_of_singleton in Hk as ->. right. by exists userId, doc.
           ++ left. by apply Hv.
      * split; [done|]. split; [done|]. intros k Hk. left. by apply Hv.
    + rewrite getPageDoc_signed_out; [|by rewrite Hid].
      split; [done|]. split; [done|]. intros k Hk. by left.
  - rewrite getPageDoc_signed_out; [|by rewrite Hid].
    split; [done|]. split; [done|]. intros k Hk. by left.
Qed.

(** The detached tasks: only [publishViewLoaded] can change, and only
    shrink. *)
Lemma run_task_fields t st :
  publishViewInfo (this (final (run_task t st))) = publishViewInfo (this st)
  ∧ publishViewLoaded (this (final (run_task t st)))
    ⊆ publishViewLoaded (this st)
  ∧ viewLoaded (this (final (run_task t st))) = viewLoaded (this st).
Proof.
  destruct t as [name cached]. rewrite run_task_run.
  destruct cached; [|done]. simpl.
  split; [done|]. split; [|done]. apply subseteq_difference_l. reflexivity.
Qed.

Lemma settle_detached_fields st :
  publishViewInfo (this (final (settle_detached st))) = publishViewInfo (this st)
  ∧ publishViewLoaded (this (final (settle_detached st)))
    ⊆ publishViewLoaded (this st)
  ∧ viewLoaded (this (final (settle_detached st))) = viewLoaded (this st).
Proof.
  unfold settle_detached.
  assert (∀ (tasks : list Task) (o : Settled () * St * list Call),
    (publishViewInfo (this (final o)) = publishViewInfo (this st)
     ∧ publishViewLoaded (this (final o)) ⊆ publishViewLoaded (this st)
     ∧ viewLoaded (this (final o)) = viewLoaded (this st)) →
    let o' :=
      fold_left
        (λ o t,
           match run_task t o.1.2 with
           | (_, st1, c1) => (Resolved (), st1, o.2 ++ c1)
           end) tasks o in
    publishViewInfo (this (final o')) = publishViewInfo (this st)
    ∧ publishViewLoaded (this (final o')) ⊆ publishViewLoaded (this st)
    ∧ viewLoaded (this (final o')) = viewLoaded (this st)) as Hfold.
  { induction tasks as [|t tasks IH]; intros o Ho; [done|].
    simpl. apply IH.
    pose proof (run_task_fields t o.1.2) as (Hi & Hp & Hv).
    destruct Ho as (Hi0 & Hp0 & Hv0).
    destruct (run_task t o.1.2) as [[r st1] c1]. unfold final in *. simpl in *.
    split; [by rewrite Hi|]. split; [by etrans|by rewrite Hv]. }
  by apply Hfold.
Qed.

(** Method by method: where a record of the map, or a key of a registry,
    that is there after the call came from. *)
Lemma exec_fields op st :
  (∀ v record,
     publishViewInfo (this (exec op st).1) !! v = Some record →
     publishViewInfo (this st) !! v = Some record
     ∨ (op = GetPublishInfo v
        ∧ settled (getPublishInfo v st) = Resolved record
        ∧ truthy (namespace record) = true))
  ∧ (∀ k,
       k ∈ publishViewLoaded (this (exec op st).1) →
       k ∈ publishViewLoaded (this st)
       ∨ ∃ ns pn doc,
           op = GetPublishView ns pn ∧ k = publishView_name ns pn
           ∧ settled (getPublishView ns pn st) = Resolved doc)
  ∧ (∀ k,
       k ∈ viewLoaded (this (exec op st).1) →
       k ∈ viewLoaded (this st)
       ∨ ∃ ws v cb userId doc,
           op = GetPageDoc ws v cb
           ∧ token_user_id (getTokenParsed (world st)) = Some userId
           ∧ k = pageDoc_name userId ws v
           ∧ settled (getPageDoc ws v cb st) = Resolved doc).
Proof.
  assert (∀ s' : AFClientService,
    (∀ v record, publishViewInfo s' !! v = Some record →
       publishViewInfo (this st) !! v = Some record) →
    publishViewLoaded s' ⊆ publishViewLoaded (this st) →
    viewLoaded s' ⊆ viewLoaded (this st) →
    (∀ v record,
       publishViewInfo s' !! v = Some record →
       publishViewInfo (this st) !! v = Some record
       ∨ (op = GetPublishInfo v
          ∧ settled (getPublishInfo v st) = Resolved record
          ∧ truthy (namespace record) = true))
    ∧ (∀ k,
         k ∈ publishViewLoaded s' →
         k ∈ publishViewLoaded (this st)
         ∨ ∃ ns pn doc,
             op = GetPublishView ns pn ∧ k = publishView_name ns pn
             ∧ settled (getPublishView ns pn st) = Resolved doc)
    ∧ (∀ k,
         k ∈ viewLoaded s' →
         k ∈ viewLoaded (this st)
         ∨ ∃ ws v cb userId doc,
             op = GetPageDoc ws v cb
             ∧ token_user_id (getTokenParsed (world st)) = Some userId
             ∧ k = pageDoc_name userId ws v
             ∧ settled (getPageDoc ws v cb st) = Resolved doc)) as Hshrink.
  { intros s' Hi Hp Hv. split; [|split]; intros; left; auto. }
  assert (∀ T (m : Async T), (forget m st).1 = final (m st)) as Hforget by done.
  destruct op as [ws v p|ws v|ws payload|ws v|ws|ns pn|ns pn|v|v|ws config| |
    |ws v cb|doc context|]; unfold exec; rewrite Hforget.
  - apply Hshrink; rewrite publishView_run, call_this; simpl; [|done..].
    intros v' record Hv. by apply lookup_delete_Some in Hv as [_ Hv].
  - apply Hshrink; rewrite unpublishView_run, call_this; simpl; [|done..].
    intros v' record Hv. by apply lookup_delete_Some in Hv as [_ Hv].
  - apply Hshrink; rewrite updatePublishNamespace_run, call_this; simpl;
      [|done..].
    intros v' record Hv. by rewrite lookup_empty in Hv.
  - unfold updatePublishHomepage. rewrite call_this. by apply Hshrink.
  - unfold removePublishHomepage. rewrite call_this. by apply Hshrink.
  - rewrite getPublishViewMeta_this. by apply Hshrink.
  - pose proof (getPublishView_fields ns pn st) as (Hi & Hv & Hp).
    split; [intros v' record; rewrite Hi; by left|].
    split; [|intros k; rewrite Hv; by left].
    intros k Hk. destruct (Hp k Hk) as [Hk'|(doc & -> & Hdoc)]; [by left|right].
    by exists ns, pn, doc.
  - rewrite getPublishRowDocument_run.
    destruct (openCollabDB _ _) as [[doc|e] w]; by apply Hshrink.
  - pose proof (getPublishInfo_registries v st) as [Hp Hv].
    split; [|split; intros k Hk; left; by rewrite <- ?Hp, <- ?Hv].
    intros v' record.
    destruct (publishViewInfo (this st) !! v) as [cached|] eqn:Hc.
    + rewrite (getPublishInfo_hit v cached st Hc). by left.
    + rewrite (getPublishInfo_miss v st Hc).
      destruct (fetchViewInfo v (world st)) as [[info|e] w] eqn:Hfetch;
        [|by left].
      destruct (info_namespace info) as [ns|] eqn:Hns; simpl; [|by left].
      destruct (truthy ns) eqn:Hty; [|by left]. simpl.
      intros Hv'. apply lookup_insert_Some in Hv' as [[<- <-]|[_ Hv']];
        [right|by left].
      split; [done|]. split; [|done].
      by rewrite (getPublishInfo_miss v st Hc), Hfetch, Hns; simpl;
        rewrite Hty.
  - apply Hshrink; rewrite updatePublishConfig_run, call_this; simpl;
      [|done..].
    intros v' record Hv. by apply lookup_delete_Some in Hv as [_ Hv].
  - rewrite getCurrentUser_this. by apply Hshrink.
  - rewrite getUserWorkspaceInfo_run.
    destruct (api_getUserWorkspaceInfo _) as [[[workspaceInfo|]|e] w];
      by apply Hshrink.
  - pose proof (getPageDoc_fields ws v cb st) as (Hi & Hp & Hv).
    split; [intros v' record; rewrite Hi; by left|].
    split; [intros k; rewrite Hp; by left|].
    intros k Hk. destruct (Hv k Hk) as [Hk'|(userId & doc & Hid & -> & Hdoc)];
      [by left|right].
    by exists ws, v, cb, userId, doc.
  - rewrite registerDocUpdate_this. by apply Hshrink.
  - pose proof (settle_detached_fields st) as (Hi & Hp & Hv).
    apply Hshrink; [by rewrite Hi|done|by rewrite Hv].
Qed.

(** X5: every record in the publish-info map has a non-empty namespace, and
    no sequence of calls of the service breaks that. *)
Theorem cached_records_are_named ops st :
  named_infos (this st) → named_infos (this (exec_all ops st).1).
Proof.
  revert st. induction ops as [|op ops IH]; intros st Hst; [done|].
  simpl. pose proof (exec_fields op st) as [Hop _].
  destruct (exec op st) as [st1 c1]. pose proof (IH st1) as Hops.
  destruct (exec_all ops st1) as [st2 c2]. simpl in *. apply Hops.
  intros v record Hv. destruct (Hop v record Hv) as [Hold|(_ & _ & Hty)]; [|done].
  by apply (Hst v).
Qed.

(** X6: only [getPublishInfo] fills the publish-info map.  A record that is
    in the map after a call was there before it, or the call was
    [getPublishInfo] for that very view and resolved to that record. *)
Theorem publish_info_comes_from_getPublishInfo op st v record :
  publishViewInfo (this (exec op st).1) !! v = Some record →
  publishViewInfo (this st) !! v = Some record
  ∨ (op = GetPublishInfo v ∧ settled (getPublishInfo v st) = Resolved record).
Proof.
  intros Hv. destruct (exec_fields op st) as [Hop _].
  destruct (Hop v record Hv) as [Hold|(-> & Hres & _)]; [by left|by right].
Qed.

(** X7: each registry is filled by its own retrieval only.  A key that is in
    [publishViewLoaded] after a call was there before it, or the call was a
    [getPublishView] with that key that resolved; a key that is in
    [viewLoaded] after a call was there before it, or the call was a
    [getPageDoc] with that key, for the session's user, that resolved. *)
Theorem registries_grow_by_resolved_retrievals op st k :
  (k ∈ publishViewLoaded (this (exec op st).1) →
   k ∈ publishViewLoaded (this st)
   ∨ ∃ ns pn doc,
       op = GetPublishView ns pn ∧ k = publishView_name ns pn
       ∧ settled (getPublishView ns pn st) = Resolved doc)
  ∧ (k ∈ viewLoaded (this (exec op st).1) →
     k ∈ viewLoaded (this st)
     ∨ ∃ ws v cb userId doc,
         op = GetPageDoc ws v cb
         ∧ token_user_id (getTokenParsed (world st)) = Some userId
         ∧ k = pageDoc_name userId ws v
         ∧ settled (getPageDoc ws v cb st) = Resolved doc).
Proof.
  destruct (exec_fields op st) as (_ & Hp & Hv). split; [apply Hp|apply Hv].
Qed.

(** X8: the two registries are independent.  [getPageDoc] never changes
    [publishViewLoaded] and [getPublishView] never changes [viewLoaded], so
    neither changes the strategy the other will ask for, although a page
    key and a published-view key can be the same string. *)
Theorem registries_are_partitioned ns pn ws v cb u name st :
  publishViewLoaded (this (final (getPageDoc ws v cb st)))
  = publishViewLoaded (this st)
  ∧ viewLoaded (this (final (getPublishView ns pn st))) = viewLoaded (this st)
  ∧ strategy_for name (publishViewLoaded (this (final (getPageDoc ws v cb st))))
    = strategy_for name (publishViewLoaded (this st))
  ∧ strategy_for name (viewLoaded (this (final (getPublishView ns pn st))))
    = strategy_for name (viewLoaded (this st))
  ∧ pageDoc_name u ws v = publishView_name u (publishView_name ws v).
Proof.
  destruct (getPageDoc_fields ws v cb st) as (_ & Hp & _).
  destruct (getPublishView_fields ns pn st) as (_ & Hv & _).
  by rewrite Hp, Hv.
Qed.

(** ** Retrievals, one after the other *)


(** X10: [getPublishViewMeta] never earns CACHE_FIRST by itself: after it,
    resolved or not, the next [getPublishViewMeta] and the next
    [getPublishView] for the same view ask for the strategy they would have
    asked for before. *)
Theorem meta_does_not_change_strategy ns pn ns' pn' st :
  asks (calls (getPublishViewMeta ns' pn' (final (getPublishViewMeta ns pn st))))
    (CacheGetPublishViewMeta ns' pn'
       (strategy_for (publishView_name ns' pn') (publishViewLoaded (this st))))
    (strategy_for (publishView_name ns' pn') (publishViewLoaded (this st)))
  ∧ asks (calls (getPublishView ns' pn' (final (getPublishViewMeta ns pn st))))
      (CacheGetPublishView ns' pn'
         (strategy_for (publishView_name ns' pn') (publishViewLoaded (this st))))
      (strategy_for (publishView_name ns' pn') (publishViewLoaded (this st))).
Proof.
  pose proof (getPublishViewMeta_asks ns' pn'
    (final (getPublishViewMeta ns pn st))) as Hm.
  pose proof (getPublishView_asks ns' pn'
    (final (getPublishViewMeta ns pn st))) as Hv.
  by rewrite getPublishViewMeta_this in Hm, Hv.
Qed.

(** ** Failed fetches, end to end *)


Lemma settle_detached_single t st :
  detached st = [t] →
  settle_detached st
  = (Resolved (),
     final (run_task t {| this := this st; world := world st; detached := [] |}),
     calls (run_task t {| this := this st; world := world st; detached := [] |})).
Proof.
  intros Hq. unfold settle_detached. rewrite Hq. cbn [fold_left fst snd].
  by destruct (run_task t _) as [[r st1] c1].
Qed.

(** X12: a failed [getPublishView], followed through.  The cache module
    invokes the closure once and the fetch rejects: the closure logs the
    error and asks [hasViewMetaCache] at once, against the local database
    as the failed fetch left it.  If the cache module then rejects,
    [getPublishView] rejects with the cache module's error after exactly
    four calls, with the service's fields unchanged and the cleanup still
    waiting; when the cleanup resumes afterwards, the key is removed from
    [publishViewLoaded] and [deleteView] is called if there was a record,
    and nothing at all happens if there was none.  If instead the cleanup
    resumes while the cache module is still at work, and the cache module
    rejects after that, [getPublishView] rejects with the key already
    removed and [deleteView] already called if there was a record, and
    with nothing left waiting. *)
Theorem failed_getPublishView_end_to_end ns pn st w k e w1 :
  let name := publishView_name ns pn in
  let strategy := strategy_for name (publishViewLoaded (this st)) in
  let cached := hasViewMetaCache name w1 in
  detached st = [] →
  cache_getPublishView ns pn strategy (world st) = Fetcher w k →
  fetchPublishView ns pn w = (Rejected e, w1) →
  (∀ e2 w2,
     k (Rejected e) w1 = Settle w2 (Rejected e2) →
     getPublishView ns pn st
     = (Rejected e2,
        with_detached (InvalidatePublishView name cached) (with_world w2 st),
        [CacheGetPublishView ns pn strategy; FetchPublishView ns pn;
         ConsoleError e; CacheHasViewMetaCache name])
     ∧ settle_detached (final (getPublishView ns pn st))
       = if cached then
           (Resolved (),
            {| this := without_publishView name (this st);
               world := deleteView name w2;
               detached := [] |},
            [CacheDeleteView name])
         else
           (Resolved (), {| this := this st; world := w2; detached := [] |}, []))
  ∧ (∀ w2 k2 e2 w3,
       k (Rejected e) w1 = Turn w2 k2 →
       k2 (if cached then deleteView name w2 else w2) = Settle w3 (Rejected e2) →
       getPublishView ns pn st
       = (Rejected e2,
          {| this :=
               if cached then without_publishView name (this st) else this st;
             world := w3;
             detached := [] |},
          [CacheGetPublishView ns pn strategy; FetchPublishView ns pn;
           ConsoleError e; CacheHasViewMetaCache name]
          ++ (if cached then [CacheDeleteView name] else []))).
Proof.
  intros name strategy cached. subst name strategy cached.
  intros Hq Hcache Hfetch. split.
  - intros e2 w2 Hk.
    assert (getPublishView ns pn st
      = (Rejected e2,
         with_detached
           (InvalidatePublishView (publishView_name ns pn)
              (hasViewMetaCache (publishView_name ns pn) w1))
           (with_world w2 st),
         [CacheGetPublishView ns pn
            (strategy_for (publishView_name ns pn) (publishViewLoaded (this st)));
          FetchPublishView ns pn; ConsoleError e;
          CacheHasViewMetaCache (publishView_name ns pn)])) as Hrun.
    { rewrite getPublishView_run. cbv zeta. rewrite Hcache.
      unfold run_cache. simpl. rewrite getPublishView_fetcher_run. simpl.
      rewrite Hfetch. simpl. by rewrite Hk. }
    split; [done|]. rewrite Hrun.
    rewrite (settle_detached_single
      (InvalidatePublishView (publishView_name ns pn)
         (hasViewMetaCache (publishView_name ns pn) w1)));
      [|unfold final; simpl; by rewrite Hq].
    rewrite run_task_run. unfold final. simpl.
    by destruct (hasViewMetaCache _ w1).
  - intros w2 k2 e2 w3 Hk Hk2.
    rewrite getPublishView_run. cbv zeta. rewrite Hcache.
    unfold run_cache. simpl. rewrite getPublishView_fetcher_run. simpl.
    rewrite Hfetch. simpl. rewrite Hk, Hq. simpl.
    unfold resume_detached. simpl. unfold_registry. unfold_async. simpl.
    destruct (hasViewMetaCache _ w1); simpl; by rewrite Hk2.
Qed.

(** X13: an [errorCallback] that throws hides the failure and stops the
    cleanup.  When the cache module invokes the closure of [getPageDoc]
    once, the fetch rejects with [e] and the caller's callback throws [e1],
    the cache module is handed [e1], not [e]; the key is not removed from
    [viewLoaded] and [deleteView] is not called. *)
Theorem throwing_errorCallback_skips_cleanup ws v f userId st w k e w1 e1 w2 e2 w3 :
  let name := pageDoc_name userId ws v in
  let strategy := strategy_for name (viewLoaded (this st)) in
  token_user_id (getTokenParsed (world st)) = Some userId →
  truthy userId = true →
  cache_getPageDoc name strategy (world st) = Fetcher w k →
  fetchPageCollab ws v w = (Rejected e, w1) →
  f e w1 = (Rejected e1, w2) →
  k (Rejected e1) w2 = Settle w3 (Rejected e2) →
  getPageDoc ws v (Some f) st
  = (Rejected e2, with_world w3 st,
     [GetTokenParsed; CacheGetPageDoc name strategy; FetchPageCollab ws v;
      ConsoleError e; ErrorCallback e]).
Proof.
  intros name strategy. subst name strategy. intros Hid Hty Hcache Hfetch Hf Hk.
  rewrite (getPageDoc_run ws v (Some f) userId st Hid Hty).
  cbv zeta. rewrite Hcache. unfold run_cache. simpl.
  rewrite getPageDoc_fetcher_run. simpl. rewrite Hfetch, Hf. simpl.
  by rewrite Hk.
Qed.

(** ** The methods that need the session *)

(** X14: [getCurrentUser] has no precondition on the session and no load
    state: signed in or not, it asks the cache module for
    CACHE_AND_NETWORK, with the token's user id if there is one, and it
    leaves the service's fields alone. *)
Theorem getCurrentUser_always_refreshes st :
  asks (calls (getCurrentUser st))
    (CacheGetUser (token_user_id (getTokenParsed (world st))) CACHE_AND_NETWORK)
    CACHE_AND_NETWORK
  ∧ this (final (getCurrentUser st)) = this st.
Proof.
  split; [|apply getCurrentUser_this].
  rewrite getCurrentUser_run. simpl.
  pose proof (run_cache_no_requests (call ApiGetCurrentUser api_getCurrentUser)
    (cache_getUser (token_user_id (getTokenParsed (world st)))
       CACHE_AND_NETWORK (world st)) st) as Hrest.
  destruct (run_cache _ _ _) as [[[[u|]|e] st1] c1];
    unfold calls in *; simpl in *.
  all: apply asks_later; [done|]; apply asks_here; [done|apply Hrest].
  all: intros st0; unfold_async; by destruct (api_getCurrentUser _).
Qed.

Lemma registerDocUpdate_run doc context userId st :
  token_user_id (getTokenParsed (world st)) = Some userId →
  truthy userId = true →
  registerDocUpdate doc context st
  = (Resolved (),
     with_world
       (sync_initialize doc userId (ctx_workspaceId context)
          (ctx_objectId context) (ctx_collabType context) (world st)) st,
     [GetTokenParsed;
      SyncNew userId (ctx_workspaceId context) (ctx_objectId context);
      SyncInitialize userId (ctx_workspaceId context) (ctx_objectId context)]).
Proof.
  intros Hid Hty. unfold registerDocUpdate. unfold_async. simpl.
  by rewrite Hid, Hty.
Qed.

(** X15: [registerDocUpdate] does not guard against registering twice.  For
    a signed-in session whose token the sync channel does not touch,
    calling it a second time for the same document and context constructs
    and starts a second binding, exactly as the first call did. *)
Theorem registerDocUpdate_registers_again doc context userId st :
  token_user_id (getTokenParsed (world st)) = Some userId →
  truthy userId = true →
  (∀ w, getTokenParsed
          (sync_initialize doc userId (ctx_workspaceId context)
             (ctx_objectId context) (ctx_collabType context) w)
        = getTokenParsed w) →
  let once := registerDocUpdate doc context st in
  let twice := registerDocUpdate doc context (final once) in
  settled once = Resolved () ∧ settled twice = Resolved ()
  ∧ calls twice = calls once
  ∧ calls once
    = [GetTokenParsed;
       SyncNew userId (ctx_workspaceId context) (ctx_objectId context);
       SyncInitialize userId (ctx_workspaceId context) (ctx_objectId context)]
  ∧ world (final twice)
    = sync_initialize doc userId (ctx_workspaceId context)
        (ctx_objectId context) (ctx_collabType context)
        (sync_initialize doc userId (ctx_workspaceId context)
           (ctx_objectId context) (ctx_collabType context) (world st))
  ∧ this (final twice) = this st.
Proof.
  intros Hid Hty Htoken once twice. subst once twice.
  rewrite (registerDocUpdate_run doc context userId st Hid Hty).
  unfold final. simpl.
  rewrite (registerDocUpdate_run doc context userId); simpl;
    [done| |done].
  by rewrite Htoken.
Qed.

End Properties.

(** * Properties of the methods that keep no state *)

Section AppProperties.
Context `{A : AppPlatform}.

Ltac unfold_remote :=
  unfold mbind, mret, remote_mbind, remote_mret, remote_bind, remote_ret,
    remote_reject, remote_try, remote_call in *.

(** ** [getAppDatabaseViewRelations] *)

Lemma database_relations_snoc databases database :
  database_relations (databases ++ [database])
  = object_set (database_id database) (head (views database))
      (database_relations databases).
Proof. unfold database_relations. by rewrite fold_left_app. Qed.

Lemma database_relations_lookup databases key :
  key ≠ "__proto__" →
  database_relations databases !! key
  = (λ database, head (views database))
      <$> last (filter (λ database, database_id database = key) databases).
Proof.
  intros Hkey. induction databases as [|database databases IH] using rev_ind.
  - done.
  - rewrite database_relations_snoc, filter_app. unfold object_set.
    destruct (decide (database_id database = key)) as [Heq|Hne].
    + rewrite filter_cons_True by done. rewrite filter_nil, last_snoc. simpl.
      rewrite bool_decide_eq_false_2 by congruence.
      by rewrite Heq, lookup_insert_eq.
    + rewrite filter_cons_False by done. rewrite filter_nil, app_nil_r.
      case_bool_decide; [done|]. by rewrite lookup_insert_ne.
Qed.

Lemma database_relations_dom databases :
  dom (database_relations databases)
  = list_to_set (database_id <$> databases) ∖ {["__proto__"]}.
Proof.
  induction databases as [|database databases IH] using rev_ind.
  - unfold database_relations. simpl. set_solver.
  - rewrite database_relations_snoc, fmap_app, list_to_set_app_L. simpl.
    unfold object_set. case_bool_decide as Hkey.
    + rewrite IH, Hkey. apply set_eq. intros x. set_unfold. tauto.
    + rewrite dom_insert_L, IH. apply set_eq. intros x. set_unfold.
      split; [intros [->|[? ?]]; tauto|tauto].
Qed.

Lemma getAppDatabaseViewRelations_run workspaceId databaseStorageId w :
  getAppDatabaseViewRelations workspaceId databaseStorageId w =
    match api_getCollab workspaceId databaseStorageId w with
    | (Resolved res, w1) =>
        (match data_section_databases res with
         | Resolved databases => Resolved (database_relations databases)
         | Rejected e => Rejected e
         end, w1, [ApiGetCollab workspaceId databaseStorageId])
    | (Rejected e, w1) =>
        (Rejected e, w1, [ApiGetCollab workspaceId databaseStorageId])
    end.
Proof.
  unfold getAppDatabaseViewRelations. unfold_remote.
  destruct (api_getCollab _ _ _) as [[res|e] w1]; [|done].
  by destruct (data_section_databases res).
Qed.

(** X16: in the relations [getAppDatabaseViewRelations] resolves to, a
    database id is mapped to the first view of the last entry of the
    [databases] array with that id ([undefined] if that entry has no
    views), and it is not a property at all if no entry has that id. *)
Theorem database_relations_last_entry_first_view workspaceId databaseStorageId w res w1 databases key :
  api_getCollab workspaceId databaseStorageId w = (Resolved res, w1) →
  data_section_databases res = Resolved databases →
  key ≠ "__proto__" →
  ∃ result,
    getAppDatabaseViewRelations workspaceId databaseStorageId w
    = (Resolved result, w1, [ApiGetCollab workspaceId databaseStorageId])
    ∧ result !! key
      = (λ database, head (views database))
          <$> last (filter (λ database, database_id database = key) databases).
Proof.
  intros Hres Hdata Hkey. exists (database_relations databases).
  rewrite getAppDatabaseViewRelations_run, Hres, Hdata. split; [done|].
  by apply database_relations_lookup.
Qed.

(** X17: the properties of the relations [getAppDatabaseViewRelations]
    resolves to are exactly the database ids of the [databases] array,
    however often an id occurs, ["__proto__"] excepted. *)
Theorem database_relations_keys workspaceId databaseStorageId w res w1 databases :
  api_getCollab workspaceId databaseStorageId w = (Resolved res, w1) →
  data_section_databases res = Resolved databases →
  ∃ result,
    settled_remote (getAppDatabaseViewRelations workspaceId databaseStorageId w)
    = Resolved result
    ∧ dom result = list_to_set (database_id <$> databases) ∖ {["__proto__"]}.
Proof.
  intros Hres Hdata. exists (database_relations databases).
  rewrite getAppDatabaseViewRelations_run, Hres, Hdata. split; [done|].
  apply database_relations_dom.
Qed.

(** ** [loginAuth] *)

Lemma loginAuth_run url w :
  loginAuth url w =
    let invalid (e : JsError) (w0 : W) (c : list AppCall) :=
      match emit SESSION_INVALID w0 with
      | (Resolved _, w1) => (Rejected e, w1, c ++ [Emit SESSION_INVALID])
      | (Rejected e1, w1) => (Rejected e1, w1, c ++ [Emit SESSION_INVALID])
      end in
    match api_signInWithUrl url w with
    | (Rejected e, w1) => invalid e w1 [ApiSignInWithUrl url]
    | (Resolved _, w1) =>
        match emit SESSION_VALID w1 with
        | (Rejected e, w2) =>
            invalid e w2 [ApiSignInWithUrl url; Emit SESSION_VALID]
        | (Resolved _, w2) =>
            match afterAuth w2 with
            | (Rejected e, w3) =>
                invalid e w3
                  [ApiSignInWithUrl url; Emit SESSION_VALID; AfterAuth]
            | (Resolved _, w3) =>
                (Resolved (), w3,
                 [ApiSignInWithUrl url; Emit SESSION_VALID; AfterAuth])
            end
        end
    end.
Proof.
  unfold loginAuth. unfold_remote. simpl.
  destruct (api_signInWithUrl url w) as [[[]|e] w1]; simpl.
  - destruct (emit SESSION_VALID w1) as [[[]|e] w2]; simpl.
    + destruct (afterAuth w2) as [[[]|e] w3]; simpl; [done|].
      by destruct (emit SESSION_INVALID w3) as [[[]|e1] w4].
    + by destruct (emit SESSION_INVALID w2) as [[[]|e1] w3].
  - by destruct (emit SESSION_INVALID w1) as [[[]|e1] w2].
Qed.

(** X18: [loginAuth] emits SESSION_INVALID exactly when it does not
    resolve; and when it resolves it has signed in, emitted SESSION_VALID
    and called [afterAuth], in that order and nothing else. *)
Theorem loginAuth_invalid_iff_rejected url w :
  (Emit SESSION_INVALID ∈ calls_remote (loginAuth url w)
   ↔ settled_remote (loginAuth url w) ≠ Resolved ())
  ∧ (settled_remote (loginAuth url w) = Resolved () →
     calls_remote (loginAuth url w)
     = [ApiSignInWithUrl url; Emit SESSION_VALID; AfterAuth]).
Proof.
  rewrite loginAuth_run. cbv beta zeta.
  destruct (api_signInWithUrl url w) as [[[]|e] w1].
  - destruct (emit SESSION_VALID w1) as [[[]|e] w2].
    + destruct (afterAuth w2) as [[[]|e] w3].
      * unfold calls_remote, settled_remote. simpl. split; [|done].
        split; [|done]. intros Hin.
        repeat (apply elem_of_cons in Hin as [Hin|Hin]; [done|]).
        by apply elem_of_nil in Hin.
      * destruct (emit SESSION_INVALID w3) as [[[]|e1] w4];
          unfold calls_remote, settled_remote; simpl;
          (split; [|done]); (split; [done|]); intros _;
          do 3 apply list_elem_of_further; apply list_elem_of_here.
    + destruct (emit SESSION_INVALID w2) as [[[]|e1] w3];
        unfold calls_remote, settled_remote; simpl;
        (split; [|done]); (split; [done|]); intros _;
        do 2 apply list_elem_of_further; apply list_elem_of_here.
  - destruct (emit SESSION_INVALID w1) as [[[]|e1] w2];
      unfold calls_remote, settled_remote; simpl;
      (split; [|done]); (split; [done|]); intros _;
      apply list_elem_of_further, list_elem_of_here.
Qed.

(** X19: when the sign-in itself rejects, SESSION_VALID is never emitted and
    [afterAuth] is never called; SESSION_INVALID is emitted, and if that
    returns the rejection is the sign-in's own. *)
Theorem loginAuth_failed_sign_in url w e w1 :
  api_signInWithUrl url w = (Rejected e, w1) →
  calls_remote (loginAuth url w) = [ApiSignInWithUrl url; Emit SESSION_INVALID]
  ∧ (∀ w2, emit SESSION_INVALID w1 = (Resolved (), w2) →
           loginAuth url w
           = (Rejected e, w2, [ApiSignInWithUrl url; Emit SESSION_INVALID])).
Proof.
  intros Hsign. rewrite loginAuth_run, Hsign. cbv beta zeta. split.
  - by destruct (emit SESSION_INVALID w1) as [[[]|e1] w2].
  - by intros w2 ->.
Qed.

(** X20: the [try] block of [loginAuth] also covers what follows the
    sign-in.  When the sign-in has succeeded and SESSION_VALID has been
    emitted but [afterAuth] throws, SESSION_INVALID is emitted as well and
    [loginAuth] rejects with what [afterAuth] threw. *)
Theorem loginAuth_afterAuth_throws url w w1 w2 e w3 w4 :
  api_signInWithUrl url w = (Resolved (), w1) →
  emit SESSION_VALID w1 = (Resolved (), w2) →
  afterAuth w2 = (Rejected e, w3) →
  emit SESSION_INVALID w3 = (Resolved (), w4) →
  loginAuth url w
  = (Rejected e, w4,
     [ApiSignInWithUrl url; Emit SESSION_VALID; AfterAuth;
      Emit SESSION_INVALID]).
Proof.
  intros Hsign Hvalid Hafter Hinvalid.
  rewrite loginAuth_run, Hsign, Hvalid, Hafter. cbv beta zeta.
  by rewrite Hinvalid.
Qed.

(** ** [importFile] *)

Lemma importFile_run file onProgress w :
  importFile file onProgress w =
    match api_createImportTask file w with
    | (Resolved task, w1) =>
        match api_uploadImportFile (presignedUrl task) file onProgress w1 with
        | (r, w2) =>
            (r, w2, [ApiCreateImportTask; ApiUploadImportFile (presignedUrl task)])
        end
    | (Rejected e, w1) => (Rejected e, w1, [ApiCreateImportTask])
    end.
Proof.
  unfold importFile. unfold_remote.
  destruct (api_createImportTask file w) as [[task|e] w1]; [|done].
  by destruct (api_uploadImportFile _ _ _ _) as [r w2].
Qed.

(** X21: [importFile] uploads only to the presigned URL of the task it has
    just created: an upload to [url] is among its calls exactly when
    [createImportTask] resolved to a task whose presigned URL is [url]; and
    when [createImportTask] rejects, [importFile] rejects with the same
    error. *)
Theorem importFile_uploads_to_its_task file onProgress w url :
  (ApiUploadImportFile url ∈ calls_remote (importFile file onProgress w)
   ↔ ∃ task w1,
       api_createImportTask file w = (Resolved task, w1)
       ∧ url = presignedUrl task)
  ∧ (∀ e w1,
       api_createImportTask file w = (Rejected e, w1) →
       importFile file onProgress w = (Rejected e, w1, [ApiCreateImportTask])).
Proof.
  rewrite importFile_run.
  destruct (api_createImportTask file w) as [[task|e] w1].
  - destruct (api_uploadImportFile _ _ _ _) as [r w2].
    unfold calls_remote. simpl. split; [|done]. split.
    + intros Hin. apply elem_of_cons in Hin as [Hin|Hin]; [done|].
      apply elem_of_cons in Hin as [[= ->]|Hin]; [by exists task, w1|].
      by apply elem_of_nil in Hin.
    + intros (task' & w' & [= <- <-] & ->).
      apply list_elem_of_further, list_elem_of_here.
  - unfold calls_remote. simpl. split; [|by intros e' w' [= <- <-]]. split.
    + intros Hin. apply elem_of_cons in Hin as [Hin|Hin]; [done|].
      by apply elem_of_nil in Hin.
    + by intros (task' & w' & Heq & _).
Qed.

End AppProperties.

(** * Runs on the concrete platform *)

Section Runs.
#[local] Existing Instance Demo.platform.

Ltac decide_it := apply (bool_decide_unpack _); vm_compute; exact I.
Ltac run_it := vm_compute; reflexivity.

(** C1 on a fresh service, on one that has loaded the view before, and on
    one that has loaded the page before. *)
Lemma strategy_follows_registry_witness :
  asks (calls (getPublishViewMeta "ns1" "note" (Demo.start (Demo.signed_in true))))
    (CacheGetPublishViewMeta "ns1" "note" CACHE_AND_NETWORK) CACHE_AND_NETWORK
  ∧ asks (calls (getPublishView "ns1" "note" (Demo.loaded_note (Demo.signed_in true))))
      (CacheGetPublishView "ns1" "note" CACHE_FIRST) CACHE_FIRST
  ∧ asks (calls (getPageDoc "w1" "v1" None (Demo.start (Demo.signed_in true))))
      (CacheGetPageDoc "u1_w1_v1" CACHE_AND_NETWORK) CACHE_AND_NETWORK
  ∧ asks (calls (getPageDoc "w1" "v1" None (Demo.loaded_page (Demo.signed_in true))))
      (CacheGetPageDoc "u1_w1_v1" CACHE_FIRST) CACHE_FIRST.
Proof.
  pose proof (strategy_follows_registry "ns1" "note" "w1" "v1" None
    (Demo.start (Demo.signed_in true))) as Hfresh.
  pose proof (strategy_follows_registry "ns1" "note" "w1" "v1" None
    (Demo.loaded_note (Demo.signed_in true))) as Hnote.
  pose proof (strategy_follows_registry "ns1" "note" "w1" "v1" None
    (Demo.loaded_page (Demo.signed_in true))) as Hpage.
  cbv zeta in Hfresh, Hnote, Hpage.
  destruct Hfresh as (Hfresh1 & _ & Hfresh3).
  destruct Hnote as (_ & Hnote2 & _).
  destruct Hpage as (_ & _ & Hpage3).
  split; [|split; [|split]].
  - apply Hfresh1. decide_it.
  - apply Hnote2. decide_it.
  - apply (Hfresh3 "u1"); [reflexivity|reflexivity|decide_it].
  - apply (Hpage3 "u1"); [reflexivity|reflexivity|decide_it].
Defined.

(** C2 (amended) on a first load of a published view and of a page, and a
    registered key through a sequence of calls that ends with a failing
    [getPageDoc] for another page. *)
Lemma registry_after_retrieval_witness :
  ("ns1_note"
   ∈ publishViewLoaded
       (this (final (getPublishView "ns1" "note" (Demo.start (Demo.signed_in true)))))
   ∨ ("ns1_note" ∈ publishViewLoaded (this (Demo.start (Demo.signed_in true)))
      ∧ CacheDeleteView "ns1_note"
        ∈ calls (getPublishView "ns1" "note" (Demo.start (Demo.signed_in true)))))
  ∧ ("u1_w1_v1"
     ∈ viewLoaded
         (this (final (getPageDoc "w1" "v1" None (Demo.start (Demo.signed_in true)))))
     ∨ ("u1_w1_v1" ∈ viewLoaded (this (Demo.start (Demo.signed_in true)))
        ∧ CacheDeleteView "u1_w1_v1"
          ∈ calls (getPageDoc "w1" "v1" None (Demo.start (Demo.signed_in true)))))
  ∧ keeps "u1_w1_v1" (Demo.loaded_page (Demo.signed_in false))
      (exec_all Demo.later_calls (Demo.loaded_page (Demo.signed_in false))).1
      (exec_all Demo.later_calls (Demo.loaded_page (Demo.signed_in false))).2.
Proof.
  pose proof (registry_after_retrieval "ns1" "note" "w1" "v1" None "ns1_note"
    [] (Demo.start (Demo.signed_in true))) as (Hview & Hpage & _ & _).
  pose proof (registry_after_retrieval "ns1" "note" "w1" "v1" None "u1_w1_v1"
    Demo.later_calls (Demo.loaded_page (Demo.signed_in false)))
    as (_ & _ & _ & Hkeeps).
  split; [|split].
  - apply (Hview "view ns1_note"). run_it.
  - apply (Hpage "page v1" "u1"); [reflexivity|reflexivity|run_it].
  - exact Hkeeps.
Defined.

(** C2 as stated fails: [getPublishViewMeta] resolves and its key is not
    in the registry afterwards. *)
Lemma getPublishViewMeta_does_not_register :
  settled (getPublishViewMeta "ns1" "note" (Demo.start (Demo.signed_in true)))
  = Resolved "meta of ns1_note"
  ∧ "ns1_note"
    ∉ publishViewLoaded
        (this (final (getPublishViewMeta "ns1" "note"
                        (Demo.start (Demo.signed_in true))))).
Proof. split; [run_it|decide_it]. Qed.

(** C3 (amended) on a failing network: the closure of [getPublishView] with
    and without a view-meta record in the local database, the detached
    function resumed with either answer, the closure of [getPageDoc] without
    and with a callback that returns, and the method's rejection. *)
Lemma failed_fetch_invalidation_witness :
  (settled (getPublishView_fetcher "ns1" "note"
              (Demo.loaded_note (Demo.signed_in false)))
   = Rejected (Failure 503)
   ∧ detached (final (getPublishView_fetcher "ns1" "note"
                        (Demo.loaded_note (Demo.signed_in false))))
     = [InvalidatePublishView "ns1_note" false]
   ∧ this (final (getPublishView_fetcher "ns1" "note"
                        (Demo.loaded_note (Demo.signed_in false))))
     = this (Demo.loaded_note (Demo.signed_in false))
   ∧ calls (getPublishView_fetcher "ns1" "note"
              (Demo.loaded_note (Demo.signed_in false)))
     = [FetchPublishView "ns1" "note"; ConsoleError (Failure 503);
        CacheHasViewMetaCache "ns1_note"])
  ∧ detached (final (getPublishView_fetcher "ns1" "note"
                       (Demo.loaded_note
                          (Demo.store_meta "ns1_note" "m" (Demo.signed_in false)))))
    = [InvalidatePublishView "ns1_note" true]
  ∧ (("ns1_note"
      ∉ publishViewLoaded
          (this (final (run_task (InvalidatePublishView "ns1_note" true)
                          (Demo.loaded_note
                             (Demo.store_meta "ns1_note" "m"
                                (Demo.signed_in false)))))))
     ∧ calls (run_task (InvalidatePublishView "ns1_note" true)
                (Demo.loaded_note
                   (Demo.store_meta "ns1_note" "m" (Demo.signed_in false))))
       = [CacheDeleteView "ns1_note"])
  ∧ run_task (InvalidatePublishView "ns1_note" false)
      (Demo.loaded_note (Demo.signed_in false))
    = (Resolved (), Demo.loaded_note (Demo.signed_in false), [])
  ∧ (("u1_w1_v1"
      ∉ viewLoaded
          (this (final (getPageDoc_fetcher "w1" "v1" "u1_w1_v1" None
                          (Demo.loaded_page (Demo.signed_in false))))))
     ∧ calls (getPageDoc_fetcher "w1" "v1" "u1_w1_v1" None
                (Demo.loaded_page (Demo.signed_in false)))
       = [FetchPageCollab "w1" "v1"; ConsoleError (Failure 503);
          CacheDeleteView "u1_w1_v1"])
  ∧ calls (getPageDoc_fetcher "w1" "v1" "u1_w1_v1" (Some Demo.quiet_callback)
             (Demo.loaded_page (Demo.signed_in false)))
    = [FetchPageCollab "w1" "v1"; ConsoleError (Failure 503);
       ErrorCallback (Failure 503); CacheDeleteView "u1_w1_v1"]
  ∧ settled (getPublishView "ns1" "note" (Demo.loaded_note (Demo.signed_in false)))
    = Rejected (Failure 503)
  ∧ settled (getPageDoc "w1" "v1" None (Demo.loaded_page (Demo.signed_in false)))
    = Rejected (Failure 503).
Proof.
  pose proof (failed_fetch_invalidation "ns1" "note" "w1" "v1" "ns1_note" None
    (Demo.loaded_note (Demo.signed_in false)))
    as (Hclosure & _ & Hwithout & _ & Hmethod & _).
  pose proof (failed_fetch_invalidation "ns1" "note" "w1" "v1" "ns1_note" None
    (Demo.loaded_note (Demo.store_meta "ns1_note" "m" (Demo.signed_in false))))
    as (Hclosure_with & Hwith & _).
  pose proof (failed_fetch_invalidation "ns1" "note" "w1" "v1" "u1_w1_v1" None
    (Demo.loaded_page (Demo.signed_in false)))
    as (_ & _ & _ & Hpage & _ & Hmethod_page).
  pose proof (failed_fetch_invalidation "ns1" "note" "w1" "v1" "u1_w1_v1"
    (Some Demo.quiet_callback)
    (Demo.loaded_page (Demo.signed_in false))) as (_ & _ & _ & Hpage_cb & _).
  split; [|split; [|split; [|split; [|split; [|split; [|split]]]]]].
  - rewrite (Hclosure (Failure 503) (Demo.signed_in false)) by reflexivity.
    split; [reflexivity|]. split; [reflexivity|]. split; reflexivity.
  - rewrite (Hclosure_with (Failure 503)
      (Demo.store_meta "ns1_note" "m" (Demo.signed_in false))) by reflexivity.
    reflexivity.
  - rewrite Hwith. split; [decide_it|reflexivity].
  - exact Hwithout.
  - destruct (Hpage (Failure 503) (Demo.signed_in false) eq_refl) as [Hnone _].
    rewrite Hnone by reflexivity. split; [decide_it|reflexivity].
  - destruct (Hpage_cb (Failure 503) (Demo.signed_in false) eq_refl) as [_ Hsome].
    rewrite (Hsome Demo.quiet_callback (Demo.signed_in false)) by reflexivity.
    reflexivity.
  - apply Hmethod. run_it.
  - apply (Hmethod_page (Failure 503) "u1"); [reflexivity|reflexivity|run_it].
Defined.

(** C3 as stated fails: with no record for the key anywhere in the local
    database, a failed fetch of [getPageDoc] still removes the key from
    [viewLoaded] and still calls [deleteView]. *)
Lemma getPageDoc_purges_without_record :
  hasViewMetaCache "u1_w1_v1" (world (Demo.loaded_page (Demo.signed_in false)))
  = false
  ∧ (Demo.stored (world (Demo.loaded_page (Demo.signed_in false))))
      !! "u1_w1_v1" = None
  ∧ "u1_w1_v1" ∈ viewLoaded (this (Demo.loaded_page (Demo.signed_in false)))
  ∧ settled (getPageDoc "w1" "v1" None (Demo.loaded_page (Demo.signed_in false)))
    = Rejected (Failure 503)
  ∧ ("u1_w1_v1"
     ∉ viewLoaded
         (this (final (getPageDoc "w1" "v1" None
                         (Demo.loaded_page (Demo.signed_in false))))))
  ∧ calls (getPageDoc "w1" "v1" None (Demo.loaded_page (Demo.signed_in false)))
    = [GetTokenParsed; CacheGetPageDoc "u1_w1_v1" CACHE_FIRST;
       FetchPageCollab "w1" "v1"; ConsoleError (Failure 503);
       CacheDeleteView "u1_w1_v1"].
Proof.
  split; [run_it|]. split; [run_it|]. split; [decide_it|].
  split; [run_it|]. split; [decide_it|run_it].
Qed.



(** C5 on a hit, on a response without a namespace, and on a response with
    one. *)
Lemma getPublishInfo_read_path_witness :
  getPublishInfo "view42" (Demo.cached_view42 (Demo.signed_in true))
  = (Resolved Demo.old_record, Demo.cached_view42 (Demo.signed_in true), [])
  ∧ calls (getPublishInfo "draft" (Demo.start (Demo.signed_in true)))
    = [FetchViewInfo "draft"]
  ∧ getPublishInfo "draft" (Demo.start (Demo.signed_in true))
    = (Rejected (Error "View not found"), Demo.start (Demo.signed_in true),
       [FetchViewInfo "draft"])
  ∧ settled (getPublishInfo "view42" (Demo.start (Demo.signed_in true)))
    = Resolved (shape Demo.view42_info "ns1")
  ∧ publishViewInfo
      (this (final (getPublishInfo "view42" (Demo.start (Demo.signed_in true)))))
      !! "view42" = Some (shape Demo.view42_info "ns1").
Proof.
  pose proof (getPublishInfo_read_path "view42"
    (Demo.cached_view42 (Demo.signed_in true))) as [Hhit _].
  pose proof (getPublishInfo_read_path "draft"
    (Demo.start (Demo.signed_in true))) as [_ Hdraft].
  pose proof (getPublishInfo_read_path "view42"
    (Demo.start (Demo.signed_in true))) as [_ Hmiss].
  destruct (Hdraft eq_refl) as [Hcalls Hdraft'].
  destruct (Hdraft' Demo.draft_info (Demo.signed_in true) eq_refl) as [Hnone _].
  destruct (Hmiss eq_refl) as [_ Hmiss'].
  destruct (Hmiss' Demo.view42_info (Demo.signed_in true) eq_refl) as [_ Hsome].
  destruct (Hsome "ns1" eq_refl eq_refl) as [Hrun Hstored].
  split; [apply Hhit; run_it|]. split; [exact Hcalls|].
  split; [rewrite Hnone; [run_it|reflexivity]|].
  split; [rewrite Hrun; reflexivity|exact Hstored].
Defined.

(** C6 on a view that is not published, a session without a profile, a
    document that was never stored, and a missing workspace info; and on a
    server that does not answer and a database that does not open. *)
Lemma empty_entity_is_not_found_witness :
  settled (getPublishViewMeta "ns1" "other" (Demo.start (Demo.signed_in true)))
  = Rejected (Error "View has not been published yet")
  ∧ settled (getPublishViewMeta "ns1" "other" (Demo.start (Demo.signed_in false)))
    = Rejected (Failure 503)
  ∧ settled (getCurrentUser (Demo.start (Demo.signed_in true)))
    = Rejected (Error "User not found")
  ∧ settled (getCurrentUser (Demo.start (Demo.signed_in false)))
    = Rejected (Failure 503)
  ∧ settled (getPublishRowDocument "v1" (Demo.start (Demo.signed_in true)))
    = Rejected (Error "Document not found")
  ∧ settled (getPublishRowDocument "v1"
               (Demo.start (Demo.db_closed (Demo.signed_in true))))
    = Rejected (Failure 11)
  ∧ settled (getUserWorkspaceInfo (Demo.start (Demo.signed_in true)))
    = Rejected (Error "Workspace info not found").
Proof.
  pose proof (empty_entity_is_not_found "ns1" "other" "v1"
    (Demo.start (Demo.signed_in true))) as Hon.
  pose proof (empty_entity_is_not_found "ns1" "other" "v1"
    (Demo.start (Demo.signed_in false))) as Hoff.
  pose proof (empty_entity_is_not_found "ns1" "other" "v1"
    (Demo.start (Demo.db_closed (Demo.signed_in true)))) as Hdb.
  cbv zeta in Hon, Hoff, Hdb.
  destruct Hon as (Hmeta & _ & Huser & _ & Hdoc & _ & Hinfo).
  destruct Hoff as (_ & Hmeta_e & _ & Huser_e & _).
  destruct Hdb as (_ & _ & _ & _ & _ & Hdoc_e & _).
  split; [apply Hmeta; run_it|].
  split; [apply Hmeta_e; run_it|].
  split; [apply Huser; run_it|].
  split; [apply Huser_e; run_it|].
  split; [apply (Hdoc "" (Demo.signed_in true)); reflexivity|].
  split;
    [apply (Hdoc_e (Failure 11) (Demo.db_closed (Demo.signed_in true)));
     reflexivity|].
  apply (Hinfo (Demo.signed_in true)). reflexivity.
Defined.

(** C7 on a service whose map has no entry for the view. *)
Lemma publishViewInfo_invalidation_idempotent_witness :
  this (final (publishView "w1" "view42" None (Demo.start (Demo.signed_in true))))
  = this (Demo.start (Demo.signed_in true))
  ∧ settled (publishView "w1" "view42" None (Demo.start (Demo.signed_in true)))
    = Resolved ()
  ∧ this (final (updatePublishConfig "w1" Demo.view42_config
                   (Demo.start (Demo.signed_in true))))
    = this (Demo.start (Demo.signed_in true)).
Proof.
  pose proof (publishViewInfo_invalidation_idempotent "w1" "view42" None
    Demo.view42_config (Demo.start (Demo.signed_in true)))
    as (_ & _ & _ & Habsent & Hconfig).
  destruct (Habsent eq_refl) as (Hthis & _ & Hsettled & _).
  destruct (Hconfig eq_refl) as (Hthis' & _).
  split; [exact Hthis|]. split; [rewrite Hsettled; reflexivity|exact Hthis'].
Defined.

(** C8 on a session without a token and on a token with an empty user
    id. *)
Lemma identity_precondition_witness :
  (getPageDoc "w1" "v1" None (Demo.start (Demo.signed_out true))
   = (Rejected (Error "User not found"), Demo.start (Demo.signed_out true),
      [GetTokenParsed])
   ∧ registerDocUpdate "doc" Demo.v1_context (Demo.start (Demo.signed_out true))
     = (Rejected (Error "User not found"), Demo.start (Demo.signed_out true),
        [GetTokenParsed]))
  ∧ (getPageDoc "w1" "v1" None (Demo.start (Demo.session "" true))
     = (Rejected (Error "User not found"), Demo.start (Demo.session "" true),
        [GetTokenParsed])
     ∧ registerDocUpdate "doc" Demo.v1_context (Demo.start (Demo.session "" true))
       = (Rejected (Error "User not found"), Demo.start (Demo.session "" true),
          [GetTokenParsed])).
Proof.
  split.
  - apply (identity_precondition (P := Demo.platform) "w1" "v1" None "doc"
      Demo.v1_context
      (Demo.start (Demo.signed_out true))). reflexivity.
  - apply (identity_precondition (P := Demo.platform) "w1" "v1" None "doc"
      Demo.v1_context
      (Demo.start (Demo.session "" true))). reflexivity.
Defined.

(** C9 (amended) on keys whose leading parts have no underscore. *)
Lemma entity_keys_deterministic_and_separated_witness :
  publishView_name "ns1" "my_note" = publishView_name "ns1" "my_note"
  ∧ (publishView_name "ns1" "my_note" = publishView_name "ns1" "my_note" →
     ("ns1", "my_note") = ("ns1", "my_note"))
  ∧ (pageDoc_name "u1" "w1" "v_1" = pageDoc_name "u1" "w1" "v_1" →
     ("u1", "w1", "v_1") = ("u1", "w1", "v_1")).
Proof.
  pose proof entity_keys_deterministic_and_separated as (Hdet & _ & Hpub & Hpage).
  split; [apply Hdet; reflexivity|]. split.
  - apply Hpub; reflexivity.
  - apply Hpage; reflexivity.
Defined.

(** C9 as stated fails: two different (namespace, publish name) pairs with
    the same key, and two different (user, workspace, view) triples with the
    same key. *)
Lemma distinct_parameters_same_key :
  ("a_b", "c") ≠ ("a", "b_c")
  ∧ publishView_name "a_b" "c" = publishView_name "a" "b_c"
  ∧ ("u", "w_x", "v") ≠ ("u", "w", "x_v")
  ∧ pageDoc_name "u" "w_x" "v" = pageDoc_name "u" "w" "x_v".
Proof. repeat split; done. Qed.

(** C10 on a server that does not answer. *)
Lemma invalidation_survives_rejection_witness :
  publishViewInfo
    (this (final (publishView "w1" "view42" None
                    (Demo.cached_view42 (Demo.signed_in false)))))
    !! "view42" = None
  ∧ publishViewInfo
      (this (final (unpublishView "w1" "view42"
                      (Demo.cached_view42 (Demo.signed_in false)))))
      !! "view42" = None
  ∧ publishViewInfo
      (this (final (updatePublishConfig "w1" Demo.view42_config
                      (Demo.cached_view42 (Demo.signed_in false)))))
      !! "view42" = None.
Proof.
  pose proof (invalidation_survives_rejection "w1" "view42" None
    Demo.view42_config (Demo.cached_view42 (Demo.signed_in false)) (Failure 503))
    as (Hpublish & Hunpublish & Hconfig).
  split; [apply Hpublish; run_it|].
  split; [apply Hunpublish; run_it|apply Hconfig; run_it].
Defined.

End Runs.

(** * More runs on the concrete platform *)

Section MoreRuns.
#[local] Existing Instance Demo.platform.

Ltac decide_it := apply (bool_decide_unpack _); vm_compute; exact I.
Ltac run_it := vm_compute; reflexivity.

(** X1 on a first request for the publish info of ["view42"]. *)
Lemma getPublishInfo_twice_witness :
  getPublishInfo "view42"
    (final (getPublishInfo "view42" (Demo.start (Demo.signed_in true))))
  = (Resolved (shape Demo.view42_info "ns1"),
     final (getPublishInfo "view42" (Demo.start (Demo.signed_in true))), []).
Proof.
  apply (getPublishInfo_twice "view42" (Demo.start (Demo.signed_in true))).
  run_it.
Defined.

(** X2 on a view the server has no namespace for. *)
Lemma getPublishInfo_rejection_not_cached_witness :
  this (final (getPublishInfo "draft" (Demo.start (Demo.signed_in true))))
  = this (Demo.start (Demo.signed_in true))
  ∧ publishViewInfo (this (Demo.start (Demo.signed_in true))) !! "draft" = None
  ∧ calls (getPublishInfo "draft"
             (final (getPublishInfo "draft" (Demo.start (Demo.signed_in true)))))
    = [FetchViewInfo "draft"].
Proof.
  apply (getPublishInfo_rejection_not_cached "draft"
    (Demo.start (Demo.signed_in true)) (Error "View not found")).
  run_it.
Defined.

(** X3 on a service that has cached ["view42"], asked for ["draft"]. *)
Lemma getPublishInfo_frame_witness :
  publishViewInfo
    (this (final (getPublishInfo "draft" (Demo.cached_view42 (Demo.signed_in true)))))
    !! "view42"
  = publishViewInfo (this (Demo.cached_view42 (Demo.signed_in true))) !! "view42"
  ∧ publishViewLoaded
      (this (final (getPublishInfo "draft" (Demo.cached_view42 (Demo.signed_in true)))))
    = publishViewLoaded (this (Demo.cached_view42 (Demo.signed_in true)))
  ∧ viewLoaded
      (this (final (getPublishInfo "draft" (Demo.cached_view42 (Demo.signed_in true)))))
    = viewLoaded (this (Demo.cached_view42 (Demo.signed_in true))).
Proof.
  apply (getPublishInfo_frame "draft" "view42"
    (Demo.cached_view42 (Demo.signed_in true))).
  discriminate.
Defined.

(** X4 on a service that has cached ["view42"], when another view is
    published, unpublished or reconfigured. *)
Lemma invalidation_is_targeted_witness :
  (publishViewInfo
     (this (final (publishView "w1" "view7" None
                     (Demo.cached_view42 (Demo.signed_in true)))))
     !! "view42"
   = publishViewInfo (this (Demo.cached_view42 (Demo.signed_in true))) !! "view42"
   ∧ publishViewInfo
       (this (final (unpublishView "w1" "view7"
                       (Demo.cached_view42 (Demo.signed_in true)))))
       !! "view42"
     = publishViewInfo (this (Demo.cached_view42 (Demo.signed_in true)))
         !! "view42")
  ∧ publishViewInfo
      (this (final (updatePublishConfig "w1" Demo.view42_config
                      (Demo.cached_view42 (Demo.signed_in true)))))
      !! "view7"
    = publishViewInfo (this (Demo.cached_view42 (Demo.signed_in true))) !! "view7".
Proof.
  pose proof (invalidation_is_targeted "w1" "view7" "view42" None
    Demo.view42_config "payload" (Demo.cached_view42 (Demo.signed_in true)))
    as (Hpublish & _ & _).
  pose proof (invalidation_is_targeted "w1" "view7" "view7" None
    Demo.view42_config "payload" (Demo.cached_view42 (Demo.signed_in true)))
    as (_ & Hconfig & _).
  split; [apply Hpublish; discriminate|apply Hconfig; discriminate].
Defined.

(** X5 from a new service, through a sequence of calls. *)
Lemma cached_records_are_named_witness :
  named_infos
    (this (exec_all (GetPublishInfo "view42" :: GetPublishInfo "draft"
                       :: Demo.later_calls)
             (Demo.start (Demo.signed_in true))).1).
Proof.
  apply (cached_records_are_named
    (GetPublishInfo "view42" :: GetPublishInfo "draft" :: Demo.later_calls)
    (Demo.start (Demo.signed_in true))).
  intros v record Hv. simpl in Hv. by rewrite lookup_empty in Hv.
Defined.

(** X6 on the record a first [getPublishInfo] leaves in the map. *)
Lemma publish_info_comes_from_getPublishInfo_witness :
  publishViewInfo (this (Demo.start (Demo.signed_in true))) !! "view42"
  = Some (shape Demo.view42_info "ns1")
  ∨ (GetPublishInfo "view42" = GetPublishInfo "view42"
     ∧ settled (getPublishInfo "view42" (Demo.start (Demo.signed_in true)))
       = Resolved (shape Demo.view42_info "ns1")).
Proof.
  apply (publish_info_comes_from_getPublishInfo (GetPublishInfo "view42")
    (Demo.start (Demo.signed_in true)) "view42" (shape Demo.view42_info "ns1")).
  run_it.
Defined.

(** X7 on the keys a first [getPublishView] and a first [getPageDoc] leave
    in their registries. *)
Lemma registries_grow_by_resolved_retrievals_witness :
  ("ns1_note" ∈ publishViewLoaded (this (Demo.start (Demo.signed_in true)))
   ∨ ∃ ns pn doc,
       GetPublishView "ns1" "note" = GetPublishView ns pn
       ∧ "ns1_note" = publishView_name ns pn
       ∧ settled (getPublishView ns pn (Demo.start (Demo.signed_in true)))
         = Resolved doc)
  ∧ ("u1_w1_v1" ∈ viewLoaded (this (Demo.start (Demo.signed_in true)))
     ∨ ∃ ws v cb userId doc,
         GetPageDoc "w1" "v1" None = GetPageDoc ws v cb
         ∧ token_user_id (getTokenParsed (world (Demo.start (Demo.signed_in true))))
           = Some userId
         ∧ "u1_w1_v1" = pageDoc_name userId ws v
         ∧ settled (getPageDoc ws v cb (Demo.start (Demo.signed_in true)))
           = Resolved doc).
Proof.
  pose proof (registries_grow_by_resolved_retrievals (GetPublishView "ns1" "note")
    (Demo.start (Demo.signed_in true)) "ns1_note") as [Hview _].
  pose proof (registries_grow_by_resolved_retrievals (GetPageDoc "w1" "v1" None)
    (Demo.start (Demo.signed_in true)) "u1_w1_v1") as [_ Hpage].
  split; [apply Hview; decide_it|apply Hpage; decide_it].
Defined.



(** X12 on a registered view whose fetch fails: with a view-meta record in
    the local database and without one, the cleanup resuming after the
    call; and with a record, the cleanup resuming during the call. *)
Lemma failed_getPublishView_end_to_end_witness :
  (settled (getPublishView "ns1" "note"
              (Demo.loaded_note
                 (Demo.store_meta "ns1_note" "m" (Demo.signed_in false))))
   = Rejected (Failure 503)
   ∧ calls (getPublishView "ns1" "note"
              (Demo.loaded_note
                 (Demo.store_meta "ns1_note" "m" (Demo.signed_in false))))
     = [CacheGetPublishView "ns1" "note" CACHE_FIRST;
        FetchPublishView "ns1" "note"; ConsoleError (Failure 503);
        CacheHasViewMetaCache "ns1_note"]
   ∧ calls (settle_detached
              (final (getPublishView "ns1" "note"
                        (Demo.loaded_note
                           (Demo.store_meta "ns1_note" "m"
                              (Demo.signed_in false))))))
     = [CacheDeleteView "ns1_note"]
   ∧ publishViewLoaded
       (this (final (settle_detached
                (final (getPublishView "ns1" "note"
                          (Demo.loaded_note
                             (Demo.store_meta "ns1_note" "m"
                                (Demo.signed_in false))))))))
     = ∅)
  ∧ (calls (settle_detached
              (final (getPublishView "ns1" "note"
                        (Demo.loaded_note (Demo.signed_in false)))))
     = []
     ∧ this (final (settle_detached
               (final (getPublishView "ns1" "note"
                         (Demo.loaded_note (Demo.signed_in false))))))
       = this (Demo.loaded_note (Demo.signed_in false)))
  ∧ (settled (getPublishView (P := Demo.busy) "ns1" "note"
                (Demo.busy_loaded_note
                   (Demo.store_meta "ns1_note" "m" (Demo.signed_in false))))
     = Rejected (Failure 503)
     ∧ calls (getPublishView (P := Demo.busy) "ns1" "note"
                (Demo.busy_loaded_note
                   (Demo.store_meta "ns1_note" "m" (Demo.signed_in false))))
       = [CacheGetPublishView "ns1" "note" CACHE_FIRST;
          FetchPublishView "ns1" "note"; ConsoleError (Failure 503);
          CacheHasViewMetaCache "ns1_note"; CacheDeleteView "ns1_note"]
     ∧ publishViewLoaded
         (this (final (getPublishView (P := Demo.busy) "ns1" "note"
                         (Demo.busy_loaded_note
                            (Demo.store_meta "ns1_note" "m"
                               (Demo.signed_in false))))))
       = ∅
     ∧ detached
         (final (getPublishView (P := Demo.busy) "ns1" "note"
                   (Demo.busy_loaded_note
                      (Demo.store_meta "ns1_note" "m" (Demo.signed_in false)))))
       = []).
Proof.
  epose proof (failed_getPublishView_end_to_end "ns1" "note"
    (Demo.loaded_note (Demo.store_meta "ns1_note" "m" (Demo.signed_in false)))
    _ _ (Failure 503) _) as Hwith.
  epose proof (failed_getPublishView_end_to_end "ns1" "note"
    (Demo.loaded_note (Demo.signed_in false))
    _ _ (Failure 503) _) as Hwithout.
  epose proof (failed_getPublishView_end_to_end (P := Demo.busy) "ns1" "note"
    (Demo.busy_loaded_note
       (Demo.store_meta "ns1_note" "m" (Demo.signed_in false)))
    _ _ (Failure 503) _) as Hbusy.
  cbv zeta in Hwith, Hwithout, Hbusy.
  destruct Hwith as (Hwith & _); [reflexivity..|].
  destruct Hwithout as (Hwithout & _); [reflexivity..|].
  destruct Hbusy as (_ & Hbusy); [reflexivity..|].
  edestruct (Hwith (Failure 503)) as [Hrun Hrecord]; [reflexivity|].
  edestruct (Hwithout (Failure 503)) as [_ Hnone]; [reflexivity|].
  split; [|split].
  - rewrite Hrecord, Hrun.
    split; [reflexivity|]. split; [reflexivity|]. split; [reflexivity|run_it].
  - rewrite Hnone. split; reflexivity.
  - erewrite Hbusy by reflexivity.
    split; [reflexivity|]. split; [reflexivity|]. split; [run_it|reflexivity].
Defined.

(** X13 on a registered page whose fetch fails, with a callback that
    throws. *)
Lemma throwing_errorCallback_skips_cleanup_witness :
  settled (getPageDoc "w1" "v1" (Some (λ _ w, (Rejected (Failure 7), w)))
             (Demo.loaded_page (Demo.signed_in false)))
  = Rejected (Failure 7)
  ∧ this (final (getPageDoc "w1" "v1" (Some (λ _ w, (Rejected (Failure 7), w)))
                   (Demo.loaded_page (Demo.signed_in false))))
    = this (Demo.loaded_page (Demo.signed_in false))
  ∧ calls (getPageDoc "w1" "v1" (Some (λ _ w, (Rejected (Failure 7), w)))
             (Demo.loaded_page (Demo.signed_in false)))
    = [GetTokenParsed; CacheGetPageDoc "u1_w1_v1" CACHE_FIRST;
       FetchPageCollab "w1" "v1"; ConsoleError (Failure 503);
       ErrorCallback (Failure 503)].
Proof.
  epose proof (throwing_errorCallback_skips_cleanup "w1" "v1"
    (λ _ w, (Rejected (Failure 7), w)) "u1"
    (Demo.loaded_page (Demo.signed_in false))
    _ _ (Failure 503) _ (Failure 7) _ (Failure 7) _) as Hrun.
  cbv zeta in Hrun. rewrite Hrun by reflexivity.
  split; [reflexivity|]. split; [reflexivity|]. run_it.
Defined.

(** X15 on a signed-in session. *)
Lemma registerDocUpdate_registers_again_witness :
  calls (registerDocUpdate "doc" Demo.v1_context
           (final (registerDocUpdate "doc" Demo.v1_context
                     (Demo.start (Demo.signed_in true)))))
  = [GetTokenParsed; SyncNew "u1" "w1" "v1"; SyncInitialize "u1" "w1" "v1"]
  ∧ Demo.syncing
      (world (final (registerDocUpdate "doc" Demo.v1_context
                       (final (registerDocUpdate "doc" Demo.v1_context
                                 (Demo.start (Demo.signed_in true)))))))
    = ["v1"; "v1"].
Proof.
  pose proof (registerDocUpdate_registers_again (P := Demo.platform) "doc"
    Demo.v1_context "u1" (Demo.start (Demo.signed_in true)) eq_refl eq_refl
    (λ w, eq_refl)) as Hrun.
  cbv zeta in Hrun. destruct Hrun as (_ & _ & Htwice & Honce & Hworld & _).
  split; [by rewrite Htwice, Honce|]. by rewrite Hworld.
Defined.

(** X16 on a workspace whose [databases] array names ["db1"] twice and
    ["db2"] without views. *)
Lemma database_relations_last_entry_first_view_witness :
  (∃ result,
     getAppDatabaseViewRelations (A := DemoApp.app true) "w1" "storage"
       (Demo.signed_in true)
     = (Resolved result, Demo.signed_in true, [ApiGetCollab "w1" "storage"])
     ∧ result !! "db1" = Some (Some "calendar1"))
  ∧ (∃ result,
       getAppDatabaseViewRelations (A := DemoApp.app true) "w1" "storage"
         (Demo.signed_in true)
       = (Resolved result, Demo.signed_in true, [ApiGetCollab "w1" "storage"])
       ∧ result !! "db2" = Some None)
  ∧ (∃ result,
       getAppDatabaseViewRelations (A := DemoApp.app true) "w1" "storage"
         (Demo.signed_in true)
       = (Resolved result, Demo.signed_in true, [ApiGetCollab "w1" "storage"])
       ∧ result !! "db3" = None).
Proof.
  split; [|split].
  - destruct (database_relations_last_entry_first_view (A := DemoApp.app true)
      "w1" "storage" (Demo.signed_in true) DemoApp.workspace_databases
      (Demo.signed_in true) DemoApp.workspace_databases "db1" eq_refl eq_refl)
      as (result & Hrun & Hkey);
      [discriminate|].
    exists result. split; [exact Hrun|]. rewrite Hkey. run_it.
  - destruct (database_relations_last_entry_first_view (A := DemoApp.app true)
      "w1" "storage" (Demo.signed_in true) DemoApp.workspace_databases
      (Demo.signed_in true) DemoApp.workspace_databases "db2" eq_refl eq_refl)
      as (result & Hrun & Hkey);
      [discriminate|].
    exists result. split; [exact Hrun|]. rewrite Hkey. run_it.
  - destruct (database_relations_last_entry_first_view (A := DemoApp.app true)
      "w1" "storage" (Demo.signed_in true) DemoApp.workspace_databases
      (Demo.signed_in true) DemoApp.workspace_databases "db3" eq_refl eq_refl)
      as (result & Hrun & Hkey);
      [discriminate|].
    exists result. split; [exact Hrun|]. rewrite Hkey. run_it.
Defined.

(** X17 on the same workspace. *)
Lemma database_relations_keys_witness :
  ∃ result,
    settled_remote
      (getAppDatabaseViewRelations (A := DemoApp.app true) "w1" "storage"
         (Demo.signed_in true))
    = Resolved result
    ∧ dom result = {["db1"; "db2"]}.
Proof.
  destruct (database_relations_keys (A := DemoApp.app true)
    "w1" "storage" (Demo.signed_in true) DemoApp.workspace_databases
    (Demo.signed_in true) DemoApp.workspace_databases eq_refl eq_refl)
    as (result & Hrun & Hdom).
  exists result. split; [exact Hrun|]. rewrite Hdom. run_it.
Defined.

(** X18 on a sign-in after which [afterAuth] throws, and on one that goes
    through. *)
Lemma loginAuth_invalid_iff_rejected_witness :
  Emit SESSION_INVALID
  ∈ calls_remote (loginAuth (A := DemoApp.app false) "url" (Demo.signed_in true))
  ∧ calls_remote (loginAuth (A := DemoApp.app true) "url" (Demo.signed_in true))
    = [ApiSignInWithUrl "url"; Emit SESSION_VALID; AfterAuth].
Proof.
  pose proof (loginAuth_invalid_iff_rejected (A := DemoApp.app false) "url"
    (Demo.signed_in true)) as [[_ Hinvalid] _].
  pose proof (loginAuth_invalid_iff_rejected (A := DemoApp.app true) "url"
    (Demo.signed_in true)) as [_ Hvalid].
  split; [apply Hinvalid; discriminate|apply Hvalid; reflexivity].
Defined.

(** X19 on a server that does not answer. *)
Lemma loginAuth_failed_sign_in_witness :
  loginAuth (A := DemoApp.app true) "url" (Demo.signed_in false)
  = (Rejected (Failure 503), Demo.signed_in false,
     [ApiSignInWithUrl "url"; Emit SESSION_INVALID]).
Proof.
  destruct (loginAuth_failed_sign_in (A := DemoApp.app true) "url"
    (Demo.signed_in false) (Failure 503) (Demo.signed_in false) eq_refl)
    as [_ Hrun].
  apply Hrun. reflexivity.
Defined.

(** X20 on a sign-in after which [afterAuth] throws. *)
Lemma loginAuth_afterAuth_throws_witness :
  loginAuth (A := DemoApp.app false) "url" (Demo.signed_in true)
  = (Rejected (Failure 1), Demo.signed_in true,
     [ApiSignInWithUrl "url"; Emit SESSION_VALID; AfterAuth;
      Emit SESSION_INVALID]).
Proof.
  apply (loginAuth_afterAuth_throws (A := DemoApp.app false) "url"
    (Demo.signed_in true) (Demo.signed_in true) (Demo.signed_in true)
    (Failure 1) (Demo.signed_in true) (Demo.signed_in true));
    reflexivity.
Defined.

(** X21 on a file whose import task is created, and on a server that does
    not answer. *)
Lemma importFile_uploads_to_its_task_witness :
  ApiUploadImportFile "https://upload/notes.zip"
  ∈ calls_remote
      (importFile (A := DemoApp.app true) "notes.zip" () (Demo.signed_in true))
  ∧ importFile (A := DemoApp.app true) "notes.zip" () (Demo.signed_in false)
    = (Rejected (Failure 503), Demo.signed_in false, [ApiCreateImportTask]).
Proof.
  pose proof (importFile_uploads_to_its_task (A := DemoApp.app true)
    "notes.zip" () (Demo.signed_in true) "https://upload/notes.zip")
    as [[_ Hupload] _].
  pose proof (importFile_uploads_to_its_task (A := DemoApp.app true)
    "notes.zip" () (Demo.signed_in false) "https://upload/notes.zip")
    as [_ Hfail].
  split.
  - apply Hupload. exists "https://upload/notes.zip", (Demo.signed_in true).
    split; reflexivity.
  - apply (Hfail (Failure 503) (Demo.signed_in false)). reflexivity.
Defined.

End MoreRuns.
